(** * Intl.DateTimeFormat: option resolution, time-zone canonicalisation,
      resolved options and parts mapping

    A shallow embedding of [src/objects/js-date-time-format.cc].  Each
    definition carries the name of the C++ function it embeds.  The ICU
    library and the helpers of [Intl::] and [Object::] that live in other
    translation units are collaborators: their behaviour is either a field
    of the record [Env] or a small definition whose comment says where it
    comes from. *)

From Stdlib Require Import ZArith Ascii String.
From stdpp Require Import base option list strings gmap.


(** ** Characters and [std::string] *)

(** Modelled from the spec: the helper [IsInRange(value, lower, higher)] of
    src/utils.h is not among the sources; the spec's character classes
    ([0-9], [0-4], ASCII letters) are inclusive ranges of character codes. *)
Definition IsInRange (ch lo hi : ascii) : bool :=
  (nat_of_ascii lo <=? nat_of_ascii ch)%nat && (nat_of_ascii ch <=? nat_of_ascii hi)%nat.

Definition IsAsciiAlpha (ch : ascii) : bool :=
  IsInRange ch "A" "Z" || IsInRange ch "a" "z".

Definition LocaleIndependentAsciiToUpper (ch : ascii) : ascii :=
  if IsInRange ch "a" "z"
  then ascii_of_nat (nat_of_ascii ch - nat_of_ascii "a" + nat_of_ascii "A")
  else ch.

Definition LocaleIndependentAsciiToLower (ch : ascii) : ascii :=
  if IsInRange ch "A" "Z"
  then ascii_of_nat (nat_of_ascii ch - nat_of_ascii "A" + nat_of_ascii "a")
  else ch.

(** [s[i]] for [i < s.length()]. *)
Definition char_at (s : string) (i : nat) : ascii :=
  default zero (String.get i s).

(** [s += ch]. *)
Definition push_back (s : string) (ch : ascii) : string :=
  s +:+ String ch "".

(** [s[i] = ch]. *)
Fixpoint set_char (s : string) (i : nat) (ch : ascii) : string :=
  match s, i with
  | "", _ => ""
  | String _ s', 0 => String ch s'
  | String c s', S i' => String c (set_char s' i' ch)
  end.

(** [std::transform(s.begin(), s.end(), s.begin(), f)]. *)
Fixpoint transform (f : ascii -> ascii) (s : string) : string :=
  match s with
  | "" => ""
  | String c s' => String (f c) (transform f s')
  end.

(** [strncmp(a, b, n) == 0] on the C strings of [a] and [b]: at most [n]
    characters are compared and the comparison stops at a terminating NUL. *)
Fixpoint strncmp_eq (a b : string) (n : nat) : bool :=
  match n with
  | 0 => true
  | S n' =>
      let ca := match a with "" => zero | String c _ => c end in
      let cb := match b with "" => zero | String c _ => c end in
      if negb (Ascii.eqb ca cb) then false
      else if Ascii.eqb ca zero then true
      else strncmp_eq (match a with "" => "" | String _ a' => a' end)
                      (match b with "" => "" | String _ b' => b' end) n'
  end.

(** ** Time-zone canonicalisation *)

Definition GetGMTTzID (input : string) : string :=
  let ret := "Etc/GMT" in
  match String.length input with
  | 8 =>
      if Ascii.eqb (char_at input 7) "0" then push_back ret "0" else ""
  | 9 =>
      if (Ascii.eqb (char_at input 7) "+" || Ascii.eqb (char_at input 7) "-")
         && IsInRange (char_at input 8) "0" "9"
      then push_back (push_back ret (char_at input 7)) (char_at input 8)
      else ""
  | 10 =>
      if (Ascii.eqb (char_at input 7) "+" || Ascii.eqb (char_at input 7) "-")
         && Ascii.eqb (char_at input 8) "1"
         && IsInRange (char_at input 9) "0" "4"
      then push_back (push_back (push_back ret (char_at input 7)) (char_at input 8))
                     (char_at input 9)
      else ""
  | _ => ""
  end.

(** The loop of [ToTitleCaseTimezoneLocation] over the characters still to
    be read, with the loop variables [title_cased] and [word_length]. *)
Fixpoint ToTitleCase_loop (rest title_cased : string) (word_length : nat) : string :=
  match rest with
  | "" => title_cased
  | String ch rest' =>
      if IsAsciiAlpha ch then
        ToTitleCase_loop rest'
          (push_back title_cased
             (if (word_length =? 0)%nat then LocaleIndependentAsciiToUpper ch
              else LocaleIndependentAsciiToLower ch))
          (S word_length)
      else if Ascii.eqb ch "_" || Ascii.eqb ch "-" || Ascii.eqb ch "/" then
        let title_cased' :=
          if (word_length =? 2)%nat then
            let pos := String.length title_cased - 2 in
            let substr := String.substring pos 2 title_cased in
            if String.eqb substr "Of" || String.eqb substr "Es" || String.eqb substr "Au"
            then set_char title_cased pos
                   (LocaleIndependentAsciiToLower (char_at title_cased pos))
            else title_cased
          else title_cased in
        ToTitleCase_loop rest' (push_back title_cased' ch) 0
      else ""
  end.

Definition ToTitleCaseTimezoneLocation (input : string) : string :=
  ToTitleCase_loop input "" 0.

Definition CanonicalizeTimeZoneID (input : string) : string :=
  let upper := transform LocaleIndependentAsciiToUpper input in
  if String.eqb upper "UTC" || String.eqb upper "GMT" || String.eqb upper "ETC/UTC"
     || String.eqb upper "ETC/GMT"
  then "UTC"
  else if strncmp_eq upper "ETC/GMT" 7 then GetGMTTzID input
  else ToTitleCaseTimezoneLocation input.

(** ** Pattern tables *)

(** [std::string::find(needle) != npos]: [string_find] is the position of the
    first occurrence. *)
Fixpoint string_find (s needle : string) : option nat :=
  if String.prefix needle s then Some 0
  else match s with
       | "" => None
       | String _ s' => S <$> string_find s' needle
       end.

Module PatternMap.
Record t := { pattern : string; value : string }.
End PatternMap.

Module PatternItem.
Record t := {
  property : string;
  (* It is important for the pattern in the pairs from longer one to shorter
     one if the longer one contains substring of an shorter one. *)
  pairs : list PatternMap.t;
  allowed_values : list string
}.
End PatternItem.

Definition mk (p v : string) : PatternMap.t :=
  {| PatternMap.pattern := p; PatternMap.value := v |}.

Definition GetPatternItems : list PatternItem.t :=
  let kLongShort := ["long"; "short"] in
  let kNarrowLongShort := ["narrow"; "long"; "short"] in
  let k2DigitNumeric := ["2-digit"; "numeric"] in
  let kNarrowLongShort2DigitNumeric := ["narrow"; "long"; "short"; "2-digit"; "numeric"] in
  [ {| PatternItem.property := "weekday";
       PatternItem.pairs := [mk "EEEEE" "narrow"; mk "EEEE" "long"; mk "EEE" "short";
                 mk "ccccc" "narrow"; mk "cccc" "long"; mk "ccc" "short"];
       PatternItem.allowed_values := kNarrowLongShort |};
    {| PatternItem.property := "era";
       PatternItem.pairs := [mk "GGGGG" "narrow"; mk "GGGG" "long"; mk "GGG" "short"];
       PatternItem.allowed_values := kNarrowLongShort |};
    {| PatternItem.property := "year";
       PatternItem.pairs := [mk "yy" "2-digit"; mk "y" "numeric"];
       PatternItem.allowed_values := k2DigitNumeric |};
    {| PatternItem.property := "month";
       PatternItem.pairs := [mk "MMMMM" "narrow"; mk "MMMM" "long"; mk "MMM" "short";
                 mk "MM" "2-digit"; mk "M" "numeric";
                 mk "LLLLL" "narrow"; mk "LLLL" "long"; mk "LLL" "short";
                 mk "LL" "2-digit"; mk "L" "numeric"];
       PatternItem.allowed_values := kNarrowLongShort2DigitNumeric |};
    {| PatternItem.property := "day";
       PatternItem.pairs := [mk "dd" "2-digit"; mk "d" "numeric"];
       PatternItem.allowed_values := k2DigitNumeric |};
    {| PatternItem.property := "hour";
       PatternItem.pairs := [mk "HH" "2-digit"; mk "H" "numeric"; mk "hh" "2-digit"; mk "h" "numeric";
                 mk "kk" "2-digit"; mk "k" "numeric"; mk "KK" "2-digit"; mk "K" "numeric"];
       PatternItem.allowed_values := k2DigitNumeric |};
    {| PatternItem.property := "minute";
       PatternItem.pairs := [mk "mm" "2-digit"; mk "m" "numeric"];
       PatternItem.allowed_values := k2DigitNumeric |};
    {| PatternItem.property := "second";
       PatternItem.pairs := [mk "ss" "2-digit"; mk "s" "numeric"];
       PatternItem.allowed_values := k2DigitNumeric |};
    {| PatternItem.property := "timeZoneName";
       PatternItem.pairs := [mk "zzzz" "long"; mk "z" "short"];
       PatternItem.allowed_values := kLongShort |} ].

(** [PatternData]: the pairs turned into a [std::map] from value to pattern.
    [std::map::insert] keeps the entry already stored under a key. *)
Module PatternData.
Record t := {
  property : string;
  map : gmap string string;
  allowed_values : list string
}.
End PatternData.

Definition map_insert (k v : string) (m : gmap string string) : gmap string string :=
  match m !! k with
  | Some _ => m
  | None => <[k := v]> m
  end.

Definition NewPatternData (property : string) (pairs : list PatternMap.t)
    (allowed_values : list string) : PatternData.t :=
  {| PatternData.property := property;
     PatternData.map :=
       foldl (fun m pair => map_insert (PatternMap.value pair) (PatternMap.pattern pair) m)
             ∅ pairs;
     PatternData.allowed_values := allowed_values |}.

Definition CreateCommonData (hour_data : PatternData.t) : list PatternData.t :=
  foldl (fun build item =>
           if String.eqb (PatternItem.property item) "hour" then build ++ [hour_data]
           else build ++ [NewPatternData (PatternItem.property item) (PatternItem.pairs item)
                            (PatternItem.allowed_values item)])
        [] GetPatternItems.

Definition CreateData (digit2 numeric : string) : list PatternData.t :=
  CreateCommonData
    (NewPatternData "hour" [mk digit2 "2-digit"; mk numeric "numeric"]
       ["2-digit"; "numeric"]).

(** [Intl::HourCycle]. *)
Inductive HourCycle := kUndefined | kH11 | kH12 | kH23 | kH24.

Global Instance HourCycle_eq_dec : EqDecision HourCycle.
Proof. solve_decision. Defined.

Definition GetPatternData (hour_cycle : HourCycle) : list PatternData.t :=
  let data := CreateData "jj" "j" in
  let data_h11 := CreateData "KK" "K" in
  let data_h12 := CreateData "hh" "h" in
  let data_h23 := CreateData "HH" "H" in
  let data_h24 := CreateData "kk" "k" in
  match hour_cycle with
  | kH11 => data_h11
  | kH12 => data_h12
  | kH23 => data_h23
  | kH24 => data_h24
  | kUndefined => data
  end.

(** ** Values, objects and the isolate *)

(** A [double] holding a time value.  Only [std::isnan] and the range test of
    [DateCache::TimeClip] inspect it, so the finite values are kept as whole
    milliseconds. *)
Inductive double := NaN | Infinity (negative : bool) | Finite (ms : Z).

Definition isnan (x : double) : bool :=
  match x with NaN => true | _ => false end.

(** ICU's [UnicodeString] and the JavaScript strings made from it: UTF-16 code
    units. *)
Definition UChar := N.
Definition UnicodeString := list UChar.

Definition UNICODE_STRING_SIMPLE (s : string) : UnicodeString :=
  (fun c => N_of_ascii c) <$> list_ascii_of_string s.

(** Address of a heap object. *)
Definition loc := positive.

(** A tagged value ([Handle<Object>]).  String values used as options are
    kept in the byte form that [Intl::GetStringOption] hands to the code. *)
Inductive Object :=
| undefined_value
| null_value
| Boolean (b : bool)
| Str (s : string)
| JSReceiver (l : loc).

Definition IsUndefined (v : Object) : bool :=
  match v with undefined_value => true | _ => false end.

(** [icu::Locale]: base name and keywords (Unicode extension keys). *)
Record Locale := { base_name : string; keywords : gmap string string }.

Record Calendar := {
  calendar_type : string;
  calendar_time_zone : string;
  is_gregorian : bool;
  gregorian_change : option Z
}.

Record SimpleDateFormat := {
  sdf_pattern : string;
  sdf_locale : Locale;
  sdf_calendar : option Calendar
}.

(** The fields of a [JSDateTimeFormat]: its flags, which hold the hour
    cycle, and the two managed ICU objects, null until they are set. *)
Module JSDateTimeFormat.
Record t := {
  hour_cycle : HourCycle;
  icu_locale : option Locale;
  icu_simple_date_format : option SimpleDateFormat
}.

(** [set_flags(0)]: the hour cycle is the only flag, and 0 encodes
    [HourCycle::kUndefined]. *)
Definition set_flags_0 (f : t) : t :=
  {| hour_cycle := kUndefined; icu_locale := icu_locale f;
     icu_simple_date_format := icu_simple_date_format f |}.

Definition set_hour_cycle (hc : HourCycle) (f : t) : t :=
  {| hour_cycle := hc; icu_locale := icu_locale f;
     icu_simple_date_format := icu_simple_date_format f |}.

Definition set_icu_locale (l : Locale) (f : t) : t :=
  {| hour_cycle := hour_cycle f; icu_locale := Some l;
     icu_simple_date_format := icu_simple_date_format f |}.

Definition set_icu_simple_date_format (d : SimpleDateFormat) (f : t) : t :=
  {| hour_cycle := hour_cycle f; icu_locale := icu_locale f;
     icu_simple_date_format := Some d |}.

(** The fields of a formatter that was just allocated: none is set. *)
Definition New : t :=
  {| hour_cycle := kUndefined; icu_locale := None; icu_simple_date_format := None |}.

Definition HourCycleAsString (f : t) : string :=
  match hour_cycle f with
  | kUndefined => "undefined"
  | kH11 => "h11"
  | kH12 => "h12"
  | kH23 => "h23"
  | kH24 => "h24"
  end.
End JSDateTimeFormat.

(** A heap object: own data properties in creation order, the prototype,
    the time value when the object is a [JSDate], and the fields of the
    formatter when it is a [JSDateTimeFormat]. *)
Record JSObject := {
  properties : list (string * Object);
  prototype : option loc;
  date_value : option double;
  format_fields : option JSDateTimeFormat.t
}.

Inductive ICUObjectCacheType :=
| kDefaultSimpleDateFormat
| kDefaultSimpleDateFormatForTime
| kDefaultSimpleDateFormatForDate.

Global Instance ICUObjectCacheType_eq_dec : EqDecision ICUObjectCacheType.
Proof. solve_decision. Defined.

Record Isolate := {
  heap : gmap loc JSObject;
  icu_object_cache : list (ICUObjectCacheType * SimpleDateFormat)
}.

Inductive MessageTemplate :=
| kInvalidTimeValue
| kInvalidTimeZone (tz : string)
| kMethodInvokedOnWrongType (what : string)
| kIcuError.

(** A pending exception: the errors that the source creates itself, the
    error kind InvalidOptionValue of the spec, raised by the option getters,
    and [Pending f], whatever exception the collaborator [f], whose code is
    elsewhere, left pending. *)
Inductive Exception :=
| NewRangeError (t : MessageTemplate)
| NewTypeError (t : MessageTemplate)
| InvalidOptionValue (val prop : string)
| Pending (origin : string).

(** Outcome of a call: a value, a thrown exception, or a process abort
    ([CHECK], [FATAL], [UNREACHABLE]). *)
Inductive Maybe (A : Type) :=
| Just (a : A)
| Throw (e : Exception)
| Fatal.
Arguments Just {A} a.
Arguments Throw {A} e.
Arguments Fatal {A}.

(** Computations that run against the isolate. *)
Definition M (A : Type) : Type := Isolate -> Maybe A * Isolate.

Global Instance M_ret : MRet M := fun A a iso => (Just a, iso).
Global Instance M_bind : MBind M := fun A B k c iso =>
  match c iso with
  | (Just a, iso') => k a iso'
  | (Throw e, iso') => (Throw e, iso')
  | (Fatal, iso') => (Fatal, iso')
  end.

Definition throw {A} (e : Exception) : M A := fun iso => (Throw e, iso).
Definition fatal {A} : M A := fun iso => (Fatal, iso).
Definition lift {A} (r : Maybe A) : M A := fun iso => (r, iso).

(** ** Heap objects *)

Definition set_heap (h : gmap loc JSObject) (iso : Isolate) : Isolate :=
  {| heap := h; icu_object_cache := icu_object_cache iso |}.

(** Modelled from the spec: object allocation ([Factory::NewJSObject] and
    its variants) is not among the sources.  The spec speaks of a fresh
    object, an empty options view: a new address, no own properties. *)
Definition NewJSObject (proto : option loc) : M loc := fun iso =>
  let l := fresh (dom (heap iso)) in
  (Just l,
   set_heap (<[l := {| properties := []; prototype := proto; date_value := None;
                        format_fields := None |}]> (heap iso))
            iso).

(** [factory->NewJSObjectWithNullProto()]. *)
Definition NewJSObjectWithNullProto : M loc := NewJSObject None.

(** [JSObject::ObjectCreate(isolate, prototype)]. *)
Definition ObjectCreate (proto : loc) : M loc := NewJSObject (Some proto).

Fixpoint assoc (key : string) (props : list (string * Object)) : option Object :=
  match props with
  | [] => None
  | (k, v) :: props' => if String.eqb k key then Some v else assoc key props'
  end.

(** Modelled from the spec: property lookup, "consistent with
    prototype-chain semantics": the own properties first, then the
    prototype's.  A chain visits every object of the heap at most once, which
    bounds the walk. *)
Fixpoint lookup_chain (fuel : nat) (h : gmap loc JSObject) (l : loc) (key : string) : Object :=
  match fuel with
  | 0 => undefined_value
  | S fuel' =>
      match h !! l with
      | None => undefined_value
      | Some o =>
          match assoc key (properties o) with
          | Some v => v
          | None =>
              match prototype o with
              | Some l' => lookup_chain fuel' h l' key
              | None => undefined_value
              end
          end
      end
  end.

(** Modelled from the spec: [Object::GetPropertyOrElement(isolate, object,
    name)], the Get of the source's comments, on data properties. *)
Definition GetPropertyOrElement (object : loc) (name : string) : M Object := fun iso =>
  (Just (lookup_chain (S (size (heap iso))) (heap iso) object name), iso).

Fixpoint define_own (key : string) (v : Object) (props : list (string * Object))
  : list (string * Object) :=
  match props with
  | [] => [(key, v)]
  | (k, v') :: props' =>
      if String.eqb k key then (k, v) :: props' else (k, v') :: define_own key v props'
  end.

(** Modelled from the spec: [JSReceiver::CreateDataProperty(isolate, object,
    name, value, should_throw)], by which the source sets a field on the
    options view or on the resolved options: on an ordinary extensible object
    the own property is created, or its value replaced. *)
Definition CreateDataProperty (object : loc) (name : string) (v : Object) : M bool := fun iso =>
  match heap iso !! object with
  | None => (Fatal, iso)
  | Some o =>
      (Just true,
       set_heap (<[object := {| properties := define_own name v (properties o);
                                prototype := prototype o;
                                date_value := date_value o;
                                format_fields := format_fields o |}]> (heap iso)) iso)
  end.

(** Modelled from the spec: [Object::ToObject(isolate, value)], the "wrap"
    of "wrap/clone the input options": a receiver is returned as it is,
    [undefined] and [null] have no object and leave an exception pending, and
    another primitive is wrapped in a new object (the wrapper's built-in
    prototype is outside the model). *)
Definition ToObject (v : Object) : M loc :=
  match v with
  | JSReceiver l => mret l
  | undefined_value | null_value => throw (Pending "Object::ToObject")
  | Boolean _ | Str _ => NewJSObject None
  end.

(** Modelled from the spec: [Object::BooleanValue], the truth value of an
    explicitly set hour12. *)
Definition BooleanValue (v : Object) : bool :=
  match v with
  | undefined_value | null_value => false
  | Boolean b => b
  | Str s => negb (String.eqb s "")
  | JSReceiver _ => true
  end.

(** ** The formatter behind a handle *)

(** Modelled from the spec: [JSObject::New(constructor, constructor, site)]
    of src/objects/js-objects.cc is not among the sources.  The construction
    of a formatter starts from a new object: a new address, the prototype of
    the constructor, no own property, and the fields of a formatter, none of
    them set yet. *)
Definition JSObject_New (constructor_prototype : loc) : M loc := fun iso =>
  let l := fresh (dom (heap iso)) in
  (Just l,
   set_heap (<[l := {| properties := []; prototype := Some constructor_prototype;
                        date_value := None;
                        format_fields := Some JSDateTimeFormat.New |}]> (heap iso))
            iso).

(** Modelled from the spec: the accessors of [JSDateTimeFormat] are
    generated in js-date-time-format-inl.h, which is not among the sources.
    [date_time_format->hour_cycle()] and the like read the fields of the
    object behind the handle.  The handles of the source are typed; an address
    that holds no formatter is no state of the program, and the model aborts
    on it. *)
Definition get_fields (date_time_format : loc) : M JSDateTimeFormat.t := fun iso =>
  match heap iso !! date_time_format ≫= format_fields with
  | Some f => (Just f, iso)
  | None => (Fatal, iso)
  end.

(** Modelled from the spec: [date_time_format->set_flags(0)],
    [->set_hour_cycle(hc)] and the like write one field of the object behind
    the handle, in place: the setter [set] is applied to its fields, and
    nothing else of the object changes. *)
Definition set_fields (date_time_format : loc)
    (set : JSDateTimeFormat.t -> JSDateTimeFormat.t) : M unit := fun iso =>
  match heap iso !! date_time_format with
  | Some o =>
      match format_fields o with
      | Some f =>
          (Just tt,
           set_heap (<[date_time_format :=
                         {| properties := properties o;
                            prototype := prototype o;
                            date_value := date_value o;
                            format_fields := Some (set f) |}]> (heap iso)) iso)
      | None => (Fatal, iso)
      end
  | None => (Fatal, iso)
  end.

(** ** Collaborators *)

Module RequiredOption.
Inductive t := kDate | kTime | kAny.
End RequiredOption.

Module DefaultsOption.
Inductive t := kDate | kTime | kAll.
End DefaultsOption.

Module FormatMatcherOption.
Inductive t := kBestFit | kBasic.
End FormatMatcherOption.

(** [Intl::MatcherOption]. *)
Inductive MatcherOption := kBestFit | kLookup.

(** [Intl::ResolvedLocale]. *)
Module ResolvedLocale.
Record t := {
  icu_locale : Locale;
  extensions : gmap string string
}.
End ResolvedLocale.

(** [UDateFormatField] of unicode/udat.h, as far as the code names its
    members; [kLiteralField] is the id -1 and [UDAT_other] any other id. *)
Inductive UDateFormatField :=
| kLiteralField
| UDAT_ERA_FIELD
| UDAT_YEAR_FIELD
| UDAT_EXTENDED_YEAR_FIELD
| UDAT_YEAR_NAME_FIELD
| UDAT_MONTH_FIELD
| UDAT_STANDALONE_MONTH_FIELD
| UDAT_DATE_FIELD
| UDAT_HOUR_OF_DAY1_FIELD
| UDAT_HOUR_OF_DAY0_FIELD
| UDAT_HOUR1_FIELD
| UDAT_HOUR0_FIELD
| UDAT_MINUTE_FIELD
| UDAT_SECOND_FIELD
| UDAT_DAY_OF_WEEK_FIELD
| UDAT_DOW_LOCAL_FIELD
| UDAT_STANDALONE_DAY_FIELD
| UDAT_AM_PM_FIELD
| UDAT_TIMEZONE_FIELD
| UDAT_TIMEZONE_RFC_FIELD
| UDAT_TIMEZONE_GENERIC_FIELD
| UDAT_TIMEZONE_SPECIAL_FIELD
| UDAT_TIMEZONE_LOCALIZED_GMT_OFFSET_FIELD
| UDAT_TIMEZONE_ISO_FIELD
| UDAT_TIMEZONE_ISO_LOCAL_FIELD
| UDAT_other (id : Z).

(** [icu::FieldPosition]. *)
Record FieldPosition := {
  getField : UDateFormatField;
  getBeginIndex : Z;
  getEndIndex : Z
}.

(** What the code asks of ICU, of [Intl::], of the date cache and of the
    native context. *)
Record Env := {
  (* %ObjectPrototype%, the prototype of the objects that
     factory->NewJSObject(isolate->object_function()) allocates *)
  object_function_prototype : loc;
  (* the prototype of the objects of
     native_context()->intl_date_time_format_function() *)
  intl_date_time_format_function_prototype : loc;
  (* DateCache::kMaxTimeInMs, the bound of the representable date range *)
  kMaxTimeInMs : Z;
  (* Intl::CanonicalizeLocaleList; None when it left an exception pending *)
  CanonicalizeLocaleList : Object -> option (list string);
  (* Object::ToString on a receiver; None when it left an exception pending *)
  ReceiverToString : loc -> option string;
  (* icu::DateFormat::getAvailableLocales through Intl::BuildLocaleSet *)
  AvailableLocales : list string;
  (* Intl::ResolveLocale *)
  ResolveLocale : list string -> list string -> MatcherOption -> list string -> ResolvedLocale.t;
  (* Intl::ToLanguageTag; None when it fails *)
  ToLanguageTag : Locale -> option string;
  (* Intl::GetNumberingSystem *)
  GetNumberingSystem : Locale -> string;
  (* Intl::ToString(isolate, string) on the canonical id of a time zone:
     false when it left an exception pending *)
  Intl_ToString_ok : string -> bool;
  (* the status of icu_locale.setKeywordValue(uloc_toLegacyKey(key), nullptr,
     status) *)
  setKeywordValue_ok : string -> Locale -> bool;
  (* icu::TimeZone::createDefault: the id of the default zone *)
  createDefault : string;
  (* icu::TimeZone::createTimeZone: the id of the zone it returns *)
  createTimeZone : string -> string;
  (* icu::TimeZone::getCanonicalID; None when the status is a failure *)
  getCanonicalID : string -> option string;
  (* icu::Calendar::createInstance(zone, locale, status): the calendar type
     and whether it is a GregorianCalendar; None when the status is a failure *)
  Calendar_createInstance : string -> Locale -> option (string * bool);
  (* icu::DateTimePatternGenerator::createInstance succeeded *)
  generator_ok : Locale -> bool;
  (* icu::DateTimePatternGenerator::getBestPattern *)
  getBestPattern : Locale -> string -> string;
  (* the status of the constructor icu::SimpleDateFormat(pattern, locale, status) *)
  SimpleDateFormat_ok : string -> Locale -> bool;
  (* icu::SimpleDateFormat::format(date, appendTo) *)
  icu_format : SimpleDateFormat -> double -> UnicodeString;
  (* icu::SimpleDateFormat::format(date, appendTo, posIter, status): the text,
     the field positions in iteration order, and whether the status is a
     success *)
  icu_format_positions : SimpleDateFormat -> double -> UnicodeString * list FieldPosition * bool
}.

(** ** Option defaulting: [ToDateTimeOptions] *)

Definition IsPropertyUndefined (options : loc) (property : string) : M bool :=
  value ← GetPropertyOrElement options property;
  mret (IsUndefined value).

Fixpoint NeedsDefault_loop (options : loc) (props : list string) (needs_default : bool)
  : M bool :=
  match props with
  | [] => mret needs_default
  | prop :: props' =>
      maybe_undefined ← IsPropertyUndefined options prop;
      NeedsDefault_loop options props'
        (if negb maybe_undefined then false else needs_default)
  end.

Definition NeedsDefault (options : loc) (props : list string) : M bool :=
  NeedsDefault_loop options props true.

Fixpoint CreateDefault (options : loc) (props : list string) : M bool :=
  match props with
  | [] => mret true
  | prop :: props' =>
      _ ← CreateDataProperty options prop (Str "numeric");
      CreateDefault options props'
  end.

Definition ToDateTimeOptions (input_options : Object)
    (required : RequiredOption.t) (defaults : DefaultsOption.t) : M loc :=
  options ← (if IsUndefined input_options then NewJSObjectWithNullProto
             else options_obj ← ToObject input_options; ObjectCreate options_obj);
  let needs_default := true in
  needs_default ←
    (match required with
     | RequiredOption.kAny | RequiredOption.kDate =>
         NeedsDefault options ["weekday"; "year"; "month"; "day"]
     | RequiredOption.kTime => mret needs_default
     end);
  needs_default ←
    (match required with
     | RequiredOption.kAny | RequiredOption.kTime =>
         maybe_needs_default ← NeedsDefault options ["hour"; "minute"; "second"];
         mret (needs_default && maybe_needs_default)
     | RequiredOption.kDate => mret needs_default
     end);
  _ ← (if needs_default : bool then
         _ ← (match defaults with
              | DefaultsOption.kAll | DefaultsOption.kDate =>
                  CreateDefault options ["year"; "month"; "day"]
              | DefaultsOption.kTime => mret true
              end);
         match defaults with
         | DefaultsOption.kAll | DefaultsOption.kTime =>
             CreateDefault options ["hour"; "minute"; "second"]
         | DefaultsOption.kDate => mret true
         end
       else mret true);
  mret options.

(** [UnicodeString::indexOf(ch) >= 0] on a pattern. *)
Fixpoint contains_char (ch : ascii) (s : string) : bool :=
  match s with
  | EmptyString => false
  | String c s' => if Ascii.eqb c ch then true else contains_char ch s'
  end.

Definition HourCycleDefault (date_format : SimpleDateFormat) : HourCycle :=
  let pattern := sdf_pattern date_format in
  if contains_char "K" pattern then kH11
  else if contains_char "h" pattern then kH12
  else if contains_char "H" pattern then kH23
  else if contains_char "k" pattern then kH24
  else kUndefined.

(** Modelled from the spec: [Intl::ToHourCycle], from the name of an hour
    cycle to the member of the enumeration; undefined for any other string. *)
Definition ToHourCycle (s : string) : HourCycle :=
  if String.eqb s "h11" then kH11
  else if String.eqb s "h12" then kH12
  else if String.eqb s "h23" then kH23
  else if String.eqb s "h24" then kH24
  else kUndefined.

Section WithEnv.
Context (env : Env).

(** ** Reading options *)

(** Modelled from the spec: [Object::ToString], which turns an option value
    into the string compared with the allowed values. *)
Definition ToString (v : Object) : M string :=
  match v with
  | Str s => mret s
  | Boolean true => mret "true"
  | Boolean false => mret "false"
  | null_value => mret "null"
  | undefined_value => mret "undefined"
  | JSReceiver l =>
      match ReceiverToString env l with
      | Some s => mret s
      | None => throw (Pending "Object::ToString")
      end
  end.

(** Modelled from the spec: [Intl::GetStringOption(isolate, options,
    property, values, service, &result)], the GetOption of the source's
    comments for type "string" without fallback.  The result is [None] when
    the property is unset; a value outside a non-empty allowed set is the
    spec's InvalidOptionValue, "surfaced immediately during resolution". *)
Definition GetStringOption (options : loc) (property : string) (values : list string)
  : M (option string) :=
  v ← GetPropertyOrElement options property;
  if IsUndefined v then mret None
  else
    value_str ← ToString v;
    match values with
    | [] => mret (Some value_str)
    | _ :: _ =>
        if existsb (String.eqb value_str) values then mret (Some value_str)
        else throw (InvalidOptionValue value_str property)
    end.

(** Whether an option was found: [Just(true)] of the [Maybe<bool>] getters. *)
Definition found {A} (o : option A) : bool :=
  match o with Some _ => true | None => false end.

(** Modelled from the spec: [Intl::GetBoolOption], the GetOption of the
    source's comments for type "boolean": [None] when the property is unset,
    else its truth value. *)
Definition GetBoolOption (options : loc) (property : string) : M (option bool) :=
  v ← GetPropertyOrElement options property;
  if IsUndefined v then mret None else mret (Some (BooleanValue v)).

Fixpoint enum_of {T} (s : string) (str_values : list string) (enum_values : list T)
  : option T :=
  match str_values, enum_values with
  | sv :: str_values', ev :: enum_values' =>
      if String.eqb s sv then Some ev else enum_of s str_values' enum_values'
  | _, _ => None
  end.

(** Modelled from the spec: the overload of [Intl::GetStringOption] that
    maps the string to the member of an enumeration at the same position,
    with a default for an unset property. *)
Definition GetStringOptionEnum {T} (options : loc) (name : string)
    (str_values : list string) (enum_values : list T) (default_value : T) : M T :=
  found ← GetStringOption options name str_values;
  match found with
  | Some s =>
      match enum_of s str_values enum_values with
      | Some e => mret e
      | None => fatal
      end
  | None => mret default_value
  end.

(** Modelled from the spec: [Intl::GetHourCycle], the hourCycle option with
    the values of step 7 of the source's comments. *)
Definition GetHourCycle (options : loc) : M HourCycle :=
  GetStringOptionEnum options "hourCycle" ["h11"; "h12"; "h23"; "h24"]
    [kH11; kH12; kH23; kH24] kUndefined.

(** Modelled from the spec: [Intl::GetLocaleMatcher], the localeMatcher
    option with the values of step 4 of the source's comments. *)
Definition GetLocaleMatcher (options : loc) : M MatcherOption :=
  GetStringOptionEnum options "localeMatcher" ["best fit"; "lookup"]
    [kBestFit; kLookup] kBestFit.

(** ** Building the ICU objects *)

Definition IsValidTimeZoneName (tz : string) : bool :=
  match getCanonicalID env tz with
  | Some canonical => negb (String.eqb canonical "Etc/Unknown")
  | None => false
  end.

(** The result is the id of the zone, [None] for a null pointer. *)
Definition CreateTimeZone (timezone : option string) : option string :=
  match timezone with
  | None => Some (createDefault env)
  | Some timezone =>
      let canonicalized := CanonicalizeTimeZoneID timezone in
      if String.eqb canonicalized "" then None
      else
        let tz := createTimeZone env canonicalized in
        if negb (IsValidTimeZoneName tz) then None else Some tz
  end.

Definition start_of_time : Z := -9007199254740992.

Definition CreateCalendar (icu_locale : Locale) (timezone : option string)
  : Maybe (option Calendar) :=
  match CreateTimeZone timezone with
  | None => Just None
  | Some tz =>
      match Calendar_createInstance env tz icu_locale with
      | None => Fatal
      | Some (type, gregorian) =>
          Just (Some {| calendar_type := type;
                        calendar_time_zone := tz;
                        is_gregorian := gregorian;
                        gregorian_change :=
                          if gregorian then Some start_of_time else None |})
      end
  end.

(** [icu::Locale(icu_locale.getBaseName())]. *)
Definition no_extension (icu_locale : Locale) : Locale :=
  {| base_name := base_name icu_locale; keywords := ∅ |}.

(** The calendar of the new formatter is ICU's own until [adoptCalendar]. *)
Definition CreateICUDateFormat (icu_locale : Locale) (skeleton : string)
  : option SimpleDateFormat :=
  let no_extension_locale := no_extension icu_locale in
  let pattern :=
    if generator_ok env no_extension_locale
    then getBestPattern env no_extension_locale skeleton
    else "" in
  if negb (SimpleDateFormat_ok env pattern icu_locale) then None
  else Some {| sdf_pattern := pattern; sdf_locale := icu_locale; sdf_calendar := None |}.

Definition adoptCalendar (c : Calendar) (f : SimpleDateFormat) : SimpleDateFormat :=
  {| sdf_pattern := sdf_pattern f; sdf_locale := sdf_locale f; sdf_calendar := Some c |}.

(** The locale after [icu_locale.setKeywordValue(uloc_toLegacyKey(key),
    nullptr, status)] with a successful status: the keyword is removed.  The
    keywords are indexed by their Unicode extension key. *)
Definition removeKeyword (key : string) (l : Locale) : Locale :=
  {| base_name := base_name l; keywords := delete key (keywords l) |}.

(** [icu_locale.setKeywordValue(uloc_toLegacyKey(key), nullptr, status);
    CHECK(U_SUCCESS(status));] *)
Definition setKeywordValue_nullptr (key : string) (icu_locale : Locale) : M Locale :=
  if setKeywordValue_ok env key icu_locale then mret (removeKeyword key icu_locale)
  else fatal.

(** ** [JSDateTimeFormat::Initialize] *)

(** Step 22, the loop over the rows of [GetPatternData(hour_cycle)]. *)
Fixpoint Initialize_skeleton (options : loc) (items : list PatternData.t)
    (has_hour_option : bool) (skeleton : string) : M (bool * string) :=
  match items with
  | [] => mret (has_hour_option, skeleton)
  | item :: items' =>
      maybe_get_option ←
        GetStringOption options (PatternData.property item)
          (PatternData.allowed_values item);
      match maybe_get_option with
      | Some input =>
          let has_hour_option :=
            if String.eqb (PatternData.property item) "hour" then true
            else has_hour_option in
          match PatternData.map item !! input with
          | Some token => Initialize_skeleton options items' has_hour_option (skeleton +:+ token)
          | None => fatal
          end
      | None => Initialize_skeleton options items' has_hour_option skeleton
      end
  end.

(** The receiver is a handle: its fields are written in place, the flags
    first, before any step that can fail, and the handle is returned. *)
Definition Initialize (date_time_format : loc)
    (locales input_options : Object) : M loc :=
  _ ← set_fields date_time_format JSDateTimeFormat.set_flags_0;
  requested_locales ←
    match CanonicalizeLocaleList env locales with
    | Some l => mret l
    | None => throw (Pending "Intl::CanonicalizeLocaleList")
    end;
  options ← ToDateTimeOptions input_options RequiredOption.kAny DefaultsOption.kDate;
  locale_matcher ← GetLocaleMatcher options;
  maybe_get_hour12 ← GetBoolOption options "hour12";
  maybe_hour_cycle ← GetHourCycle options;
  let hour_cycle := maybe_hour_cycle in
  let hour_cycle := if found maybe_get_hour12 then kUndefined else hour_cycle in
  let relevant_extension_keys := ["nu"; "ca"; "hc"] in
  let r := ResolveLocale env (AvailableLocales env) requested_locales locale_matcher
             relevant_extension_keys in
  let icu_locale := ResolvedLocale.icu_locale r in
  let hour_cycle :=
    if negb (found maybe_get_hour12) && bool_decide (hour_cycle = kUndefined) then
      match ResolvedLocale.extensions r !! "hc" with
      | Some hc_extension => ToHourCycle hc_extension
      | None => hour_cycle
      end
    else hour_cycle in
  timezone ← GetStringOption options "timeZone" [];
  calendar ← lift (CreateCalendar icu_locale timezone);
  match calendar with
  | None => throw (NewRangeError (kInvalidTimeZone (default "" timezone)))
  | Some calendar =>
      let hour_cycle :=
        if bool_decide (hour_cycle = kUndefined) then
          match maybe_get_hour12 with
          | Some hour12 => if hour12 : bool then kH12 else kH23
          | None => hour_cycle
          end
        else hour_cycle in
      '(has_hour_option, skeleton) ←
        Initialize_skeleton options (GetPatternData hour_cycle) false "";
      _ ← GetStringOptionEnum options "formatMatcher" ["best fit"; "basic"]
            [FormatMatcherOption.kBestFit; FormatMatcherOption.kBasic]
            FormatMatcherOption.kBestFit;
      '(icu_locale, date_format) ←
        match CreateICUDateFormat icu_locale skeleton with
        | Some date_format => mret (icu_locale, date_format)
        | None =>
            let icu_locale := no_extension icu_locale in
            match CreateICUDateFormat icu_locale skeleton with
            | Some date_format => mret (icu_locale, date_format)
            | None => fatal
            end
        end;
      let date_format := adoptCalendar calendar date_format in
      _ ← (if has_hour_option : bool then
             let hc_default := HourCycleDefault date_format in
             let hc := hour_cycle in
             let hc := if bool_decide (hc = kUndefined) then hc_default else hc in
             set_fields date_time_format (JSDateTimeFormat.set_hour_cycle hc)
           else set_fields date_time_format (JSDateTimeFormat.set_hour_cycle kUndefined));
      icu_locale ←
        (if found maybe_get_hour12 || negb (bool_decide (maybe_hour_cycle = kUndefined)) then
           match ResolvedLocale.extensions r !! "hc" with
           | Some hc_extension =>
               fields ← get_fields date_time_format;
               if negb (bool_decide (JSDateTimeFormat.hour_cycle fields
                                     = ToHourCycle hc_extension))
               then setKeywordValue_nullptr "hc" icu_locale
               else mret icu_locale
           | None => mret icu_locale
           end
         else mret icu_locale);
      _ ← set_fields date_time_format (JSDateTimeFormat.set_icu_locale icu_locale);
      _ ← set_fields date_time_format (JSDateTimeFormat.set_icu_simple_date_format date_format);
      mret date_time_format
  end.

(** ** [JSDateTimeFormat::ResolvedOptions] *)

(** The inner loop: the pairs of one row, up to the first pattern found. *)
Fixpoint ResolvedOptions_pairs (options : loc) (property pattern : string)
    (pairs : list PatternMap.t) : M unit :=
  match pairs with
  | [] => mret tt
  | pair_ :: pairs' =>
      if found (string_find pattern (PatternMap.pattern pair_)) then
        _ ← CreateDataProperty options property (Str (PatternMap.value pair_));
        mret tt
      else ResolvedOptions_pairs options property pattern pairs'
  end.

Fixpoint ResolvedOptions_items (options : loc) (pattern : string)
    (items : list PatternItem.t) : M unit :=
  match items with
  | [] => mret tt
  | item :: items' =>
      _ ← ResolvedOptions_pairs options (PatternItem.property item) pattern
            (PatternItem.pairs item);
      ResolvedOptions_items options pattern items'
  end.

(** The function only reads its receiver, which is given by its fields.
    The object of the result is allocated with %ObjectPrototype%.  The checks
    come in the order of the source: [CHECK] on the locale, [MAYBE_RETURN] on
    the language tag, then the formatter, whose pointer the source
    dereferences, and the conversion of the canonical time zone to a string,
    which can leave an exception pending.  A formatter stored by
    [Initialize] has adopted its calendar; one without a calendar aborts. *)
Definition ResolvedOptions (date_time_format : JSDateTimeFormat.t) : M loc :=
  options ← NewJSObject (Some (object_function_prototype env));
  match JSDateTimeFormat.icu_locale date_time_format with
  | None => fatal
  | Some icu_locale =>
  match ToLanguageTag env icu_locale with
  | None => throw (Pending "Intl::ToLanguageTag")
  | Some locale_str =>
  match JSDateTimeFormat.icu_simple_date_format date_time_format with
  | None => fatal
  | Some icu_simple_date_format =>
      match sdf_calendar icu_simple_date_format with
      | None => fatal
      | Some calendar =>
          let locale := Str locale_str in
          let calendar_str := calendar_type calendar in
          let calendar_str :=
            if String.eqb calendar_str "gregorian" then "gregory"
            else if String.eqb calendar_str "ethiopic-amete-alem" then "ethioaa"
            else calendar_str in
          let time_zone := calendar_time_zone calendar in
          timezone_value ←
            match getCanonicalID env time_zone with
            | Some canonical_time_zone =>
                if String.eqb canonical_time_zone "Etc/UTC"
                   || String.eqb canonical_time_zone "Etc/GMT"
                then mret (Str "UTC")
                else if Intl_ToString_ok env canonical_time_zone
                     then mret (Str canonical_time_zone)
                     else throw (Pending "Intl::ToString")
            | None => mret undefined_value
            end;
          let numbering_system := GetNumberingSystem env icu_locale in
          let pattern := sdf_pattern icu_simple_date_format in
          _ ← CreateDataProperty options "locale" locale;
          _ ← CreateDataProperty options "calendar" (Str calendar_str);
          _ ← (if negb (String.eqb numbering_system "")
               then CreateDataProperty options "numberingSystem" (Str numbering_system)
               else mret true);
          _ ← CreateDataProperty options "timeZone" timezone_value;
          let hc := JSDateTimeFormat.hour_cycle date_time_format in
          _ ← (if negb (bool_decide (hc = kUndefined)) then
                 _ ← CreateDataProperty options "hourCycle"
                       (Str (JSDateTimeFormat.HourCycleAsString date_time_format));
                 match hc with
                 | kH11 | kH12 => CreateDataProperty options "hour12" (Boolean true)
                 | kH23 | kH24 => CreateDataProperty options "hour12" (Boolean false)
                 | kUndefined => mret true
                 end
               else mret true);
          _ ← ResolvedOptions_items options pattern GetPatternItems;
          mret options
      end
  end
  end
  end.

(** ** Formatting *)

(** Modelled from the spec: [DateCache::TimeClip] of src/date.h is not among
    the sources.  The spec calls it range-clipping: a time value that is NaN
    or lies outside the representable date range becomes NaN, any other is
    kept. *)
Definition TimeClip (time : double) : double :=
  match time with
  | Finite ms =>
      if (- kMaxTimeInMs env <=? ms)%Z && (ms <=? kMaxTimeInMs env)%Z
      then Finite ms else NaN
  | _ => NaN
  end.

(** [FormatDateTime(isolate, date_format, x)]; [Intl::ToString] keeps the
    code units. *)
Definition FormatDateTime (date_format : SimpleDateFormat) (x : double)
  : Maybe UnicodeString :=
  let date_value := TimeClip x in
  if isnan date_value then Throw (NewRangeError kInvalidTimeValue)
  else Just (icu_format env date_format date_value).

Definition IcuDateFieldIdToDateType (field_id : UDateFormatField) : option string :=
  match field_id with
  | kLiteralField => Some "literal"
  | UDAT_YEAR_FIELD | UDAT_EXTENDED_YEAR_FIELD | UDAT_YEAR_NAME_FIELD => Some "year"
  | UDAT_MONTH_FIELD | UDAT_STANDALONE_MONTH_FIELD => Some "month"
  | UDAT_DATE_FIELD => Some "day"
  | UDAT_HOUR_OF_DAY1_FIELD | UDAT_HOUR_OF_DAY0_FIELD
  | UDAT_HOUR1_FIELD | UDAT_HOUR0_FIELD => Some "hour"
  | UDAT_MINUTE_FIELD => Some "minute"
  | UDAT_SECOND_FIELD => Some "second"
  | UDAT_DAY_OF_WEEK_FIELD | UDAT_DOW_LOCAL_FIELD | UDAT_STANDALONE_DAY_FIELD =>
      Some "weekday"
  | UDAT_AM_PM_FIELD => Some "dayPeriod"
  | UDAT_TIMEZONE_FIELD | UDAT_TIMEZONE_RFC_FIELD | UDAT_TIMEZONE_GENERIC_FIELD
  | UDAT_TIMEZONE_SPECIAL_FIELD | UDAT_TIMEZONE_LOCALIZED_GMT_OFFSET_FIELD
  | UDAT_TIMEZONE_ISO_FIELD | UDAT_TIMEZONE_ISO_LOCAL_FIELD => Some "timeZoneName"
  | UDAT_ERA_FIELD => Some "era"
  | UDAT_other _ => None
  end.

(** An element of the array of parts. *)
Record FormattedPart := { part_type : string; part_value : UnicodeString }.

(** Modelled from the spec: [Intl::ToString(isolate, string, begin, end)],
    the text of a part: the code units of [begin, end). *)
Definition SubString (s : UnicodeString) (begin_pos end_pos : Z) : UnicodeString :=
  take (Z.to_nat (end_pos - begin_pos)) (drop (Z.to_nat begin_pos) s).

(** Modelled from the spec: [Intl::AddElement(isolate, array, index,
    field_type_string, value)], which emits a part: element [index] of the
    array is set to the part, the array growing when [index] is its length. *)
Definition AddElement (array : list FormattedPart) (index : nat)
    (field_type_string : string) (v : UnicodeString) : list FormattedPart :=
  take index array ++ [{| part_type := field_type_string; part_value := v |}]
    ++ drop (S index) array.

(** The [while (fp_iter.next(fp))] loop with its variables [index],
    [previous_end_pos] and [result]. *)
Fixpoint FormatToParts_loop (formatted : UnicodeString) (fp_iter : list FieldPosition)
    (index : nat) (previous_end_pos : Z) (result : list FormattedPart)
  : Maybe (nat * Z * list FormattedPart) :=
  match fp_iter with
  | [] => Just (index, previous_end_pos, result)
  | fp :: fp_iter' =>
      let begin_pos := getBeginIndex fp in
      let end_pos := getEndIndex fp in
      let '(index, result) :=
        if (previous_end_pos <? begin_pos)%Z then
          (S index,
           AddElement result index "literal" (SubString formatted previous_end_pos begin_pos))
        else (index, result) in
      match IcuDateFieldIdToDateType (getField fp) with
      | None => Fatal
      | Some field_type =>
          FormatToParts_loop formatted fp_iter' (S index) end_pos
            (AddElement result index field_type (SubString formatted begin_pos end_pos))
      end
  end.

Definition FormatToParts (date_time_format : JSDateTimeFormat.t) (date_value : double)
  : Maybe (list FormattedPart) :=
  match JSDateTimeFormat.icu_simple_date_format date_time_format with
  | None => Fatal
  | Some format =>
      let '(formatted, fp_iter, success) := icu_format_positions env format date_value in
      if negb success then Throw (NewTypeError kIcuError)
      else
        let result := [] in
        let length := Z.of_nat (length formatted) in
        if (length =? 0)%Z then Just result
        else
          match FormatToParts_loop formatted fp_iter 0 0 result with
          | Just (index, previous_end_pos, result) =>
              if (previous_end_pos <? length)%Z then
                Just (AddElement result index "literal"
                        (SubString formatted previous_end_pos length))
              else Just result
          | Throw e => Throw e
          | Fatal => Fatal
          end
  end.

(** ** [JSDateTimeFormat::ToLocaleDateTime] *)

Definition ConvertToCacheType (type : DefaultsOption.t) : ICUObjectCacheType :=
  match type with
  | DefaultsOption.kDate => kDefaultSimpleDateFormatForDate
  | DefaultsOption.kTime => kDefaultSimpleDateFormatForTime
  | DefaultsOption.kAll => kDefaultSimpleDateFormat
  end.

Fixpoint cache_lookup (type : ICUObjectCacheType)
    (cache : list (ICUObjectCacheType * SimpleDateFormat)) : option SimpleDateFormat :=
  match cache with
  | [] => None
  | (t, f) :: cache' => if bool_decide (t = type) then Some f else cache_lookup type cache'
  end.

(** Modelled from the spec: [isolate->get_cached_icu_object(cache_type)],
    the read of the single-slot cache. *)
Definition get_cached_icu_object (cache_type : ICUObjectCacheType)
  : M (option SimpleDateFormat) := fun iso =>
  (Just (cache_lookup cache_type (icu_object_cache iso)), iso).

(** Modelled from the spec: [isolate->set_icu_object_in_cache(cache_type,
    obj)]: the slot of the key holds the last formatter written. *)
Definition set_icu_object_in_cache (cache_type : ICUObjectCacheType)
    (obj : SimpleDateFormat) : M unit := fun iso =>
  (Just tt,
   {| heap := heap iso;
      icu_object_cache :=
        (cache_type, obj)
          :: filter (fun e => fst e ≠ cache_type) (icu_object_cache iso) |}).

(** The time value of [date] when it is a [JSDate]. *)
Definition JSDate_value (date : Object) : M (option double) := fun iso =>
  (Just (match date with
         | JSReceiver l => o ← heap iso !! l; date_value o
         | _ => None
         end), iso).

Definition Invalid_Date_string : UnicodeString := UNICODE_STRING_SIMPLE "Invalid Date".

Definition ToLocaleDateTime (date locales options : Object)
    (required : RequiredOption.t) (defaults : DefaultsOption.t) : M UnicodeString :=
  let cache_type := ConvertToCacheType defaults in
  is_date ← JSDate_value date;
  match is_date with
  | None => throw (NewTypeError (kMethodInvokedOnWrongType "Date"))
  | Some x =>
      if isnan x then mret Invalid_Date_string
      else
        let can_cache := IsUndefined locales && IsUndefined options in
        cached_icu_simple_date_format ←
          (if can_cache then get_cached_icu_object cache_type else mret None);
        match cached_icu_simple_date_format with
        | Some cached => lift (FormatDateTime cached x)
        | None =>
            internal_options ← ToDateTimeOptions options required defaults;
            obj ← JSObject_New (intl_date_time_format_function_prototype env);
            date_time_format ← Initialize obj locales (JSReceiver internal_options);
            fields ← get_fields date_time_format;
            match JSDateTimeFormat.icu_simple_date_format fields with
            | None => fatal
            | Some format =>
                _ ← (if can_cache then set_icu_object_in_cache cache_type format
                     else mret tt);
                lift (FormatDateTime format x)
            end
        end
  end.

End WithEnv.

(** * Specification-side definitions and sample data *)

(** The names that canonicalise to UTC, compared after upper-casing. *)
Definition utc_aliases : list string := ["UTC"; "GMT"; "ETC/UTC"; "ETC/GMT"].

(** The GMT-offset grammar in the words of the specification, on the
    characters after the seven characters of the prefix. *)
Definition gmt_offset_grammar (input : string) : string :=
  match list_ascii_of_string input with
  | _ :: _ :: _ :: _ :: _ :: _ :: _ :: suffix =>
      match suffix with
      | [z] => if Ascii.eqb z "0" then "Etc/GMT0" else ""
      | [sign; d] =>
          if (Ascii.eqb sign "+" || Ascii.eqb sign "-") && IsInRange d "0" "9"
          then "Etc/GMT" +:+ string_of_list_ascii [sign; d] else ""
      | [sign; one; d] =>
          if (Ascii.eqb sign "+" || Ascii.eqb sign "-") && Ascii.eqb one "1"
             && IsInRange d "0" "4"
          then "Etc/GMT" +:+ string_of_list_ascii [sign; "1"%char; d] else ""
      | _ => ""
      end
  | _ => ""
  end.

(** The order the claim C7 asks of a row: token lengths never increase. *)
Definition longest_token_first (pairs : list PatternMap.t) : Prop :=
  forall i j p q, i < j -> pairs !! i = Some p -> pairs !! j = Some q ->
    String.length (PatternMap.pattern q) <= String.length (PatternMap.pattern p).

(** The order the comment on [PatternItem::pairs] asks: a token never occurs
    inside a token listed after it, so of two tokens where one contains the
    other the longer comes first. *)
Definition container_first (pairs : list PatternMap.t) : Prop :=
  forall i j p q, i < j -> pairs !! i = Some p -> pairs !! j = Some q ->
    string_find (PatternMap.pattern q) (PatternMap.pattern p) = None.

Fixpoint container_first_b (pairs : list PatternMap.t) : bool :=
  match pairs with
  | [] => true
  | p :: rest =>
      forallb (fun q => negb (found (string_find (PatternMap.pattern q)
                                       (PatternMap.pattern p)))) rest
      && container_first_b rest
  end.

(** The token of [p] occurs in [pattern]. *)
Definition occurs_in (pattern : string) (p : PatternMap.t) : Prop :=
  is_Some (string_find pattern (PatternMap.pattern p)).

Global Instance occurs_in_dec pattern p : Decision (occurs_in pattern p).
Proof. unfold occurs_in. apply _. Defined.

(** The value of the first pair, in listed order, whose token occurs. *)
Definition first_match (pattern : string) (pairs : list PatternMap.t) : option string :=
  (fun m => PatternMap.value m.2) <$> list_find (occurs_in pattern) pairs.

(** The field values reconstructed from a pattern, in the order of the rows. *)
Definition reverseMap (pattern : string) : list (string * Object) :=
  omap (fun item =>
          (fun v => (PatternItem.property item, Str v))
            <$> first_match pattern (PatternItem.pairs item))
       GetPatternItems.

Definition field_names : list string :=
  ["weekday"; "era"; "year"; "month"; "day"; "hour"; "minute"; "second"; "timeZoneName"].

(** The properties that [ResolvedOptions] creates before the fields. *)
Definition resolved_header (locale calendar numbering_system : string)
    (timezone_value : Object) (hc : HourCycle) : list (string * Object) :=
  [("locale", Str locale); ("calendar", Str calendar)]
  ++ (if String.eqb numbering_system "" then []
      else [("numberingSystem", Str numbering_system)])
  ++ [("timeZone", timezone_value)]
  ++ match hc with
     | kUndefined => []
     | kH11 => [("hourCycle", Str "h11"); ("hour12", Boolean true)]
     | kH12 => [("hourCycle", Str "h12"); ("hour12", Boolean true)]
     | kH23 => [("hourCycle", Str "h23"); ("hour12", Boolean false)]
     | kH24 => [("hourCycle", Str "h24"); ("hour12", Boolean false)]
     end.

(** [object] with its own properties replaced. *)
Definition with_properties (props : list (string * Object)) (o : JSObject) : JSObject :=
  {| properties := props; prototype := prototype o; date_value := date_value o;
     format_fields := format_fields o |}.

(** [object] with the fields of a formatter replaced. *)
Definition with_fields (f : JSDateTimeFormat.t) (o : JSObject) : JSObject :=
  {| properties := properties o; prototype := prototype o; date_value := date_value o;
     format_fields := Some f |}.

(** The fields of the formatter at [date_time_format], if it is one. *)
Definition fields_at (iso : Isolate) (date_time_format : loc) : option JSDateTimeFormat.t :=
  heap iso !! date_time_format ≫= format_fields.

(** [iso] after the fields of the formatter at [date_time_format] were set
    to [f]: nothing else differs. *)
Definition store_fields (date_time_format : loc) (f : JSDateTimeFormat.t) (iso : Isolate)
  : Isolate :=
  set_heap (alter (with_fields f) date_time_format (heap iso)) iso.

(** A computation that leaves the isolate as it found it. *)
Definition readonly {A} (c : M A) : Prop := forall iso, (c iso).2 = iso.

(** The calendar name and the time-zone value reported by [ResolvedOptions]. *)
Definition resolved_calendar (calendar : Calendar) : string :=
  let calendar_str := calendar_type calendar in
  if String.eqb calendar_str "gregorian" then "gregory"
  else if String.eqb calendar_str "ethiopic-amete-alem" then "ethioaa"
  else calendar_str.

Definition resolved_time_zone (env : Env) (calendar : Calendar) : Object :=
  match getCanonicalID env (calendar_time_zone calendar) with
  | Some canonical_time_zone =>
      if String.eqb canonical_time_zone "Etc/UTC" || String.eqb canonical_time_zone "Etc/GMT"
      then Str "UTC"
      else Str canonical_time_zone
  | None => undefined_value
  end.

(** The canonical time zone of the calendar is turned into a string value:
    [Intl::ToString] succeeds on it, or is not called, for UTC and when ICU
    has no canonical id. *)
Definition time_zone_converts (env : Env) (calendar : Calendar) : bool :=
  match getCanonicalID env (calendar_time_zone calendar) with
  | Some canonical_time_zone =>
      String.eqb canonical_time_zone "Etc/UTC" || String.eqb canonical_time_zone "Etc/GMT"
      || Intl_ToString_ok env canonical_time_zone
  | None => true
  end.

(** The property list of the object returned by [ResolvedOptions]. *)
Definition resolved_properties (env : Env) (icu_locale : Locale) (tag : string)
    (f : SimpleDateFormat) (calendar : Calendar) (hc : HourCycle) : list (string * Object) :=
  resolved_header tag (resolved_calendar calendar) (GetNumberingSystem env icu_locale)
    (resolved_time_zone env calendar) hc
  ++ reverseMap (sdf_pattern f).

(** The object returned by [ResolvedOptions]: its prototype is
    %ObjectPrototype%. *)
Definition resolved_object (env : Env) (props : list (string * Object)) : JSObject :=
  {| properties := props; prototype := Some (object_function_prototype env);
     date_value := None; format_fields := None |}.

(** The property reads as undefined on the options view [options]. *)
Definition absent (iso : Isolate) (options : loc) (name : string) : bool :=
  IsUndefined (lookup_chain (S (size (heap iso))) (heap iso) options name).

(** needsDefault in the words of the specification, on the view [options]
    in the isolate [iso]. *)
Definition needsDefault (required : RequiredOption.t) (iso : Isolate) (options : loc) : bool :=
  match required with
  | RequiredOption.kDate | RequiredOption.kAny =>
      forallb (absent iso options) ["weekday"; "year"; "month"; "day"]
  | RequiredOption.kTime => true
  end
  &&
  match required with
  | RequiredOption.kTime | RequiredOption.kAny =>
      forallb (absent iso options) ["hour"; "minute"; "second"]
  | RequiredOption.kDate => true
  end.

(** The own properties that the defaulting step gives the fresh object. *)
Definition default_properties (needs_default : bool) (defaults : DefaultsOption.t)
  : list (string * Object) :=
  if needs_default then
    match defaults with
    | DefaultsOption.kDate | DefaultsOption.kAll =>
        [("year", Str "numeric"); ("month", Str "numeric"); ("day", Str "numeric")]
    | DefaultsOption.kTime => []
    end
    ++
    match defaults with
    | DefaultsOption.kTime | DefaultsOption.kAll =>
        [("hour", Str "numeric"); ("minute", Str "numeric"); ("second", Str "numeric")]
    | DefaultsOption.kDate => []
    end
  else [].

(** [iso1] is [iso] after the allocation of new objects only: every object
    of [iso] is still there, unchanged, and the cache is the same. *)
Definition extends (iso iso1 : Isolate) : Prop :=
  icu_object_cache iso1 = icu_object_cache iso /\
  forall l o, heap iso !! l = Some o -> heap iso1 !! l = Some o.

(** The prototype that [ToDateTimeOptions] gives the fresh object: none for
    an absent input, the input object itself for a receiver. *)
Definition inherits_from (input_options : Object) (proto : option loc) : Prop :=
  match input_options with
  | undefined_value => proto = None
  | JSReceiver l => proto = Some l
  | _ => is_Some proto
  end.

(** ** A small environment and sample inputs *)

(** A toy pattern generator: the skeleton itself, with the locale's hour
    symbol [j] resolved to [h]. *)
Definition toy_pattern (skeleton : string) : string :=
  transform (fun c => if Ascii.eqb c "j" then "h"%char else c) skeleton.

Definition sample_locale : Locale :=
  {| base_name := "en_US"; keywords := {["hc" := "h23"]} |}.

Definition sample_text : UnicodeString := UNICODE_STRING_SIMPLE "1/2/2019".

Definition sample_positions : list FieldPosition :=
  [ {| getField := UDAT_MONTH_FIELD; getBeginIndex := 0; getEndIndex := 1 |};
    {| getField := UDAT_DATE_FIELD; getBeginIndex := 2; getEndIndex := 3 |};
    {| getField := UDAT_YEAR_FIELD; getBeginIndex := 4; getEndIndex := 8 |} ].

Definition sample_env : Env :=
  {| object_function_prototype := 100%positive;
     intl_date_time_format_function_prototype := 101%positive;
     kMaxTimeInMs := 8640000000000000;
     CanonicalizeLocaleList := fun _ => Some ["en-US"];
     ReceiverToString := fun _ => None;
     AvailableLocales := ["en-US"];
     ResolveLocale := fun _ _ _ _ =>
       {| ResolvedLocale.icu_locale := sample_locale;
          ResolvedLocale.extensions := {["hc" := "h23"]} |};
     ToLanguageTag := fun l =>
       Some match keywords l !! "hc" with
            | Some v => base_name l +:+ "-u-hc-" +:+ v
            | None => base_name l
            end;
     GetNumberingSystem := fun _ => "latn";
     Intl_ToString_ok := fun _ => true;
     setKeywordValue_ok := fun _ _ => true;
     createDefault := "America/Los_Angeles";
     createTimeZone := fun s => s;
     getCanonicalID := fun s => Some s;
     Calendar_createInstance := fun _ _ => Some ("gregorian", true);
     generator_ok := fun _ => true;
     getBestPattern := fun _ skeleton => toy_pattern skeleton;
     SimpleDateFormat_ok := fun _ _ => true;
     icu_format := fun _ _ => sample_text;
     icu_format_positions := fun _ _ => (sample_text, sample_positions, true) |}.

Definition empty_isolate : Isolate := {| heap := ∅; icu_object_cache := [] |}.

Definition plain_object (props : list (string * Object)) : JSObject :=
  {| properties := props; prototype := None; date_value := None; format_fields := None |}.

(** An isolate holding one object, at address 1. *)
Definition isolate_with (o : JSObject) : Isolate :=
  {| heap := {[ 1%positive := o ]}; icu_object_cache := [] |}.

(** A formatter object with the given fields. *)
Definition formatter_object (f : JSDateTimeFormat.t) : JSObject :=
  {| properties := []; prototype := Some 101%positive; date_value := None;
     format_fields := Some f |}.

(** An isolate holding the object [o] at address 1 and a formatter with the
    fields [f] at address 2. *)
Definition isolate_with_fields (o : JSObject) (f : JSDateTimeFormat.t) : Isolate :=
  {| heap := {[ 1%positive := o; 2%positive := formatter_object f ]};
     icu_object_cache := [] |}.

(** An isolate holding the object [o] at address 1 and a formatter that was
    just allocated at address 2. *)
Definition isolate_with_formatter (o : JSObject) : Isolate :=
  isolate_with_fields o JSDateTimeFormat.New.

Definition sample_calendar : Calendar :=
  {| calendar_type := "gregorian"; calendar_time_zone := "America/Los_Angeles";
     is_gregorian := true; gregorian_change := Some start_of_time |}.

Definition sample_format (pattern : string) : SimpleDateFormat :=
  {| sdf_pattern := pattern; sdf_locale := sample_locale;
     sdf_calendar := Some sample_calendar |}.

Definition sample_formatter (pattern : string) (hc : HourCycle) : JSDateTimeFormat.t :=
  {| JSDateTimeFormat.hour_cycle := hc;
     JSDateTimeFormat.icu_locale := Some sample_locale;
     JSDateTimeFormat.icu_simple_date_format := Some (sample_format pattern) |}.

(** The hour cycle that [Initialize] negotiates before the pattern is
    generated: an explicit hour12 decides alone, then the hourCycle option,
    then the "hc" extension of the resolved locale. *)
Definition negotiated_hour_cycle (hour12 : option bool) (hourCycle : HourCycle)
    (hc_extension : option string) : HourCycle :=
  match hour12 with
  | Some true => kH12
  | Some false => kH23
  | None =>
      if bool_decide (hourCycle = kUndefined)
      then match hc_extension with
           | Some v => ToHourCycle v
           | None => kUndefined
           end
      else hourCycle
  end.

(** The hour cycle stored in the formatter. *)
Definition stored_hour_cycle (has_hour_option : bool) (negotiated pattern_default : HourCycle)
  : HourCycle :=
  if has_hour_option then
    if bool_decide (negotiated = kUndefined) then pattern_default else negotiated
  else kUndefined.

(** The locale stored in the formatter: [icu_locale] without its "hc"
    keyword when hour12 or hourCycle was given and the extension disagrees
    with the stored hour cycle. *)
Definition reconciled_locale (hour12 : option bool) (hourCycle : HourCycle)
    (hc_extension : option string) (stored : HourCycle) (icu_locale : Locale) : Locale :=
  if found hour12 || negb (bool_decide (hourCycle = kUndefined)) then
    match hc_extension with
    | Some v =>
        if negb (bool_decide (stored = ToHourCycle v)) then removeKeyword "hc" icu_locale
        else icu_locale
    | None => icu_locale
    end
  else icu_locale.

(** The value an option reads as on the view [options]. *)
Definition view (iso : Isolate) (options : loc) (name : string) : Object :=
  lookup_chain (S (size (heap iso))) (heap iso) options name.

(** Sample option bags: hour12 and hourCycle without and with an hour. *)
Definition hour12_h23_options : JSObject :=
  plain_object [("hour12", Boolean true); ("hourCycle", Str "h23")].

Definition hour12_h23_hour_options : JSObject :=
  plain_object [("hour12", Boolean true); ("hourCycle", Str "h23"); ("hour", Str "numeric")].

(** What [Initialize] stores for [hour12_h23_options] and for
    [hour12_h23_hour_options] in [sample_env]. *)
Definition sample_result_without_hour : JSDateTimeFormat.t :=
  {| JSDateTimeFormat.hour_cycle := kUndefined;
     JSDateTimeFormat.icu_locale := Some (removeKeyword "hc" sample_locale);
     JSDateTimeFormat.icu_simple_date_format := Some (sample_format "yMd") |}.

Definition sample_result_with_hour : JSDateTimeFormat.t :=
  {| JSDateTimeFormat.hour_cycle := kH12;
     JSDateTimeFormat.icu_locale := Some (removeKeyword "hc" sample_locale);
     JSDateTimeFormat.icu_simple_date_format := Some (sample_format "h") |}.

(** ** Parts: what the specification asks of [FormatToParts] *)

(** The spans are sorted by begin index, do not overlap and lie within
    [0, length]. *)
Definition spans_well_formed (length : Z) (spans : list FieldPosition) : Prop :=
  (forall fp, fp ∈ spans ->
     (0 <= getBeginIndex fp /\ getBeginIndex fp <= getEndIndex fp /\ getEndIndex fp <= length)%Z)
  /\
  (forall i fp fq, spans !! i = Some fp -> spans !! S i = Some fq ->
     (getBeginIndex fp <= getBeginIndex fq /\ getEndIndex fp <= getBeginIndex fq)%Z).

Definition literal_gap (formatted : UnicodeString) (from to : Z) : list FormattedPart :=
  if (from <? to)%Z
  then [ {| part_type := "literal"; part_value := SubString formatted from to |} ]
  else [].

Definition field_part (formatted : UnicodeString) (fp : FieldPosition) : FormattedPart :=
  {| part_type := default "" (IcuDateFieldIdToDateType (getField fp));
     part_value := SubString formatted (getBeginIndex fp) (getEndIndex fp) |}.

(** For each span, the end of the span before it ([from] for the first). *)
Definition previous_ends (from : Z) (spans : list FieldPosition) : list Z :=
  from :: (getEndIndex <$> spans).

(** The parts in the words of the specification: before each span a literal
    for the gap since the previous span, then the span; after the last span
    a literal for what is left. *)
Definition parts_from (formatted : UnicodeString) (from : Z) (spans : list FieldPosition)
  : list FormattedPart :=
  concat (zip_with (fun prev fp => literal_gap formatted prev (getBeginIndex fp)
                                     ++ [field_part formatted fp])
            (previous_ends from spans) spans).

Definition expected_parts (formatted : UnicodeString) (spans : list FieldPosition)
  : list FormattedPart :=
  match formatted with
  | [] => []
  | _ :: _ =>
      parts_from formatted 0 spans
      ++ literal_gap formatted (List.last (previous_ends 0 spans) 0%Z)
           (Z.of_nat (length formatted))
  end.

(** The index ranges of the same parts. *)
Definition gap_range (from to : Z) : list (Z * Z) :=
  if (from <? to)%Z then [(from, to)] else [].

Definition ranges_from (from : Z) (spans : list FieldPosition) : list (Z * Z) :=
  concat (zip_with (fun prev fp => gap_range prev (getBeginIndex fp)
                                     ++ [(getBeginIndex fp, getEndIndex fp)])
            (previous_ends from spans) spans).

Definition expected_ranges (length : Z) (spans : list FieldPosition) : list (Z * Z) :=
  if (length =? 0)%Z then []
  else ranges_from 0 spans ++ gap_range (List.last (previous_ends 0 spans) 0%Z) length.

(** The ranges cover [from, to) one after the other: no gap, no overlap. *)
Fixpoint tiles (from to : Z) (ranges : list (Z * Z)) : Prop :=
  match ranges with
  | [] => from = to
  | (b, e) :: rest => b = from /\ (b <= e)%Z /\ tiles e to rest
  end.

Definition mapped_field (fp : FieldPosition) : Prop :=
  is_Some (IcuDateFieldIdToDateType (getField fp)).

(** Each span starts where the one before it ended, or later, and the last
    one ends within [length]. *)
Fixpoint chained (from length : Z) (spans : list FieldPosition) : Prop :=
  match spans with
  | [] => (from <= length)%Z
  | fp :: rest =>
      (from <= getBeginIndex fp)%Z /\ (getBeginIndex fp <= getEndIndex fp)%Z
      /\ chained (getEndIndex fp) length rest
  end.

Definition range_text (formatted : UnicodeString) (r : Z * Z) : UnicodeString :=
  SubString formatted r.1 r.2.



(** An isolate holding one [JSDate], at address 1, with the given time value. *)
Definition isolate_with_date (x : double) : Isolate :=
  isolate_with {| properties := []; prototype := None; date_value := Some x;
                  format_fields := None |}.

(** * Further specification-side definitions *)

(** Every character is an ASCII letter or one of the three separators. *)
Definition valid_location (input : string) : bool :=
  forallb (fun ch => IsAsciiAlpha ch || Ascii.eqb ch "_" || Ascii.eqb ch "-" || Ascii.eqb ch "/")
    (list_ascii_of_string input).

(** The token under which a row's map from value to token stores [v]: the
    one of the first pair, in listed order, whose value is [v]. *)
Definition first_token (v : string) (pairs : list PatternMap.t) : option string :=
  (fun m => PatternMap.pattern m.2) <$> list_find (fun p => PatternMap.value p = v) pairs.

(** The row of the pattern table for a property. *)
Definition item_of (property : string) : option PatternItem.t :=
  snd <$> list_find (fun item => PatternItem.property item = property) GetPatternItems.

(** Every token that the row [data] can add to a skeleton is read back, by
    the scan of the table row of the same property, as the value it was
    stored under. *)
Definition tokens_read_back (data : PatternData.t) : bool :=
  match item_of (PatternData.property data) with
  | None => false
  | Some item =>
      forallb (fun entry =>
                 bool_decide (first_match entry.2 (PatternItem.pairs item) = Some entry.1))
              (map_to_list (PatternData.map data))
  end.

(** Every value of a pair of the row is one of the row's allowed values. *)
Definition values_allowed (item : PatternItem.t) : bool :=
  forallb (fun p => bool_decide (PatternMap.value p ∈ PatternItem.allowed_values item))
          (PatternItem.pairs item).

(** The row has a token for each of its allowed values, and at least one
    allowed value. *)
Definition tokens_complete (data : PatternData.t) : bool :=
  negb (bool_decide (PatternData.allowed_values data = []))
  && forallb (fun v => found (PatternData.map data !! v)) (PatternData.allowed_values data).

(** ** Outcomes of a computation *)

(** [c] can return [a]. *)
Definition returns {A} (c : M A) (a : A) : Prop :=
  exists iso iso', c iso = (Just a, iso').

(** [c] aborts the process only when [Q] holds. *)
Definition aborts_only {A} (Q : Prop) (c : M A) : Prop :=
  forall iso iso', c iso = (Fatal, iso') -> Q.

(** Whatever its outcome, [c] leaves every object that existed before as it
    was, and the cache too: it allocates at most. *)
Definition only_allocates {A} (c : M A) : Prop :=
  forall iso, extends iso (c iso).2.

(** The "hc" keyword has to be removed from the locale [icu_locale] of the
    date format, because hour12 or hourCycle was given and the extension
    disagrees with the stored hour cycle, and ICU reports a failure. *)
Definition keyword_removal_fails (env : Env) (hour12 : option bool) (hourCycle : HourCycle)
    (hc_extension : option string) (stored : HourCycle) (icu_locale : Locale) : bool :=
  (found hour12 || negb (bool_decide (hourCycle = kUndefined)))
  && match hc_extension with
     | Some v => negb (bool_decide (stored = ToHourCycle v))
     | None => false
     end
  && negb (setKeywordValue_ok env "hc" icu_locale).

(** An environment in which ICU builds no calendar. *)
Definition no_calendar_env : Env :=
  {| object_function_prototype := object_function_prototype sample_env;
     intl_date_time_format_function_prototype :=
       intl_date_time_format_function_prototype sample_env;
     kMaxTimeInMs := kMaxTimeInMs sample_env;
     CanonicalizeLocaleList := CanonicalizeLocaleList sample_env;
     ReceiverToString := ReceiverToString sample_env;
     AvailableLocales := AvailableLocales sample_env;
     ResolveLocale := ResolveLocale sample_env;
     ToLanguageTag := ToLanguageTag sample_env;
     GetNumberingSystem := GetNumberingSystem sample_env;
     Intl_ToString_ok := Intl_ToString_ok sample_env;
     setKeywordValue_ok := setKeywordValue_ok sample_env;
     createDefault := createDefault sample_env;
     createTimeZone := createTimeZone sample_env;
     getCanonicalID := getCanonicalID sample_env;
     Calendar_createInstance := fun _ _ => None;
     generator_ok := generator_ok sample_env;
     getBestPattern := getBestPattern sample_env;
     SimpleDateFormat_ok := SimpleDateFormat_ok sample_env;
     icu_format := icu_format sample_env;
     icu_format_positions := icu_format_positions sample_env |}.

(** The order in which [ResolvedOptions] creates the properties that it
    creates. *)
Definition resolved_key_order : list string :=
  ["locale"; "calendar"; "numberingSystem"; "timeZone"; "hourCycle"; "hour12"] ++ field_names.




(** The symbol that stands for the hour in a skeleton: [j] leaves the choice
    of the hour cycle to ICU. *)
Definition hour_symbol (hc : HourCycle) : ascii :=
  match hc with
  | kUndefined => "j"
  | kH11 => "K"
  | kH12 => "h"
  | kH23 => "H"
  | kH24 => "k"
  end.

Definition hour_symbols : list ascii := ["j"; "K"; "h"; "H"; "k"]%char.

(** No hour symbol occurs in the skeleton. *)
Definition no_hour (skeleton : string) : Prop :=
  forall c, c ∈ hour_symbols -> contains_char c skeleton = false.

(** The hour symbol of [hc] occurs in the skeleton, and no other one. *)
Definition only_hour (hc : HourCycle) (skeleton : string) : Prop :=
  contains_char (hour_symbol hc) skeleton = true /\
  forall c, c ∈ hour_symbols -> c <> hour_symbol hc -> contains_char c skeleton = false.

(** The tokens of a row are not empty; those of the hour row are made of
    the hour symbol of [hc], those of another row have no hour symbol. *)
Definition row_tokens_ok (hc : HourCycle) (data : PatternData.t) : bool :=
  forallb (fun entry =>
             let token := entry.2 in
             negb (String.eqb token "")
             && if String.eqb (PatternData.property data) "hour"
                then forallb (fun c => Ascii.eqb c (hour_symbol hc)) (list_ascii_of_string token)
                else forallb (fun c => negb (existsb (Ascii.eqb c) hour_symbols))
                       (list_ascii_of_string token))
          (map_to_list (PatternData.map data)).

(** The rows of the date and time fields that [ToDateTimeOptions] looks at. *)
Definition date_time_fields : list string :=
  ["weekday"; "year"; "month"; "day"; "hour"; "minute"; "second"].

(** The skeleton loop of [Initialize] for options whose values are known:
    [read] gives the string read for a property, if it is set. *)
Fixpoint skeleton_for (read : string -> option string) (items : list PatternData.t)
    (has_hour_option : bool) (skeleton : string) : option (bool * string) :=
  match items with
  | [] => Some (has_hour_option, skeleton)
  | item :: items' =>
      match read (PatternData.property item) with
      | Some input =>
          match PatternData.map item !! input with
          | Some token =>
              skeleton_for read items'
                (if String.eqb (PatternData.property item) "hour" then true else has_hour_option)
                (skeleton +:+ token)
          | None => None
          end
      | None => skeleton_for read items' has_hour_option skeleton
      end
  end.

(** What is read on a view that holds the defaults of [ToDateTimeOptions]
    and nothing else. *)
Definition read_defaults (defaults : DefaultsOption.t) (name : string) : option string :=
  match assoc name (default_properties true defaults) with
  | Some (Str s) => Some s
  | _ => None
  end.

(** The skeleton of a formatter for the defaults alone: numeric year, month
    and day, then numeric hour, minute and second. *)
Definition default_skeleton (defaults : DefaultsOption.t) (hc : HourCycle) : string :=
  match defaults with
  | DefaultsOption.kDate => "yMd"
  | DefaultsOption.kTime => String (hour_symbol hc) "ms"
  | DefaultsOption.kAll => "yMd" +:+ String (hour_symbol hc) "ms"
  end.

(** The hour cycle that the "hc" extension of the resolved locale names. *)
Definition extension_hour_cycle (r : ResolvedLocale.t) : HourCycle :=
  match ResolvedLocale.extensions r !! "hc" with
  | Some v => ToHourCycle v
  | None => kUndefined
  end.

(** The row allows the value that the defaults give its option. *)
Definition row_allows_default (defaults : DefaultsOption.t) (data : PatternData.t) : bool :=
  match read_defaults defaults (PatternData.property data) with
  | Some s => bool_decide (s ∈ PatternData.allowed_values data)
  | None => true
  end.

(** No token of the row's map uses a stand-alone symbol, [L] or [c]. *)
Definition no_standalone_token (data : PatternData.t) : bool :=
  forallb (fun entry => negb (contains_char "L" entry.2) && negb (contains_char "c" entry.2))
          (map_to_list (PatternData.map data)).

(** The outcome of [Initialize] when no options are given, in terms of
    what ICU answers: [iso0] is the isolate after the flags of the receiver
    have been reset, and [iso1] the one after the options view has been
    allocated. *)
Definition Initialize_without_options_spec (env : Env) (date_time_format : loc)
    (locales : Object) (iso0 iso1 : Isolate) : Maybe loc * Isolate :=
  match CanonicalizeLocaleList env locales with
  | None => (Throw (Pending "Intl::CanonicalizeLocaleList"), iso0)
  | Some requested_locales =>
      let r := ResolveLocale env (AvailableLocales env) requested_locales kBestFit
                 ["nu"; "ca"; "hc"] in
      let icu_locale := ResolvedLocale.icu_locale r in
      match Calendar_createInstance env (createDefault env) icu_locale with
      | None => (Fatal, iso1)
      | Some (type, gregorian) =>
          let calendar :=
            {| calendar_type := type; calendar_time_zone := createDefault env;
               is_gregorian := gregorian;
               gregorian_change := if gregorian then Some start_of_time else None |} in
          let formatter icu_locale date_format :=
            {| JSDateTimeFormat.hour_cycle := kUndefined;
               JSDateTimeFormat.icu_locale := Some icu_locale;
               JSDateTimeFormat.icu_simple_date_format :=
                 Some (adoptCalendar calendar date_format) |} in
          match CreateICUDateFormat env icu_locale "yMd" with
          | Some date_format =>
              (Just date_time_format,
               store_fields date_time_format (formatter icu_locale date_format) iso1)
          | None =>
              match CreateICUDateFormat env (no_extension icu_locale) "yMd" with
              | Some date_format =>
                  (Just date_time_format,
                   store_fields date_time_format
                     (formatter (no_extension icu_locale) date_format) iso1)
              | None => (Fatal, iso1)
              end
          end
      end
  end.
(** * Time-zone canonicalisation *)

Example canonicalize_examples :
  CanonicalizeTimeZoneID "utc" = "UTC" /\
  CanonicalizeTimeZoneID "Etc/GMT" = "UTC" /\
  CanonicalizeTimeZoneID "Etc/GMT0" = "Etc/GMT0" /\
  CanonicalizeTimeZoneID "bueNos_airES" = "Buenos_Aires" /\
  CanonicalizeTimeZoneID "ho_cHi_minH" = "Ho_Chi_Minh" /\
  CanonicalizeTimeZoneID "Europe_5" = "".
Proof. repeat split; vm_compute; reflexivity. Qed.

Lemma is_utc_alias_spec (upper : string) :
  String.eqb upper "UTC" || String.eqb upper "GMT" || String.eqb upper "ETC/UTC"
    || String.eqb upper "ETC/GMT" = true <-> upper ∈ utc_aliases.
Proof.
  unfold utc_aliases. rewrite !orb_true_iff, !String.eqb_eq, !elem_of_cons, elem_of_nil.
  tauto.
Qed.

Lemma prefix_cons_inv (c : ascii) (p s : string) :
  String.prefix (String c p) s = true ->
  exists s', s = String c s' /\ String.prefix p s' = true.
Proof.
  destruct s as [|c' s']; simpl; [discriminate|].
  destruct (ascii_dec c c'); [subst; eauto | discriminate].
Qed.

Lemma prefix_transform_inv (c : ascii) (p : string) f (input : string) :
  String.prefix (String c p) (transform f input) = true ->
  exists i input', input = String i input' /\ String.prefix p (transform f input') = true.
Proof.
  destruct input as [|i input']; simpl; [discriminate|].
  destruct (ascii_dec c (f i)); [eauto | discriminate].
Qed.

Lemma starts_with_ETC_GMT f (input : string) :
  String.prefix "ETC/GMT" (transform f input) = true ->
  exists i0 i1 i2 i3 i4 i5 i6 suffix,
    input = String i0 (String i1 (String i2 (String i3 (String i4 (String i5
              (String i6 suffix)))))).
Proof.
  intros H.
  apply prefix_transform_inv in H as (i0 & r0 & E0 & H).
  apply prefix_transform_inv in H as (i1 & r1 & E1 & H).
  apply prefix_transform_inv in H as (i2 & r2 & E2 & H).
  apply prefix_transform_inv in H as (i3 & r3 & E3 & H).
  apply prefix_transform_inv in H as (i4 & r4 & E4 & H).
  apply prefix_transform_inv in H as (i5 & r5 & E5 & H).
  apply prefix_transform_inv in H as (i6 & r6 & E6 & H).
  exists i0, i1, i2, i3, i4, i5, i6, r6. congruence.
Qed.

Lemma strncmp_ETC_GMT (upper : string) :
  String.prefix "ETC/GMT" upper = true -> strncmp_eq upper "ETC/GMT" 7 = true.
Proof.
  intros H.
  apply prefix_cons_inv in H as (r0 & E0 & H).
  apply prefix_cons_inv in H as (r1 & E1 & H).
  apply prefix_cons_inv in H as (r2 & E2 & H).
  apply prefix_cons_inv in H as (r3 & E3 & H).
  apply prefix_cons_inv in H as (r4 & E4 & H).
  apply prefix_cons_inv in H as (r5 & E5 & H).
  apply prefix_cons_inv in H as (r6 & E6 & H).
  rewrite E0, E1, E2, E3, E4, E5, E6. reflexivity.
Qed.

(** The switch on the length in [GetGMTTzID] is the grammar on the suffix. *)
Lemma GetGMTTzID_grammar (i0 i1 i2 i3 i4 i5 i6 : ascii) (suffix : string) :
  let input := String i0 (String i1 (String i2 (String i3 (String i4 (String i5
                 (String i6 suffix)))))) in
  GetGMTTzID input = gmt_offset_grammar input.
Proof.
  destruct suffix as [|a [|b [|c [|d suffix]]]]; try reflexivity.
  unfold GetGMTTzID, gmt_offset_grammar; cbn.
  destruct (Ascii.eqb a "+" || Ascii.eqb a "-"); cbn; [|reflexivity].
  destruct (Ascii.eqb b "1") eqn:E; cbn; [|reflexivity].
  apply Ascii.eqb_eq in E; subst. reflexivity.
Qed.

(** C3.  An input whose ASCII upper-casing is UTC, GMT, ETC/UTC or ETC/GMT
    canonicalises to "UTC"; any other input whose upper-casing starts with
    ETC/GMT is canonicalised by the GMT-offset grammar applied to the
    characters of the input itself: length 8 ending in 0, length 9 with a sign
    and a digit, length 10 with a sign, 1 and a digit up to 4, and the empty
    string in every other case.  Etc/GMT+15 is invalid and Etc/GMT+5 is its
    own canonical form. *)
Theorem CanonicalizeTimeZoneID_utc_and_gmt_offset (input : string) :
  let upper := transform LocaleIndependentAsciiToUpper input in
  (upper ∈ utc_aliases -> CanonicalizeTimeZoneID input = "UTC") /\
  (upper ∉ utc_aliases -> String.prefix "ETC/GMT" upper = true ->
   CanonicalizeTimeZoneID input = gmt_offset_grammar input) /\
  CanonicalizeTimeZoneID "Etc/GMT+15" = "" /\
  CanonicalizeTimeZoneID "Etc/GMT+5" = "Etc/GMT+5".
Proof.
  intros upper. split; [|split; [|split; reflexivity]].
  - intros Hin. apply is_utc_alias_spec in Hin.
    unfold CanonicalizeTimeZoneID. fold upper. rewrite Hin. reflexivity.
  - intros Hnot Hpre.
    assert (Halias : String.eqb upper "UTC" || String.eqb upper "GMT"
                     || String.eqb upper "ETC/UTC" || String.eqb upper "ETC/GMT" = false).
    { apply not_true_is_false. intros E. apply Hnot, is_utc_alias_spec, E. }
    unfold CanonicalizeTimeZoneID. fold upper.
    rewrite Halias, (strncmp_ETC_GMT _ Hpre).
    clear Hnot Halias. subst upper.
    apply starts_with_ETC_GMT in Hpre as (i0 & i1 & i2 & i3 & i4 & i5 & i6 & suffix & E).
    rewrite E. apply GetGMTTzID_grammar.
Qed.

Lemma CanonicalizeTimeZoneID_utc_and_gmt_offset_witness :
  CanonicalizeTimeZoneID "eTc/UtC" = "UTC" /\
  CanonicalizeTimeZoneID "etc/gmt-14" = "Etc/GMT-14".
Proof.
  pose proof (CanonicalizeTimeZoneID_utc_and_gmt_offset "eTc/UtC") as (H1 & _).
  pose proof (CanonicalizeTimeZoneID_utc_and_gmt_offset "etc/gmt-14") as (_ & H2 & _).
  split.
  - apply H1. apply is_utc_alias_spec. reflexivity.
  - rewrite H2; [reflexivity | | reflexivity].
    intros Hin. apply is_utc_alias_spec in Hin. discriminate Hin.
Defined.

(** A character that is neither an ASCII letter nor a separator makes the
    title-casing loop give up with the empty string. *)
Definition valid_location_char (ch : ascii) : bool :=
  IsAsciiAlpha ch || Ascii.eqb ch "_" || Ascii.eqb ch "-" || Ascii.eqb ch "/".

Lemma ToTitleCase_loop_invalid (rest title_cased : string) (word_length : nat) :
  forallb valid_location_char (list_ascii_of_string rest) = false ->
  ToTitleCase_loop rest title_cased word_length = "".
Proof.
  revert title_cased word_length.
  induction rest as [|ch rest IH]; intros title_cased word_length; simpl; [discriminate|].
  unfold valid_location_char at 1.
  destruct (IsAsciiAlpha ch); simpl; [intros H; apply IH, H|].
  destruct (Ascii.eqb ch "_" || Ascii.eqb ch "-" || Ascii.eqb ch "/"); simpl;
    [intros H; apply IH, H | reflexivity].
Qed.

(** C4.  The lower-casing of a word "Of", "Es" or "Au" happens when the
    separator after the word is read, so such a word at the very end of the
    input keeps its capital: "america/port_of" becomes "America/Port_Of" and
    "Foo/es" becomes "Foo/Es", while the same word followed by a separator is
    lower-cased. *)
Theorem ToTitleCaseTimezoneLocation_last_word_keeps_capital :
  CanonicalizeTimeZoneID "america/port_of" = "America/Port_Of" /\
  CanonicalizeTimeZoneID "Foo/es" = "Foo/Es" /\
  CanonicalizeTimeZoneID "america/port_of_spain" = "America/Port_of_Spain" /\
  CanonicalizeTimeZoneID "america/Of_Something" = "America/of_Something".
Proof. repeat split; vm_compute; reflexivity. Qed.

(** * The isolate monad and the heap *)

Lemma bind_run {A B} (c : M A) (k : A -> M B) (iso : Isolate) :
  (c ≫= k) iso =
  match c iso with
  | (Just a, iso') => k a iso'
  | (Throw e, iso') => (Throw e, iso')
  | (Fatal, iso') => (Fatal, iso')
  end.
Proof. reflexivity. Qed.

Lemma bind_just {A B} (c : M A) (k : A -> M B) iso a iso' :
  c iso = (Just a, iso') -> (c ≫= k) iso = k a iso'.
Proof. intros H. rewrite bind_run, H. reflexivity. Qed.

Lemma bind_ret {A B} (a : A) (k : A -> M B) (iso : Isolate) :
  (mret a ≫= k) iso = k a iso.
Proof. reflexivity. Qed.

Lemma bind_assoc {A B C} (c : M A) (f : A -> M B) (g : B -> M C) (iso : Isolate) :
  ((c ≫= f) ≫= g) iso = (c ≫= (fun a => f a ≫= g)) iso.
Proof. rewrite !bind_run. destruct (c iso) as [[a|e|] iso']; reflexivity. Qed.

Lemma bind_inv {A B} (c : M A) (k : A -> M B) iso b iso2 :
  (c ≫= k) iso = (Just b, iso2) ->
  exists a iso1, c iso = (Just a, iso1) /\ k a iso1 = (Just b, iso2).
Proof.
  rewrite bind_run. destruct (c iso) as [[a|e|] iso1]; intros H; try discriminate H.
  eauto.
Qed.

Lemma set_heap_set_heap h1 h2 iso : set_heap h2 (set_heap h1 iso) = set_heap h2 iso.
Proof. reflexivity. Qed.

Lemma set_heap_id iso : set_heap (heap iso) iso = iso.
Proof. destruct iso; reflexivity. Qed.

Lemma fresh_not_in_heap (h : gmap loc JSObject) : h !! fresh (dom h) = None.
Proof. apply not_elem_of_dom, is_fresh. Qed.

Lemma CreateDataProperty_run (object : loc) (name : string) (v : Object) iso o :
  heap iso !! object = Some o ->
  CreateDataProperty object name v iso =
  (Just true,
   set_heap (<[object := with_properties (define_own name v (properties o)) o]> (heap iso)) iso).
Proof. intros H. unfold CreateDataProperty. rewrite H. reflexivity. Qed.

Lemma define_own_fresh (key : string) (v : Object) props :
  assoc key props = None -> define_own key v props = props ++ [(key, v)].
Proof.
  induction props as [|[k v'] props IH]; simpl; [reflexivity|].
  destruct (String.eqb k key); [discriminate|]. intros H. rewrite IH; auto.
Qed.

Lemma assoc_app (key : string) props1 props2 :
  assoc key (props1 ++ props2) =
  match assoc key props1 with Some v => Some v | None => assoc key props2 end.
Proof.
  induction props1 as [|[k v] props1 IH]; simpl; [reflexivity|].
  destruct (String.eqb k key); auto.
Qed.

Lemma assoc_None (key : string) props :
  assoc key props = None <-> key ∉ props.*1.
Proof.
  induction props as [|[k v] props IH]; simpl.
  - split; [intros _; apply not_elem_of_nil | reflexivity].
  - rewrite not_elem_of_cons. destruct (String.eqb k key) eqn:E.
    + apply String.eqb_eq in E. split; [discriminate | intros [? _]; congruence].
    + apply String.eqb_neq in E. rewrite IH. split; [split; [congruence | tauto] | tauto].
Qed.

(** * The pattern tables and the reverse mapping *)

Lemma container_first_b_sound (pairs : list PatternMap.t) :
  container_first_b pairs = true -> container_first pairs.
Proof.
  induction pairs as [|p0 rest IH]; intros Hb i j p q Hij Hi Hj.
  - rewrite lookup_nil in Hi. discriminate.
  - simpl in Hb. apply andb_true_iff in Hb as [Hall Hrest].
    destruct j as [|j]; [lia|]. simpl in Hj.
    destruct i as [|i]; simpl in Hi.
    + injection Hi as <-.
      rewrite forallb_forall in Hall.
      assert (Hq : In q rest) by (apply list_elem_of_In, list_elem_of_lookup; eauto).
      specialize (Hall q Hq).
      destruct (string_find (PatternMap.pattern q) (PatternMap.pattern p0));
        [discriminate | reflexivity].
    + apply (IH Hrest i j); [lia | assumption | assumption].
Qed.

Lemma first_match_spec (pattern : string) (pairs : list PatternMap.t) (v : string) :
  first_match pattern pairs = Some v <->
  exists l1 p l2, pairs = l1 ++ p :: l2 /\ occurs_in pattern p /\ PatternMap.value p = v
                  /\ forall q, q ∈ l1 -> ~ occurs_in pattern q.
Proof.
  unfold first_match. rewrite fmap_Some. split.
  - intros ([i p] & Hfind & ->). apply list_find_Some in Hfind as (Hi & Hocc & Hbefore).
    exists (take i pairs), p, (drop (S i) pairs). repeat split; auto.
    + symmetry. apply take_drop_middle, Hi.
    + intros q Hq. apply list_elem_of_lookup in Hq as [j Hj].
      pose proof (lookup_lt_Some _ _ _ Hj) as Hlt. rewrite length_take in Hlt.
      rewrite lookup_take_lt in Hj by lia. apply (Hbefore j q); [assumption | lia].
  - intros (l1 & p & l2 & -> & Hocc & <- & Hbefore).
    exists (length l1, p). split; [|reflexivity].
    apply list_find_Some. repeat split; auto.
    + rewrite lookup_app_r, Nat.sub_diag by lia. reflexivity.
    + intros j q Hj Hlt. rewrite lookup_app_l in Hj by assumption.
      apply Hbefore, list_elem_of_lookup. eauto.
Qed.

Lemma with_properties_id o : with_properties (properties o) o = o.
Proof. destruct o; reflexivity. Qed.

Lemma first_match_cons (pattern : string) p pairs :
  first_match pattern (p :: pairs) =
  if found (string_find pattern (PatternMap.pattern p)) then Some (PatternMap.value p)
  else first_match pattern pairs.
Proof.
  unfold first_match. simpl.
  destruct (decide (occurs_in pattern p)) as [Hocc|Hocc]; unfold occurs_in in Hocc.
  - destruct Hocc as [n ->]. reflexivity.
  - destruct (string_find pattern (PatternMap.pattern p)) as [n|]; [exfalso; eauto|].
    simpl. destruct (list_find (occurs_in pattern) pairs) as [[i q]|]; reflexivity.
Qed.

Section Reporter.
Context (env : Env).

Lemma ResolvedOptions_pairs_run (options : loc) (property pattern : string) pairs iso o :
  heap iso !! options = Some o ->
  ResolvedOptions_pairs options property pattern pairs iso =
  (Just tt,
   match first_match pattern pairs with
   | Some v =>
       set_heap (<[options := with_properties (define_own property (Str v) (properties o)) o]>
                   (heap iso)) iso
   | None => iso
   end).
Proof.
  intros Ho. induction pairs as [|p pairs IH]; simpl; [reflexivity|].
  rewrite first_match_cons.
  destruct (found (string_find pattern (PatternMap.pattern p))); [|exact IH].
  rewrite (bind_just _ _ _ _ _ (CreateDataProperty_run _ _ _ _ _ Ho)). reflexivity.
Qed.

Lemma ResolvedOptions_items_run (options : loc) (pattern : string) items :
  NoDup (PatternItem.property <$> items) ->
  forall iso o,
  heap iso !! options = Some o ->
  (forall item, item ∈ items -> assoc (PatternItem.property item) (properties o) = None) ->
  ResolvedOptions_items options pattern items iso =
  (Just tt,
   set_heap (<[options :=
       with_properties
         (properties o ++
          omap (fun item => (fun v => (PatternItem.property item, Str v))
                              <$> first_match pattern (PatternItem.pairs item)) items) o]>
      (heap iso)) iso).
Proof.
  induction items as [|item items IH]; intros Hnd iso o Ho Hfresh; simpl.
  - rewrite app_nil_r, with_properties_id, insert_id, set_heap_id by assumption.
    reflexivity.
  - rewrite fmap_cons in Hnd. apply NoDup_cons in Hnd as [Hnotin Hnd].
    rewrite bind_run, (ResolvedOptions_pairs_run _ _ _ _ _ _ Ho).
    destruct (first_match pattern (PatternItem.pairs item)) as [v|] eqn:Hfm; simpl.
    + rewrite define_own_fresh by (apply Hfresh; left).
      rewrite (IH Hnd _ (with_properties (properties o ++ [(PatternItem.property item, Str v)]) o)).
      * simpl. rewrite insert_insert_eq, <- app_assoc. reflexivity.
      * simpl. apply lookup_insert_eq.
      * intros item' Hin. simpl. rewrite assoc_app, Hfresh by (right; exact Hin).
        simpl. destruct (String.eqb (PatternItem.property item) (PatternItem.property item'))
          eqn:E; [|reflexivity].
        apply String.eqb_eq in E. exfalso. apply Hnotin. rewrite E.
        apply list_elem_of_fmap. eauto.
    + apply (IH Hnd _ _ Ho). intros item' Hin. apply Hfresh. right. exact Hin.
Qed.

End Reporter.

(** One [CreateDataProperty] on the object that the preceding steps have
    just written. *)
Ltac create_property :=
  erewrite bind_just by (apply CreateDataProperty_run; simpl; apply lookup_insert_eq);
  simpl heap; rewrite insert_insert_eq, ?set_heap_set_heap;
  unfold with_properties; simpl.

Section ResolvedOptionsRun.
Context (env : Env).

Local Arguments ResolvedOptions_items : simpl never.
Local Arguments reverseMap : simpl never.

Lemma NoDup_field_names : NoDup (PatternItem.property <$> GetPatternItems).
Proof. apply (bool_decide_unpack _). vm_compute. reflexivity. Qed.

Lemma field_names_fresh (props : list (string * Object)) :
  forallb (fun k => negb (found (assoc k props))) field_names = true ->
  forall item, item ∈ GetPatternItems -> assoc (PatternItem.property item) props = None.
Proof.
  intros H item Hin. rewrite forallb_forall in H.
  assert (Hk : In (PatternItem.property item) field_names).
  { apply list_elem_of_In. change field_names with (PatternItem.property <$> GetPatternItems).
    apply list_elem_of_fmap. eauto. }
  specialize (H _ Hk). destruct (assoc _ props); [discriminate | reflexivity].
Qed.

Lemma timezone_value_run (calendar : Calendar) iso :
  (match getCanonicalID env (calendar_time_zone calendar) with
   | Some canonical_time_zone =>
       if String.eqb canonical_time_zone "Etc/UTC"
          || String.eqb canonical_time_zone "Etc/GMT"
       then mret (Str "UTC")
       else if Intl_ToString_ok env canonical_time_zone
            then mret (Str canonical_time_zone)
            else throw (Pending "Intl::ToString")
   | None => mret undefined_value
   end : M Object) iso =
  if time_zone_converts env calendar then (Just (resolved_time_zone env calendar), iso)
  else (Throw (Pending "Intl::ToString"), iso).
Proof.
  unfold time_zone_converts, resolved_time_zone.
  destruct (getCanonicalID env (calendar_time_zone calendar)) as [c|]; [|reflexivity].
  destruct (String.eqb c "Etc/UTC" || String.eqb c "Etc/GMT"); [reflexivity|].
  simpl. destruct (Intl_ToString_ok env c); reflexivity.
Qed.

(** What [ResolvedOptions] does on a formatter whose fields are set. *)
Lemma ResolvedOptions_outcome (date_time_format : JSDateTimeFormat.t) iso
    icu_locale f calendar tag :
  JSDateTimeFormat.icu_locale date_time_format = Some icu_locale ->
  JSDateTimeFormat.icu_simple_date_format date_time_format = Some f ->
  sdf_calendar f = Some calendar ->
  ToLanguageTag env icu_locale = Some tag ->
  let options := fresh (dom (heap iso)) in
  ResolvedOptions env date_time_format iso =
  if time_zone_converts env calendar then
    (Just options,
     set_heap (<[options :=
                 resolved_object env
                   (resolved_properties env icu_locale tag f calendar
                      (JSDateTimeFormat.hour_cycle date_time_format))]> (heap iso)) iso)
  else
    (Throw (Pending "Intl::ToString"),
     set_heap (<[options := resolved_object env []]> (heap iso)) iso).
Proof.
  intros Hloc Hf Hcal Htag options.
  unfold ResolvedOptions. rewrite bind_run. unfold NewJSObject. fold options.
  rewrite Hloc, Htag, Hf, Hcal.
  rewrite bind_run, timezone_value_run.
  destruct (time_zone_converts env calendar); [|reflexivity].
  unfold resolved_properties, resolved_header, resolved_object.
  fold (resolved_calendar calendar).
  set (ns := GetNumberingSystem env icu_locale).
  set (tzv := resolved_time_zone env calendar).
  set (cal := resolved_calendar calendar).
  set (pat := sdf_pattern f).
  set (proto := Some (object_function_prototype env)).
  create_property. create_property.
  assert (Hrest : forall props final,
    final = props ++ reverseMap pat ->
    forallb (fun k => negb (found (assoc k props))) field_names = true ->
    (_ ← ResolvedOptions_items options pat GetPatternItems; mret options)
      (set_heap (<[options := {| properties := props; prototype := proto;
                               date_value := None; format_fields := None |}]> (heap iso)) iso) =
    (Just options,
     set_heap (<[options := {| properties := final; prototype := proto;
                              date_value := None; format_fields := None |}]> (heap iso)) iso)).
  { intros props final -> Hfresh. rewrite bind_run.
    erewrite ResolvedOptions_items_run;
      [| apply NoDup_field_names | simpl; apply lookup_insert_eq
       | apply field_names_fresh, Hfresh ].
    simpl heap. rewrite insert_insert_eq. reflexivity. }
  destruct (String.eqb ns "") eqn:Hns; simpl;
    [rewrite bind_ret | create_property]; create_property;
    destruct (JSDateTimeFormat.hour_cycle date_time_format) eqn:Hhc; simpl;
    unfold JSDateTimeFormat.HourCycleAsString; rewrite ?Hhc;
    rewrite ?bind_ret, ?bind_assoc; repeat create_property;
    apply Hrest; reflexivity.
Qed.

End ResolvedOptionsRun.

Lemma ResolvedOptions_inv (env : Env) (date_time_format : JSDateTimeFormat.t) iso options iso' :
  ResolvedOptions env date_time_format iso = (Just options, iso') ->
  exists icu_locale f calendar tag,
    JSDateTimeFormat.icu_locale date_time_format = Some icu_locale /\
    JSDateTimeFormat.icu_simple_date_format date_time_format = Some f /\
    sdf_calendar f = Some calendar /\
    ToLanguageTag env icu_locale = Some tag /\
    heap iso' !! options =
      Some (resolved_object env
              (resolved_properties env icu_locale tag f calendar
                 (JSDateTimeFormat.hour_cycle date_time_format))).
Proof.
  destruct (JSDateTimeFormat.icu_locale date_time_format) as [icu_locale|] eqn:Hloc;
    [|unfold ResolvedOptions; rewrite bind_run, Hloc; discriminate].
  destruct (ToLanguageTag env icu_locale) as [tag|] eqn:Htag;
    [|unfold ResolvedOptions; rewrite bind_run, Hloc, Htag; discriminate].
  destruct (JSDateTimeFormat.icu_simple_date_format date_time_format) as [f|] eqn:Hf;
    [|unfold ResolvedOptions; rewrite bind_run, Hloc, Htag, Hf; discriminate].
  destruct (sdf_calendar f) as [calendar|] eqn:Hcal;
    [|unfold ResolvedOptions; rewrite bind_run, Hloc, Htag, Hf, Hcal; discriminate].
  rewrite (ResolvedOptions_outcome env _ iso _ _ _ _ Hloc Hf Hcal Htag).
  destruct (time_zone_converts env calendar); [|discriminate].
  intros [= <- <-]. exists icu_locale, f, calendar, tag.
  repeat split; auto. simpl. apply lookup_insert_eq.
Qed.

(** * Option defaulting *)

Lemma NeedsDefault_loop_run (options : loc) (props : list string) (needs_default : bool) iso :
  NeedsDefault_loop options props needs_default iso =
  (Just (needs_default && forallb (absent iso options) props), iso).
Proof.
  revert needs_default. induction props as [|prop props IH]; intros needs_default; simpl.
  - rewrite andb_true_r. reflexivity.
  - rewrite bind_run. unfold IsPropertyUndefined. rewrite bind_run. simpl.
    rewrite IH. unfold absent at 2.
    destruct (IsUndefined _), needs_default; reflexivity.
Qed.

Lemma NeedsDefault_run (options : loc) (props : list string) iso :
  NeedsDefault options props iso = (Just (forallb (absent iso options) props), iso).
Proof. apply NeedsDefault_loop_run. Qed.

Lemma CreateDefault_run (options : loc) (props : list string) iso o :
  heap iso !! options = Some o ->
  CreateDefault options props iso =
  (Just true,
   set_heap (<[options :=
                with_properties
                  (foldl (fun ps prop => define_own prop (Str "numeric") ps) (properties o) props)
                  o]> (heap iso)) iso).
Proof.
  revert iso o. induction props as [|prop props IH]; intros iso o Ho; simpl.
  - rewrite with_properties_id, insert_id, set_heap_id by assumption. reflexivity.
  - rewrite (bind_just _ _ _ _ _ (CreateDataProperty_run _ _ _ _ _ Ho)).
    erewrite IH by (simpl; apply lookup_insert_eq).
    simpl. rewrite insert_insert_eq. reflexivity.
Qed.

Lemma extends_alloc iso (o : JSObject) :
  let l := fresh (dom (heap iso)) in
  extends iso (set_heap (<[l := o]> (heap iso)) iso).
Proof.
  intros l. split; [reflexivity|]. intros l' o' Hl'. simpl.
  rewrite lookup_insert_ne; [assumption|].
  intros <-. unfold l in Hl'. rewrite fresh_not_in_heap in Hl'. discriminate.
Qed.

Lemma extends_trans iso1 iso2 iso3 : extends iso1 iso2 -> extends iso2 iso3 -> extends iso1 iso3.
Proof. intros [Hc1 H1] [Hc2 H2]. split; [congruence | auto]. Qed.

Lemma extends_fresh iso iso1 l : extends iso iso1 -> heap iso1 !! l = None -> heap iso !! l = None.
Proof.
  intros [_ H] Hl. destruct (heap iso !! l) as [o|] eqn:E; [|reflexivity].
  apply H in E. congruence.
Qed.

(** Steps 1 and 2 of [ToDateTimeOptions]: the fresh object of the view. *)
Lemma options_view_run (input_options : Object) iso :
  input_options <> null_value ->
  exists options iso1 proto,
    (if IsUndefined input_options then NewJSObjectWithNullProto
     else options_obj ← ToObject input_options; ObjectCreate options_obj) iso
      = (Just options, iso1) /\
    extends iso iso1 /\
    heap iso !! options = None /\
    heap iso1 !! options = Some {| properties := []; prototype := proto;
                                   date_value := None; format_fields := None |} /\
    inherits_from input_options proto.
Proof.
  intros Hnull.
  assert (Halloc : forall iso0 proto,
             exists options iso1,
               NewJSObject proto iso0 = (Just options, iso1) /\ extends iso0 iso1 /\
               heap iso0 !! options = None /\
               heap iso1 !! options
                 = Some {| properties := []; prototype := proto;
                           date_value := None; format_fields := None |}).
  { intros iso0 proto. eexists _, _. split; [reflexivity|].
    split; [apply extends_alloc|]. split; [apply fresh_not_in_heap|].
    simpl. apply lookup_insert_eq. }
  destruct input_options as [| |b|s|l]; simpl.
  - destruct (Halloc iso None) as (options & iso1 & Hrun & Hext & Hfresh & Hobj).
    exists options, iso1, None. auto.
  - congruence.
  - destruct (Halloc iso None) as (w & iso0 & Hrun0 & Hext0 & _ & _).
    destruct (Halloc iso0 (Some w)) as (options & iso1 & Hrun & Hext & Hfresh & Hobj).
    exists options, iso1, (Some w). rewrite bind_run, Hrun0.
    split; [exact Hrun|]. split; [eapply extends_trans; eassumption|].
    split; [eapply extends_fresh; eassumption|]. split; [exact Hobj | eauto].
  - destruct (Halloc iso None) as (w & iso0 & Hrun0 & Hext0 & _ & _).
    destruct (Halloc iso0 (Some w)) as (options & iso1 & Hrun & Hext & Hfresh & Hobj).
    exists options, iso1, (Some w). rewrite bind_run, Hrun0.
    split; [exact Hrun|]. split; [eapply extends_trans; eassumption|].
    split; [eapply extends_fresh; eassumption|]. split; [exact Hobj | eauto].
  - destruct (Halloc iso (Some l)) as (options & iso1 & Hrun & Hext & Hfresh & Hobj).
    exists options, iso1, (Some l). rewrite bind_run. simpl. auto.
Qed.

Local Arguments CreateDefault : simpl never.

(** Steps 6 and 7 of [ToDateTimeOptions] on the fresh object. *)
Lemma defaults_step_run (options : loc) (proto : option loc) iso1
    (needs_default : bool) (defaults : DefaultsOption.t) :
  heap iso1 !! options = Some {| properties := []; prototype := proto;
                                 date_value := None; format_fields := None |} ->
  (_ ← (if needs_default then
          _ ← (match defaults with
               | DefaultsOption.kAll | DefaultsOption.kDate =>
                   CreateDefault options ["year"; "month"; "day"]
               | DefaultsOption.kTime => mret true
               end);
          match defaults with
          | DefaultsOption.kAll | DefaultsOption.kTime =>
              CreateDefault options ["hour"; "minute"; "second"]
          | DefaultsOption.kDate => mret true
          end
        else mret true);
   mret options) iso1 =
  (Just options,
   set_heap (<[options :=
                {| properties := default_properties needs_default defaults;
                   prototype := proto;
                   date_value := None; format_fields := None |}]> (heap iso1)) iso1).
Proof.
  intros Hobj.
  assert (Hsame : forall o, heap iso1 !! options = Some o ->
                            set_heap (<[options := o]> (heap iso1)) iso1 = iso1).
  { intros o Ho. rewrite insert_id, set_heap_id by assumption. reflexivity. }
  destruct needs_default; [|rewrite bind_ret; simpl; rewrite Hsame by assumption; reflexivity].
  rewrite bind_assoc.
  destruct defaults; rewrite ?bind_ret;
    repeat (erewrite bind_just
              by (apply CreateDefault_run; first [exact Hobj | simpl; apply lookup_insert_eq]);
            simpl; rewrite ?insert_insert_eq, ?set_heap_set_heap);
    reflexivity.
Qed.

(** The whole of [ToDateTimeOptions] in one equation. *)
Lemma ToDateTimeOptions_run (input_options : Object)
    (required : RequiredOption.t) (defaults : DefaultsOption.t) iso :
  input_options <> null_value ->
  exists options iso1 proto,
    extends iso iso1 /\
    heap iso !! options = None /\
    heap iso1 !! options = Some {| properties := []; prototype := proto;
                                   date_value := None; format_fields := None |} /\
    inherits_from input_options proto /\
    ToDateTimeOptions input_options required defaults iso =
    (Just options,
     set_heap (<[options :=
                  {| properties := default_properties (needsDefault required iso1 options) defaults;
                     prototype := proto;
                     date_value := None; format_fields := None |}]> (heap iso1)) iso1).
Proof.
  intros Hnull.
  destruct (options_view_run input_options iso Hnull)
    as (options & iso1 & proto & Hrun & Hext & Hfresh & Hobj & Hproto).
  exists options, iso1, proto. repeat (split; [assumption|]).
  unfold ToDateTimeOptions. rewrite bind_run, Hrun. cbv zeta.
  unfold needsDefault.
  destruct required.
  - rewrite (bind_just _ _ _ _ _ (NeedsDefault_run _ _ _)), bind_ret, andb_true_r.
    apply defaults_step_run, Hobj.
  - rewrite bind_ret, bind_assoc, (bind_just _ _ _ _ _ (NeedsDefault_run _ _ _)), bind_ret.
    apply defaults_step_run, Hobj.
  - rewrite (bind_just _ _ _ _ _ (NeedsDefault_run _ _ _)), bind_assoc,
      (bind_just _ _ _ _ _ (NeedsDefault_run _ _ _)), bind_ret.
    apply defaults_step_run, Hobj.
Qed.

Lemma ToDateTimeOptions_extends (input_options : Object)
    (required : RequiredOption.t) (defaults : DefaultsOption.t) iso options iso' :
  ToDateTimeOptions input_options required defaults iso = (Just options, iso') ->
  heap iso !! options = None /\ extends iso iso'.
Proof.
  intros H.
  assert (Hnull : input_options <> null_value).
  { intros ->. discriminate H. }
  destruct (ToDateTimeOptions_run input_options required defaults iso Hnull)
    as (options1 & iso1 & proto & [Hcache Hext] & Hfresh & _ & _ & Hrun).
  rewrite Hrun in H. injection H as <- <-.
  split; [exact Hfresh|]. split; [exact Hcache|].
  intros l o Hl. simpl. rewrite lookup_insert_ne; [apply Hext, Hl|].
  intros <-. congruence.
Qed.

Lemma absent_on_empty_object iso options name :
  heap iso !! options = Some {| properties := []; prototype := None;
                                date_value := None; format_fields := None |} ->
  absent iso options name = true.
Proof. intros H. unfold absent. simpl. rewrite H. reflexivity. Qed.

(** C5.  [ToDateTimeOptions] works on a fresh object whose prototype is the
    input (none for an absent input); [needsDefault] is true iff weekday,
    year, month and day all read as undefined on that view when required is
    date or any, and hour, minute and second do when required is time or any;
    when it is true and defaults is date or all the fresh object gets year,
    month and day = "numeric" (and hour, minute, second for time or all);
    every object that existed before is left as it was.  For an absent input
    with required any and defaults date the view has year, month and day
    "numeric" and no time field. *)
Theorem ToDateTimeOptions_needs_default_and_defaults
    (input_options : Object) (required : RequiredOption.t) (defaults : DefaultsOption.t)
    (iso : Isolate) :
  (input_options <> null_value ->
   exists options iso1 iso' proto,
     ToDateTimeOptions input_options required defaults iso = (Just options, iso') /\
     heap iso !! options = None /\
     inherits_from input_options proto /\
     extends iso iso1 /\
     heap iso1 !! options
       = Some {| properties := []; prototype := proto;
                 date_value := None; format_fields := None |} /\
     heap iso' !! options
       = Some {| properties :=
                   default_properties (needsDefault required iso1 options) defaults;
                 prototype := proto; date_value := None; format_fields := None |} /\
     extends iso iso') /\
  (exists options iso',
     ToDateTimeOptions undefined_value RequiredOption.kAny DefaultsOption.kDate iso
       = (Just options, iso') /\
     heap iso' !! options
       = Some {| properties := [("year", Str "numeric"); ("month", Str "numeric");
                                ("day", Str "numeric")];
                 prototype := None; date_value := None; format_fields := None |} /\
     absent iso' options "year" = false /\
     absent iso' options "month" = false /\
     absent iso' options "day" = false /\
     forallb (absent iso' options) ["weekday"; "hour"; "minute"; "second"] = true).
Proof.
  split.
  - intros Hnull.
    destruct (ToDateTimeOptions_run input_options required defaults iso Hnull)
      as (options & iso1 & proto & Hext & Hfresh & Hobj & Hproto & Hrun).
    eexists options, iso1, _, proto. split; [exact Hrun|].
    repeat (split; [assumption|]).
    split; [simpl; apply lookup_insert_eq|].
    destruct Hext as [Hcache Hheap]. split; [exact Hcache|].
    intros l o Hl. simpl. rewrite lookup_insert_ne; [auto|]. congruence.
  - assert (Hnull : undefined_value <> null_value) by discriminate.
    destruct (ToDateTimeOptions_run undefined_value RequiredOption.kAny DefaultsOption.kDate
                iso Hnull)
      as (options & iso1 & proto & Hext & Hfresh & Hobj & Hproto & Hrun).
    simpl in Hproto. subst proto.
    assert (Hnd : needsDefault RequiredOption.kAny iso1 options = true).
    { unfold needsDefault. simpl. rewrite !(absent_on_empty_object _ _ _ Hobj). reflexivity. }
    rewrite Hnd in Hrun. simpl in Hrun.
    eexists options, _. split; [exact Hrun|].
    split; [simpl; apply lookup_insert_eq|].
    unfold absent. simpl. rewrite !lookup_insert_eq. simpl. auto.
Qed.

Lemma ToDateTimeOptions_needs_default_and_defaults_witness :
  exists options iso1 iso' proto,
    ToDateTimeOptions (JSReceiver 1%positive) RequiredOption.kAny DefaultsOption.kAll
      (isolate_with (plain_object [("era", Str "short")])) = (Just options, iso') /\
    heap (isolate_with (plain_object [("era", Str "short")])) !! options = None /\
    inherits_from (JSReceiver 1%positive) proto /\
    extends (isolate_with (plain_object [("era", Str "short")])) iso1 /\
    heap iso1 !! options
      = Some {| properties := []; prototype := proto;
                date_value := None; format_fields := None |} /\
    heap iso' !! options
      = Some {| properties :=
                  default_properties (needsDefault RequiredOption.kAny iso1 options)
                    DefaultsOption.kAll;
                prototype := proto; date_value := None; format_fields := None |} /\
    extends (isolate_with (plain_object [("era", Str "short")])) iso'.
Proof.
  apply (ToDateTimeOptions_needs_default_and_defaults (JSReceiver 1%positive)
           RequiredOption.kAny DefaultsOption.kAll
           (isolate_with (plain_object [("era", Str "short")]))).
  discriminate.
Defined.

Example ToDateTimeOptions_keeps_given_fields :
  let iso := isolate_with (plain_object [("month", Str "long")]) in
  let '(r, iso') := ToDateTimeOptions (JSReceiver 1%positive) RequiredOption.kAny
                      DefaultsOption.kDate iso in
  r = Just 2%positive /\
  heap iso' !! 2%positive
    = Some {| properties := []; prototype := Some 1%positive;
              date_value := None; format_fields := None |} /\
  heap iso' !! 1%positive = Some (plain_object [("month", Str "long")]).
Proof. vm_compute. repeat split. Qed.

(** * Resolved options: the reverse mapping *)

Lemma header_has_no_field (locale calendar numbering_system : string) tzv hc k :
  k ∈ field_names ->
  assoc k (resolved_header locale calendar numbering_system tzv hc) = None.
Proof.
  intros Hk. unfold resolved_header.
  apply list_elem_of_In in Hk. simpl in Hk.
  repeat (destruct Hk as [<- | Hk];
          [destruct (String.eqb numbering_system ""), hc; reflexivity|]).
  destruct Hk.
Qed.

(** Not every row lists its tokens by decreasing length: in the weekday row
    "EEE" comes before "ccccc". *)
Lemma pairs_not_all_longest_token_first :
  ~ (forall item, item ∈ GetPatternItems -> longest_token_first (PatternItem.pairs item)).
Proof.
  intros H.
  assert (Hin : {| PatternItem.property := "weekday";
                   PatternItem.pairs := [mk "EEEEE" "narrow"; mk "EEEE" "long"; mk "EEE" "short";
                                         mk "ccccc" "narrow"; mk "cccc" "long"; mk "ccc" "short"];
                   PatternItem.allowed_values := ["narrow"; "long"; "short"] |}
                ∈ GetPatternItems) by (unfold GetPatternItems; left).
  specialize (H _ Hin 2 3 (mk "EEE" "short") (mk "ccccc" "narrow")).
  simpl in H. specialize (H ltac:(lia) eq_refl eq_refl). lia.
Qed.

(** C7 (amended).  In every row a token never occurs inside a token listed
    after it (of two tokens where one contains the other, the longer comes
    first); the rows are weekday, era, year, month, day, hour, minute, second,
    timeZoneName in this order; and [ResolvedOptions] reports, after its
    header and in the order of the rows, for each row the value of the first
    pair in listed order whose token occurs in the pattern, and nothing for a
    row none of whose tokens occurs. *)
Theorem ResolvedOptions_reports_first_listed_token :
  (forall item, item ∈ GetPatternItems -> container_first (PatternItem.pairs item)) /\
  PatternItem.property <$> GetPatternItems = field_names /\
  (forall pattern pairs v,
     first_match pattern pairs = Some v <->
     exists l1 p l2, pairs = l1 ++ p :: l2 /\ occurs_in pattern p /\ PatternMap.value p = v
                     /\ forall q, q ∈ l1 -> ~ occurs_in pattern q) /\
  (forall (env : Env) (date_time_format : JSDateTimeFormat.t) iso options iso',
     ResolvedOptions env date_time_format iso = (Just options, iso') ->
     exists f header o,
       JSDateTimeFormat.icu_simple_date_format date_time_format = Some f /\
       heap iso' !! options = Some o /\
       properties o = header ++ reverseMap (sdf_pattern f) /\
       forall k, k ∈ field_names -> assoc k header = None).
Proof.
  split; [|split; [reflexivity|split; [exact first_match_spec|]]].
  - intros item Hin. apply container_first_b_sound.
    assert (Hall : forallb (fun item => container_first_b (PatternItem.pairs item))
                     GetPatternItems = true) by (vm_compute; reflexivity).
    rewrite forallb_forall in Hall. apply Hall, list_elem_of_In, Hin.
  - intros env date_time_format iso options iso' Hrun.
    apply ResolvedOptions_inv in Hrun
      as (icu_locale & f & calendar & tag & Hloc & Hf & Hcal & Htag & Hobj).
    eexists f, _, _. split; [exact Hf|]. split; [exact Hobj|].
    split; [reflexivity|]. intros k Hk. apply header_has_no_field, Hk.
Qed.

Lemma ResolvedOptions_reports_first_listed_token_witness :
  exists f header o,
    JSDateTimeFormat.icu_simple_date_format (sample_formatter "EEE, MMM d, y" kUndefined)
      = Some f /\
    heap (ResolvedOptions sample_env (sample_formatter "EEE, MMM d, y" kUndefined)
            empty_isolate).2 !! 1%positive = Some o /\
    properties o = header ++ reverseMap (sdf_pattern f) /\
    forall k, k ∈ field_names -> assoc k header = None.
Proof.
  destruct ResolvedOptions_reports_first_listed_token as (_ & _ & _ & H).
  apply (H sample_env (sample_formatter "EEE, MMM d, y" kUndefined) empty_isolate).
  vm_compute. reflexivity.
Defined.

Example reverseMap_example :
  reverseMap "EEE, MMM d, y" =
  [("weekday", Str "short"); ("year", Str "numeric"); ("month", Str "short");
   ("day", Str "numeric")].
Proof. vm_compute. reflexivity. Qed.

(** * Reading options leaves the isolate alone *)

Lemma readonly_ret {A} (a : A) : readonly (mret a).
Proof. intros iso. reflexivity. Qed.

Lemma readonly_throw {A} e : readonly (@throw A e).
Proof. intros iso. reflexivity. Qed.

Lemma readonly_fatal {A} : readonly (@fatal A).
Proof. intros iso. reflexivity. Qed.

Lemma readonly_bind {A B} (c : M A) (k : A -> M B) :
  readonly c -> (forall a, readonly (k a)) -> readonly (c ≫= k).
Proof.
  intros Hc Hk iso. rewrite bind_run. specialize (Hc iso).
  destruct (c iso) as [[a|e|] iso1]; simpl in *; subst; auto. apply Hk.
Qed.

Lemma readonly_GetPropertyOrElement object name : readonly (GetPropertyOrElement object name).
Proof. intros iso. reflexivity. Qed.

Lemma readonly_inv {A} (c : M A) iso r iso' : readonly c -> c iso = (r, iso') -> iso' = iso.
Proof. intros Hc H. specialize (Hc iso). rewrite H in Hc. exact Hc. Qed.

Section ReadingOptions.
Context (env : Env).

Lemma readonly_ToString v : readonly (ToString env v).
Proof.
  destruct v as [| |[]|s|l]; simpl; try apply readonly_ret.
  destruct (ReceiverToString env l); [apply readonly_ret | apply readonly_throw].
Qed.

Lemma readonly_GetStringOption options property values :
  readonly (GetStringOption env options property values).
Proof.
  unfold GetStringOption. apply readonly_bind; [apply readonly_GetPropertyOrElement|].
  intros v. destruct (IsUndefined v); [apply readonly_ret|].
  apply readonly_bind; [apply readonly_ToString|]. intros s.
  destruct values; [apply readonly_ret|].
  destruct (existsb _ _); [apply readonly_ret | apply readonly_throw].
Qed.

Lemma readonly_GetBoolOption options property : readonly (GetBoolOption options property).
Proof.
  unfold GetBoolOption. apply readonly_bind; [apply readonly_GetPropertyOrElement|].
  intros v. destruct (IsUndefined v); apply readonly_ret.
Qed.

Lemma readonly_GetStringOptionEnum {T} options name strs (enums : list T) d :
  readonly (GetStringOptionEnum env options name strs enums d).
Proof.
  unfold GetStringOptionEnum. apply readonly_bind; [apply readonly_GetStringOption|].
  intros [s|]; [|apply readonly_ret].
  destruct (enum_of s strs enums); [apply readonly_ret | apply readonly_fatal].
Qed.

Lemma readonly_Initialize_skeleton options items has_hour_option skeleton :
  readonly (Initialize_skeleton env options items has_hour_option skeleton).
Proof.
  revert has_hour_option skeleton.
  induction items as [|item items IH]; intros has_hour_option skeleton; simpl;
    [apply readonly_ret|].
  apply readonly_bind; [apply readonly_GetStringOption|].
  intros [input|]; [|apply IH].
  destruct (PatternData.map item !! input); [apply IH | apply readonly_fatal].
Qed.

(** An option that reads as undefined is reported as not found. *)
Lemma GetStringOption_absent options property values iso :
  absent iso options property = true ->
  GetStringOption env options property values iso = (Just None, iso).
Proof.
  intros Habs. unfold GetStringOption. rewrite bind_run. simpl.
  unfold absent in Habs. simpl in Habs.
  destruct (IsUndefined _); [reflexivity | discriminate].
Qed.

Lemma GetStringOption_present options property values iso r iso' :
  absent iso options property = false ->
  GetStringOption env options property values iso = (Just r, iso') ->
  is_Some r.
Proof.
  intros Habs. unfold GetStringOption. rewrite bind_run. simpl.
  unfold absent in Habs. simpl in Habs.
  destruct (IsUndefined _); [discriminate|].
  rewrite bind_run. destruct (ToString env _ iso) as [[s|e|] iso1]; try discriminate.
  destruct values; [intros [= <- _]; eauto|].
  destruct (existsb _ _); [intros [= <- _]; eauto | discriminate].
Qed.

(** The flag of the skeleton loop: set exactly when the hour option is read
    as present by a row named "hour". *)
Lemma Initialize_skeleton_flag options items has_hour_option skeleton iso b sk iso' :
  Initialize_skeleton env options items has_hour_option skeleton iso = (Just (b, sk), iso') ->
  b = has_hour_option
      || (negb (absent iso options "hour")
          && existsb (fun item => String.eqb (PatternData.property item) "hour") items).
Proof.
  revert has_hour_option skeleton.
  induction items as [|item items IH]; intros has_hour_option skeleton; simpl.
  - intros [= <- _ _]. rewrite andb_false_r, orb_false_r. reflexivity.
  - rewrite bind_run.
    destruct (GetStringOption env options (PatternData.property item)
                (PatternData.allowed_values item) iso) as [[r|e|] iso1] eqn:Hget;
      try discriminate.
    assert (iso1 = iso) as -> by (eapply readonly_inv; [apply readonly_GetStringOption|eauto]).
    destruct (String.eqb (PatternData.property item) "hour") eqn:Hhour.
    + apply String.eqb_eq in Hhour.
      destruct (absent iso options "hour") eqn:Habs.
      * rewrite Hhour, (GetStringOption_absent _ _ _ _ Habs) in Hget.
        injection Hget as <-. intros H. apply IH in H.
        rewrite ?Habs in H. simpl in *. exact H.
      * rewrite Hhour in Hget.
        destruct (GetStringOption_present _ _ _ _ _ _ Habs Hget) as [input ->].
        destruct (PatternData.map item !! input); [|discriminate].
        intros H. apply IH in H. rewrite H. simpl.
        rewrite orb_true_r. reflexivity.
    + destruct r as [input|].
      * destruct (PatternData.map item !! input); [|discriminate].
        intros H. apply IH in H. simpl. exact H.
      * intros H. apply IH in H. simpl. exact H.
Qed.

Lemma GetPatternData_has_hour hc :
  existsb (fun item => String.eqb (PatternData.property item) "hour") (GetPatternData hc) = true.
Proof. destruct hc; vm_compute; reflexivity. Qed.

End ReadingOptions.

Lemma readonly_is_same {A} (c : M A) iso r iso' :
  readonly c -> c iso = (r, iso') -> c iso = (r, iso) /\ iso' = iso.
Proof. intros Hc H. pose proof (readonly_inv _ _ _ _ Hc H). subst. auto. Qed.

(** * The fields behind a handle *)

Lemma set_fields_run (date_time_format : loc) set iso f :
  fields_at iso date_time_format = Some f ->
  set_fields date_time_format set iso
    = (Just tt, store_fields date_time_format (set f) iso).
Proof.
  unfold fields_at, set_fields, store_fields. intros H.
  destruct (heap iso !! date_time_format) as [o|] eqn:Ho; [|discriminate H].
  simpl in H. rewrite H, (alter_alt_Some _ _ _ _ Ho). reflexivity.
Qed.

Lemma set_fields_inv (date_time_format : loc) set iso r iso' :
  set_fields date_time_format set iso = (Just r, iso') ->
  exists f, fields_at iso date_time_format = Some f /\
            iso' = store_fields date_time_format (set f) iso.
Proof.
  destruct (fields_at iso date_time_format) as [f|] eqn:Hf.
  - rewrite (set_fields_run _ _ _ _ Hf). intros [= _ <-]. eauto.
  - unfold fields_at in Hf. unfold set_fields.
    destruct (heap iso !! date_time_format) as [o|]; [|discriminate].
    simpl in Hf. rewrite Hf. discriminate.
Qed.

Lemma get_fields_inv (date_time_format : loc) iso f iso' :
  get_fields date_time_format iso = (Just f, iso') ->
  fields_at iso date_time_format = Some f /\ iso' = iso.
Proof.
  unfold get_fields, fields_at.
  destruct (heap iso !! date_time_format ≫= format_fields); [|discriminate].
  intros [= <- <-]. auto.
Qed.

Lemma get_fields_run (date_time_format : loc) iso f :
  fields_at iso date_time_format = Some f ->
  get_fields date_time_format iso = (Just f, iso).
Proof. unfold get_fields, fields_at. intros ->. reflexivity. Qed.

Lemma fields_at_store_fields (date_time_format : loc) f iso :
  is_Some (heap iso !! date_time_format) ->
  fields_at (store_fields date_time_format f iso) date_time_format = Some f.
Proof.
  intros [o Ho]. unfold fields_at, store_fields. simpl.
  rewrite lookup_alter_eq, Ho. reflexivity.
Qed.

Lemma fields_at_is_Some iso (date_time_format : loc) f :
  fields_at iso date_time_format = Some f -> is_Some (heap iso !! date_time_format).
Proof.
  unfold fields_at. destruct (heap iso !! date_time_format); [eauto | discriminate].
Qed.

Lemma store_fields_twice (date_time_format : loc) f g iso :
  store_fields date_time_format g (store_fields date_time_format f iso)
  = store_fields date_time_format g iso.
Proof.
  unfold store_fields. simpl. rewrite set_heap_set_heap, alter_alter_eq.
  reflexivity.
Qed.

Lemma heap_store_fields_ne (date_time_format l : loc) f iso :
  date_time_format <> l -> heap (store_fields date_time_format f iso) !! l = heap iso !! l.
Proof. intros Hne. unfold store_fields. simpl. apply lookup_alter_ne, Hne. Qed.

Lemma heap_store_fields_eq (date_time_format : loc) f iso :
  heap (store_fields date_time_format f iso) !! date_time_format
  = with_fields f <$> heap iso !! date_time_format.
Proof. unfold store_fields. simpl. apply lookup_alter_eq. Qed.

Lemma extends_fields_at iso iso1 (date_time_format : loc) f :
  extends iso iso1 -> fields_at iso date_time_format = Some f ->
  fields_at iso1 date_time_format = Some f.
Proof.
  intros [_ Hext]. unfold fields_at.
  destruct (heap iso !! date_time_format) as [o|] eqn:Ho; [|discriminate].
  rewrite (Hext _ _ Ho). auto.
Qed.

(** * [Initialize] *)

Section InitializeFacts.
Context (env : Env).

(** Everything a successful [Initialize] has read and stored.  The
    options are read in [iso1], the isolate after the flags of the receiver
    have been reset and the options view allocated; the fields are stored in
    the receiver at the end. *)
Lemma Initialize_inv_full (date_time_format : loc) (locales input_options : Object)
    iso result iso' :
  Initialize env date_time_format locales input_options iso = (Just result, iso') ->
  exists fields0 iso1 requested_locales options locale_matcher hour12 hourCycle timezone
         calendar has_hour skeleton f base,
    fields_at iso date_time_format = Some fields0 /\
    result = date_time_format /\
    CanonicalizeLocaleList env locales = Some requested_locales /\
    ToDateTimeOptions input_options RequiredOption.kAny DefaultsOption.kDate
        (store_fields date_time_format (JSDateTimeFormat.set_flags_0 fields0) iso)
      = (Just options, iso1) /\
    GetLocaleMatcher env options iso1 = (Just locale_matcher, iso1) /\
    GetBoolOption options "hour12" iso1 = (Just hour12, iso1) /\
    GetHourCycle env options iso1 = (Just hourCycle, iso1) /\
    GetStringOption env options "timeZone" [] iso1 = (Just timezone, iso1) /\
    let r := ResolveLocale env (AvailableLocales env) requested_locales locale_matcher
               ["nu"; "ca"; "hc"] in
    let icu_locale := ResolvedLocale.icu_locale r in
    let hc_extension := ResolvedLocale.extensions r !! "hc" in
    let hc := negotiated_hour_cycle hour12 hourCycle hc_extension in
    let stored :=
      stored_hour_cycle has_hour hc (HourCycleDefault (adoptCalendar calendar f)) in
    CreateCalendar env icu_locale timezone = Just (Some calendar) /\
    Initialize_skeleton env options (GetPatternData hc) false "" iso1
      = (Just (has_hour, skeleton), iso1) /\
    has_hour = negb (absent iso1 options "hour") /\
    (CreateICUDateFormat env icu_locale skeleton = Some f /\ base = icu_locale \/
     CreateICUDateFormat env icu_locale skeleton = None /\
     CreateICUDateFormat env (no_extension icu_locale) skeleton = Some f /\
     base = no_extension icu_locale) /\
    let fields :=
      {| JSDateTimeFormat.hour_cycle := stored;
         JSDateTimeFormat.icu_locale :=
           Some (reconciled_locale hour12 hourCycle hc_extension stored base);
         JSDateTimeFormat.icu_simple_date_format := Some (adoptCalendar calendar f) |} in
    fields_at iso' date_time_format = Some fields /\
    iso' = store_fields date_time_format fields iso1.
Proof.
  unfold Initialize. intros H.
  apply bind_inv in H as ([] & iso0 & Hflags & H).
  apply set_fields_inv in Hflags as (fields0 & Hfields0 & ->).
  apply bind_inv in H as (requested_locales & iso0 & H0 & H).
  destruct (CanonicalizeLocaleList env locales) as [l|] eqn:Hcll; [|discriminate H0].
  injection H0 as -> <-.
  apply bind_inv in H as (options & iso1 & Hopt & H).
  apply bind_inv in H as (locale_matcher & iso11 & Hm & H).
  apply (readonly_is_same _ _ _ _ (readonly_GetStringOptionEnum env _ _ _ _ _)) in Hm as [Hm ->].
  apply bind_inv in H as (hour12 & iso12 & H12 & H).
  apply (readonly_is_same _ _ _ _ (readonly_GetBoolOption _ _)) in H12 as [H12 ->].
  apply bind_inv in H as (hourCycle & iso13 & Hhc & H).
  apply (readonly_is_same _ _ _ _ (readonly_GetStringOptionEnum env _ _ _ _ _)) in Hhc as [Hhc ->].
  cbv zeta in H.
  set (r := ResolveLocale env (AvailableLocales env) requested_locales locale_matcher
              ["nu"; "ca"; "hc"]) in *.
  set (ext := ResolvedLocale.extensions r !! "hc") in *.
  apply bind_inv in H as (timezone & iso14 & Htz & H).
  apply (readonly_is_same _ _ _ _ (readonly_GetStringOption env _ _ _)) in Htz as [Htz ->].
  apply bind_inv in H as (calendar & iso15 & Hcal & H).
  unfold lift in Hcal. injection Hcal as Hcal ->.
  destruct calendar as [calendar|]; [|discriminate H].
  match type of H with
  | context [GetPatternData ?E] =>
      assert (HE : E = negotiated_hour_cycle hour12 hourCycle ext)
  end.
  { unfold negotiated_hour_cycle.
    destruct hour12 as [[]|], hourCycle, ext as [v|]; simpl; try reflexivity;
      destruct (ToHourCycle v); reflexivity. }
  rewrite !HE in H. clear HE.
  set (hc := negotiated_hour_cycle hour12 hourCycle ext) in *.
  apply bind_inv in H as ([has_hour skeleton] & iso16 & Hsk & H).
  apply (readonly_is_same _ _ _ _ (readonly_Initialize_skeleton env _ _ _ _)) in Hsk as [Hsk ->].
  pose proof (Initialize_skeleton_flag _ _ _ _ _ _ _ _ _ Hsk) as Hflag.
  rewrite GetPatternData_has_hour in Hflag.
  simpl in Hflag. rewrite andb_true_r in Hflag.
  apply bind_inv in H as (fm & iso17 & Hfm & H).
  apply (readonly_is_same _ _ _ _ (readonly_GetStringOptionEnum env _ _ _ _ _)) in Hfm as [Hfm ->].
  apply bind_inv in H as ([base f] & iso18 & Hdf & H).
  assert (Hbase : (CreateICUDateFormat env (ResolvedLocale.icu_locale r) skeleton = Some f /\
                   base = ResolvedLocale.icu_locale r \/
                   CreateICUDateFormat env (ResolvedLocale.icu_locale r) skeleton = None /\
                   CreateICUDateFormat env (no_extension (ResolvedLocale.icu_locale r)) skeleton
                     = Some f /\
                   base = no_extension (ResolvedLocale.icu_locale r)) /\ iso18 = iso15).
  { destruct (CreateICUDateFormat env _ skeleton) as [d|];
      [injection Hdf as <- <- <-; auto|].
    destruct (CreateICUDateFormat env _ skeleton) as [d|];
      [injection Hdf as <- <- <-; auto | discriminate Hdf]. }
  destruct Hbase as [Hbase ->]. clear Hdf.
  assert (Hf1 : fields_at iso15 date_time_format
                = Some (JSDateTimeFormat.set_flags_0 fields0)).
  { eapply extends_fields_at; [eapply ToDateTimeOptions_extends, Hopt|].
    eapply fields_at_store_fields, fields_at_is_Some, Hfields0. }
  set (stored := stored_hour_cycle has_hour hc (HourCycleDefault (adoptCalendar calendar f))).
  apply bind_inv in H as ([] & iso2 & Hw & H).
  assert (Hiso2 : iso2 = store_fields date_time_format
                           (JSDateTimeFormat.set_hour_cycle stored
                              (JSDateTimeFormat.set_flags_0 fields0)) iso15).
  { unfold stored, stored_hour_cycle.
    destruct has_hour; apply set_fields_inv in Hw as (f1 & Hf & ->);
      rewrite Hf1 in Hf; injection Hf as <-; reflexivity. }
  subst iso2. clear Hw.
  assert (Hf2 : fields_at (store_fields date_time_format
                             (JSDateTimeFormat.set_hour_cycle stored
                                (JSDateTimeFormat.set_flags_0 fields0)) iso15) date_time_format
                = Some (JSDateTimeFormat.set_hour_cycle stored
                          (JSDateTimeFormat.set_flags_0 fields0))).
  { eapply fields_at_store_fields, fields_at_is_Some, Hf1. }
  apply bind_inv in H as (icu_locale & iso3 & Hloc & H).
  assert (Hloc' : icu_locale = reconciled_locale hour12 hourCycle ext stored base /\
                  iso3 = store_fields date_time_format
                           (JSDateTimeFormat.set_hour_cycle stored
                              (JSDateTimeFormat.set_flags_0 fields0)) iso15).
  { unfold reconciled_locale.
    destruct (found hour12 || negb (bool_decide (hourCycle = kUndefined)));
      [|injection Hloc as <- <-; auto].
    destruct ext as [v|]; [|injection Hloc as <- <-; auto].
    apply bind_inv in Hloc as (f2 & iso4 & Hget & Hloc).
    apply get_fields_inv in Hget as [Hget ->].
    rewrite Hf2 in Hget. injection Hget as <-. simpl in Hloc.
    destruct (negb (bool_decide (stored = ToHourCycle v)));
      [|injection Hloc as <- <-; auto].
    unfold setKeywordValue_nullptr in Hloc.
    destruct (setKeywordValue_ok env "hc" base); [injection Hloc as <- <-; auto|].
    discriminate Hloc. }
  destruct Hloc' as [-> ->]. clear Hloc.
  apply bind_inv in H as ([] & iso4 & Hw & H).
  rewrite (set_fields_run _ _ _ _ Hf2), store_fields_twice in Hw. injection Hw as <-.
  apply bind_inv in H as ([] & iso5 & Hw & H).
  erewrite set_fields_run, store_fields_twice in Hw
    by (eapply fields_at_store_fields, fields_at_is_Some, Hf1).
  injection Hw as <-. injection H as <- <-.
  exists fields0, iso15, requested_locales, options, locale_matcher, hour12, hourCycle,
    timezone, calendar, has_hour, skeleton, f, base.
  repeat (split; [first [assumption | reflexivity]|]). cbv zeta.
  repeat (split; [first [assumption | reflexivity]|]).
  split; [|reflexivity].
  eapply fields_at_store_fields, fields_at_is_Some, Hf1.
Qed.

Lemma Initialize_inv (date_time_format : loc) (locales input_options : Object)
    iso result iso' :
  Initialize env date_time_format locales input_options iso = (Just result, iso') ->
  exists fields0 iso1 requested_locales options locale_matcher hour12 hourCycle date_format
         calendar base,
    fields_at iso date_time_format = Some fields0 /\
    result = date_time_format /\
    CanonicalizeLocaleList env locales = Some requested_locales /\
    ToDateTimeOptions input_options RequiredOption.kAny DefaultsOption.kDate
        (store_fields date_time_format (JSDateTimeFormat.set_flags_0 fields0) iso)
      = (Just options, iso1) /\
    GetLocaleMatcher env options iso1 = (Just locale_matcher, iso1) /\
    GetBoolOption options "hour12" iso1 = (Just hour12, iso1) /\
    GetHourCycle env options iso1 = (Just hourCycle, iso1) /\
    let r := ResolveLocale env (AvailableLocales env) requested_locales locale_matcher
               ["nu"; "ca"; "hc"] in
    let hc_extension := ResolvedLocale.extensions r !! "hc" in
    let stored :=
      stored_hour_cycle (negb (absent iso1 options "hour"))
        (negotiated_hour_cycle hour12 hourCycle hc_extension)
        (HourCycleDefault date_format) in
    (base = ResolvedLocale.icu_locale r \/ base = no_extension (ResolvedLocale.icu_locale r)) /\
    sdf_calendar date_format = Some calendar /\
    let fields :=
      {| JSDateTimeFormat.hour_cycle := stored;
         JSDateTimeFormat.icu_locale :=
           Some (reconciled_locale hour12 hourCycle hc_extension stored base);
         JSDateTimeFormat.icu_simple_date_format := Some date_format |} in
    fields_at iso' date_time_format = Some fields /\
    iso' = store_fields date_time_format fields iso1.
Proof.
  intros H.
  apply Initialize_inv_full in H
    as (fields0 & iso1 & requested & options & matcher & hour12 & hourCycle & timezone
        & calendar & has_hour & skeleton & f & base
        & Hf0 & -> & Hcll & Hopt & Hm & H12 & Hhc & _ & _ & _ & -> & Hbase & Hfields & ->).
  exists fields0, iso1, requested, options, matcher, hour12, hourCycle,
    (adoptCalendar calendar f), calendar, base.
  repeat (split; [first [assumption | reflexivity]|]). cbv zeta.
  split; [destruct Hbase as [[_ ->] | (_ & _ & ->)]; auto|].
  split; [reflexivity|]. split; [exact Hfields | reflexivity].
Qed.

End InitializeFacts.

Lemma GetBoolOption_view (options : loc) (name : string) iso r iso' :
  GetBoolOption options name iso = (Just r, iso') ->
  r = if absent iso options name then None else Some (BooleanValue (view iso options name)).
Proof.
  unfold GetBoolOption, absent, view. rewrite bind_run. simpl.
  destruct (IsUndefined _); intros [= <- _]; reflexivity.
Qed.

Lemma enum_of_hour_cycle (s : string) (e : HourCycle) :
  enum_of s ["h11"; "h12"; "h23"; "h24"] [kH11; kH12; kH23; kH24] = Some e -> e <> kUndefined.
Proof.
  simpl. repeat (destruct (String.eqb s _); [intros [= <-]; discriminate|]). discriminate.
Qed.


Lemma reverseMap_keys (pattern : string) (k : string) :
  k ∈ (reverseMap pattern).*1 -> k ∈ field_names.
Proof.
  unfold reverseMap. intros Hk.
  apply list_elem_of_fmap in Hk as ([k' v] & -> & Hin).
  apply list_elem_of_omap in Hin as (item & Hitem & Hsome).
  apply fmap_Some in Hsome as (s & _ & [= -> _]). simpl.
  change field_names with (PatternItem.property <$> GetPatternItems).
  apply list_elem_of_fmap. eauto.
Qed.

Lemma assoc_reverseMap_None (pattern : string) (k : string) :
  k ∉ field_names -> assoc k (reverseMap pattern) = None.
Proof. intros Hk. apply assoc_None. intros Hin. apply Hk, (reverseMap_keys pattern), Hin. Qed.

(** * Hour-cycle negotiation *)

(** C9.  When the hour option reads as undefined on the options view,
    [Initialize] stores the hour cycle undefined, whatever hour12 and
    hourCycle say, and the object built by [ResolvedOptions] has neither an
    hourCycle nor an hour12 property.  The view is built, and read, after the
    flags of the receiver have been reset; the fields are stored in the
    receiver, which is returned. *)
Theorem Initialize_without_hour_stores_no_hour_cycle
    (env : Env) (date_time_format : loc) (locales input_options : Object)
    (iso : Isolate) (result : loc) (iso' : Isolate) :
  Initialize env date_time_format locales input_options iso = (Just result, iso') ->
  exists fields0 options iso1 fields,
    fields_at iso date_time_format = Some fields0 /\
    ToDateTimeOptions input_options RequiredOption.kAny DefaultsOption.kDate
        (store_fields date_time_format (JSDateTimeFormat.set_flags_0 fields0) iso)
      = (Just options, iso1) /\
    result = date_time_format /\
    fields_at iso' result = Some fields /\
    iso' = store_fields result fields iso1 /\
    (absent iso1 options "hour" = true ->
     JSDateTimeFormat.hour_cycle fields = kUndefined /\
     forall iso2 resolved iso3,
       ResolvedOptions env fields iso2 = (Just resolved, iso3) ->
       exists o, heap iso3 !! resolved = Some o /\
                 assoc "hourCycle" (properties o) = None /\
                 assoc "hour12" (properties o) = None).
Proof.
  intros Hinit.
  apply Initialize_inv in Hinit
    as (fields0 & iso1 & requested & options & matcher & hour12 & hourCycle & date_format
        & calendar & base & Hf0 & -> & _ & Hopt & _ & _ & _ & _ & _ & Hfields & ->).
  eexists fields0, options, iso1, _.
  split; [exact Hf0|]. split; [exact Hopt|]. split; [reflexivity|].
  split; [exact Hfields|]. split; [reflexivity|].
  intros Habs. rewrite Habs. simpl.
  split; [reflexivity|]. intros iso2 resolved iso3 Hres.
  apply ResolvedOptions_inv in Hres as (l & f & c & tag & _ & _ & _ & _ & Hobj).
  simpl in Hobj. eexists. split; [exact Hobj|]. simpl.
  unfold resolved_properties, resolved_header.
  destruct (String.eqb (GetNumberingSystem env l) ""); simpl;
    split; apply assoc_reverseMap_None; unfold field_names; intros Hin;
    apply list_elem_of_In in Hin; simpl in Hin; intuition discriminate.
Qed.

Lemma Initialize_without_hour_stores_no_hour_cycle_witness :
  let run := Initialize sample_env 2%positive undefined_value (JSReceiver 1%positive)
               (isolate_with_formatter hour12_h23_options) in
  run.1 = Just 2%positive /\
  fields_at run.2 2%positive = Some sample_result_without_hour /\
  absent run.2 3%positive "hour" = true /\
  JSDateTimeFormat.hour_cycle sample_result_without_hour = kUndefined.
Proof.
  intros run.
  assert (Hrun : run = (Just 2%positive, run.2)) by (vm_compute; reflexivity).
  split; [rewrite Hrun; reflexivity|]. split; [vm_compute; reflexivity|].
  split; [vm_compute; reflexivity|].
  unfold run in Hrun.
  destruct (Initialize_without_hour_stores_no_hour_cycle _ _ _ _ _ _ _ Hrun)
    as (fields0 & options & iso1 & fields & Hf0 & Hopt & _ & Hfields & _ & H).
  vm_compute in Hf0. injection Hf0 as <-.
  vm_compute in Hopt. injection Hopt as <- <-.
  vm_compute in Hfields. injection Hfields as <-.
  apply H. vm_compute. reflexivity.
Defined.

(** With hour12 true and hourCycle "h23" but no hour field, the stored hour
    cycle is undefined: it is not one of h11 and h12. *)
Lemma hour12_true_without_hour_is_not_h11_h12 :
  let run := Initialize sample_env 2%positive undefined_value (JSReceiver 1%positive)
               (isolate_with_formatter hour12_h23_options) in
  view (isolate_with_formatter hour12_h23_options) 1%positive "hour12" = Boolean true /\
  run.1 = Just 2%positive /\
  fields_at run.2 2%positive = Some sample_result_without_hour /\
  ~ (JSDateTimeFormat.hour_cycle sample_result_without_hour ∈ [kH11; kH12]).
Proof.
  split; [vm_compute; reflexivity|]. split; [vm_compute; reflexivity|].
  split; [vm_compute; reflexivity|].
  simpl. intros Hin. apply list_elem_of_In in Hin. simpl in Hin. intuition discriminate.
Qed.

(** C2 (amended).  When hour12 reads as set on the options view it alone
    decides the hour cycle, whatever the hourCycle option and the "hc"
    extension of the locale are: the stored hour cycle is h12 for hour12 true
    and h23 for hour12 false when the hour option is present, and undefined
    when the hour option is absent.  So with hour12 true it is never h23 or
    h24, and it is h12 whenever an hour is requested.  The view is built, and
    read, after the flags of the receiver have been reset; the fields are
    stored in the receiver, which is returned. *)
Theorem Initialize_hour12_decides_hour_cycle
    (env : Env) (date_time_format : loc) (locales input_options : Object)
    (iso : Isolate) (result : loc) (iso' : Isolate) :
  Initialize env date_time_format locales input_options iso = (Just result, iso') ->
  exists fields0 options iso1 fields,
    fields_at iso date_time_format = Some fields0 /\
    ToDateTimeOptions input_options RequiredOption.kAny DefaultsOption.kDate
        (store_fields date_time_format (JSDateTimeFormat.set_flags_0 fields0) iso)
      = (Just options, iso1) /\
    result = date_time_format /\
    fields_at iso' result = Some fields /\
    iso' = store_fields result fields iso1 /\
    (absent iso1 options "hour12" = false ->
     JSDateTimeFormat.hour_cycle fields =
       (if absent iso1 options "hour" then kUndefined
        else if BooleanValue (view iso1 options "hour12") then kH12 else kH23) /\
     (BooleanValue (view iso1 options "hour12") = true ->
      JSDateTimeFormat.hour_cycle fields <> kH23 /\
      JSDateTimeFormat.hour_cycle fields <> kH24 /\
      (absent iso1 options "hour" = false ->
       JSDateTimeFormat.hour_cycle fields ∈ [kH11; kH12]))).
Proof.
  intros Hinit.
  apply Initialize_inv in Hinit
    as (fields0 & iso1 & requested & options & matcher & hour12 & hourCycle & date_format
        & calendar & base & Hf0 & -> & _ & Hopt & _ & H12 & _ & _ & _ & Hfields & ->).
  eexists fields0, options, iso1, _.
  split; [exact Hf0|]. split; [exact Hopt|]. split; [reflexivity|].
  split; [exact Hfields|]. split; [reflexivity|].
  intros Hset.
  apply GetBoolOption_view in H12. rewrite Hset in H12. subst hour12. simpl.
  unfold stored_hour_cycle, negotiated_hour_cycle.
  destruct (absent iso1 options "hour"), (BooleanValue (view iso1 options "hour12")); simpl;
    (split; [reflexivity|]); intros Htrue; try discriminate Htrue;
    (split; [discriminate|]); (split; [discriminate|]); intros Hhour; try discriminate Hhour.
  right. left.
Qed.

Lemma Initialize_hour12_decides_hour_cycle_witness :
  let run := Initialize sample_env 2%positive undefined_value (JSReceiver 1%positive)
               (isolate_with_formatter hour12_h23_hour_options) in
  run.1 = Just 2%positive /\
  fields_at run.2 2%positive = Some sample_result_with_hour /\
  absent run.2 3%positive "hour12" = false /\
  JSDateTimeFormat.hour_cycle sample_result_with_hour = kH12.
Proof.
  intros run.
  assert (Hrun : run = (Just 2%positive, run.2)) by (vm_compute; reflexivity).
  split; [rewrite Hrun; reflexivity|]. split; [vm_compute; reflexivity|].
  split; [vm_compute; reflexivity|].
  unfold run in Hrun.
  destruct (Initialize_hour12_decides_hour_cycle _ _ _ _ _ _ _ Hrun)
    as (fields0 & options & iso1 & fields & Hf0 & Hopt & _ & Hfields & _ & H).
  vm_compute in Hf0. injection Hf0 as <-.
  vm_compute in Hopt. injection Hopt as <- <-.
  vm_compute in Hfields. injection Hfields as <-.
  destruct H as [H _]; [vm_compute; reflexivity|].
  vm_compute in H. vm_compute. exact H.
Defined.



(** * Parts *)

Lemma AddElement_at_end (array : list FormattedPart) ty v :
  AddElement array (length array) ty v = array ++ [{| part_type := ty; part_value := v |}].
Proof.
  unfold AddElement. rewrite take_ge, drop_ge by lia. rewrite app_nil_r. reflexivity.
Qed.

Lemma AddElement_at (array : list FormattedPart) index ty v :
  index = length array ->
  AddElement array index ty v = array ++ [{| part_type := ty; part_value := v |}].
Proof. intros ->. apply AddElement_at_end. Qed.

Lemma SubString_app (s : UnicodeString) (a b c : Z) :
  (0 <= a <= b)%Z -> (b <= c)%Z ->
  SubString s a b ++ SubString s b c = SubString s a c.
Proof.
  intros Hab Hbc. unfold SubString.
  replace (Z.to_nat b) with (Z.to_nat a + Z.to_nat (b - a)) by lia.
  rewrite <- drop_drop, take_take_drop. f_equal. lia.
Qed.

Lemma SubString_all (s : UnicodeString) : SubString s 0 (Z.of_nat (length s)) = s.
Proof.
  unfold SubString. rewrite Z.sub_0_r, Nat2Z.id. change (Z.to_nat 0) with 0.
  rewrite drop_0, take_ge by lia. reflexivity.
Qed.

Lemma SubString_empty (s : UnicodeString) (a : Z) : SubString s a a = [].
Proof. unfold SubString. rewrite Z.sub_diag. reflexivity. Qed.

Lemma parts_from_cons formatted from fp spans :
  parts_from formatted from (fp :: spans) =
  literal_gap formatted from (getBeginIndex fp) ++ [field_part formatted fp]
    ++ parts_from formatted (getEndIndex fp) spans.
Proof. unfold parts_from. simpl. rewrite <- app_assoc. reflexivity. Qed.

Lemma ranges_from_cons from fp spans :
  ranges_from from (fp :: spans) =
  gap_range from (getBeginIndex fp) ++ [(getBeginIndex fp, getEndIndex fp)]
    ++ ranges_from (getEndIndex fp) spans.
Proof. unfold ranges_from. simpl. rewrite <- app_assoc. reflexivity. Qed.

Lemma last_previous_ends from fp spans d :
  List.last (previous_ends from (fp :: spans)) d
  = List.last (previous_ends (getEndIndex fp) spans) d.
Proof. reflexivity. Qed.

Section Parts.
Context (env : Env).

(** The loop appends the parts of the specification and keeps [index] equal
    to the number of elements. *)
Lemma FormatToParts_loop_run formatted spans :
  Forall mapped_field spans ->
  forall index previous_end_pos result,
  index = length result ->
  FormatToParts_loop formatted spans index previous_end_pos result =
  Just (length (result ++ parts_from formatted previous_end_pos spans),
        List.last (previous_ends previous_end_pos spans) 0%Z,
        result ++ parts_from formatted previous_end_pos spans).
Proof.
  induction 1 as [|fp spans [ty Hty] _ IH]; intros index prev result ->.
  - simpl. unfold parts_from. simpl. rewrite app_nil_r. reflexivity.
  - simpl FormatToParts_loop. rewrite Hty.
    rewrite parts_from_cons, last_previous_ends.
    unfold literal_gap, field_part. rewrite Hty. simpl default.
    destruct (prev <? getBeginIndex fp)%Z.
    + rewrite (AddElement_at result (length result)) by reflexivity.
      rewrite (AddElement_at (result ++ [_])) by (rewrite length_app; simpl; lia).
      rewrite IH by (rewrite !length_app; simpl; lia).
      rewrite <- !app_assoc. reflexivity.
    + rewrite (AddElement_at result (length result)) by reflexivity.
      rewrite IH by (rewrite !length_app; simpl; lia).
      rewrite <- !app_assoc. reflexivity.
Qed.

Lemma FormatToParts_loop_mapped formatted spans index previous_end_pos result r :
  FormatToParts_loop formatted spans index previous_end_pos result = Just r ->
  Forall mapped_field spans.
Proof.
  revert index previous_end_pos result.
  induction spans as [|fp spans IH]; intros index prev result; [constructor|].
  simpl. destruct (prev <? getBeginIndex fp)%Z;
    (destruct (IcuDateFieldIdToDateType (getField fp)) as [ty|] eqn:Hty; [|discriminate]);
    intros H; (constructor; [unfold mapped_field; rewrite Hty; eauto | eapply IH, H]).
Qed.

End Parts.

Lemma chained_of_well_formed (length : Z) (spans : list FieldPosition) (from : Z) :
  (forall fp, fp ∈ spans ->
     (0 <= getBeginIndex fp /\ getBeginIndex fp <= getEndIndex fp /\ getEndIndex fp <= length)%Z) ->
  (forall i fp fq, spans !! i = Some fp -> spans !! S i = Some fq ->
     (getBeginIndex fp <= getBeginIndex fq /\ getEndIndex fp <= getBeginIndex fq)%Z) ->
  (from <= length)%Z ->
  (forall fp, head spans = Some fp -> (from <= getBeginIndex fp)%Z) ->
  chained from length spans.
Proof.
  revert from. induction spans as [|fp spans IH]; intros from Hbounds Hadj Hfrom Hhead; simpl.
  - exact Hfrom.
  - destruct (Hbounds fp) as (H0 & Hbe & Hel); [left|].
    split; [apply Hhead; reflexivity|]. split; [exact Hbe|].
    apply IH.
    + intros fq Hq. apply Hbounds. right. exact Hq.
    + intros i fq fr Hq Hr. apply (Hadj (S i)); assumption.
    + exact Hel.
    + intros fq Hq. destruct spans as [|fq' spans]; [discriminate|].
      injection Hq as ->. apply (Hadj 0 fp fq); reflexivity.
Qed.

Lemma chained_bound from length spans : chained from length spans -> (from <= length)%Z.
Proof.
  revert from. induction spans as [|fp spans IH]; intros from; simpl; [auto|].
  intros (H1 & H2 & H3). apply IH in H3. lia.
Qed.

Lemma literal_gap_text formatted (from to : Z) :
  (from <= to)%Z ->
  concat (part_value <$> literal_gap formatted from to) = SubString formatted from to.
Proof.
  intros Hle. unfold literal_gap. destruct (from <? to)%Z eqn:E; simpl.
  - apply app_nil_r.
  - apply Z.ltb_ge in E. assert (from = to) as -> by lia. rewrite SubString_empty. reflexivity.
Qed.

Lemma literal_gap_range formatted (from to : Z) :
  part_value <$> literal_gap formatted from to = range_text formatted <$> gap_range from to.
Proof. unfold literal_gap, gap_range. destruct (from <? to)%Z; reflexivity. Qed.

Lemma gap_range_tiles (from to final : Z) rest :
  (from <= to)%Z -> tiles to final rest -> tiles from final (gap_range from to ++ rest).
Proof.
  intros Hle Hrest. unfold gap_range. destruct (from <? to)%Z eqn:E; simpl.
  - auto.
  - apply Z.ltb_ge in E. assert (from = to) as -> by lia. exact Hrest.
Qed.

(** The parts of the specification spell out [from, length) of the string. *)
Lemma parts_from_text formatted (length : Z) spans from :
  (0 <= from)%Z -> chained from length spans ->
  concat (part_value <$>
            (parts_from formatted from spans
             ++ literal_gap formatted (List.last (previous_ends from spans) 0%Z) length))
  = SubString formatted from length.
Proof.
  revert from. induction spans as [|fp spans IH]; intros from Hfrom Hch.
  - simpl in *. unfold parts_from. simpl. apply literal_gap_text, Hch.
  - destruct Hch as (H1 & H2 & H3).
    rewrite parts_from_cons, last_previous_ends, <- !app_assoc.
    rewrite fmap_app, concat_app, fmap_app, concat_app.
    rewrite literal_gap_text by assumption.
    rewrite IH by (assumption || lia).
    simpl. rewrite app_nil_r.
    pose proof (chained_bound _ _ _ H3).
    rewrite SubString_app by lia. apply SubString_app; lia.
Qed.

Lemma parts_from_ranges formatted (length : Z) spans from :
  part_value <$> (parts_from formatted from spans
                  ++ literal_gap formatted (List.last (previous_ends from spans) 0%Z) length)
  = range_text formatted <$>
      (ranges_from from spans ++ gap_range (List.last (previous_ends from spans) 0%Z) length).
Proof.
  revert from. induction spans as [|fp spans IH]; intros from.
  - unfold parts_from, ranges_from. simpl. apply literal_gap_range.
  - rewrite parts_from_cons, ranges_from_cons, last_previous_ends, <- !app_assoc.
    rewrite fmap_app, fmap_app, literal_gap_range, IH.
    rewrite (fmap_app _ (gap_range _ _)), (fmap_app _ [_]). reflexivity.
Qed.

Lemma ranges_from_tiles (length : Z) spans from :
  chained from length spans ->
  tiles from length
    (ranges_from from spans ++ gap_range (List.last (previous_ends from spans) 0%Z) length).
Proof.
  revert from. induction spans as [|fp spans IH]; intros from Hch.
  - unfold ranges_from. simpl in *. rewrite <- (app_nil_r (gap_range _ _)).
    apply gap_range_tiles; [exact Hch | reflexivity].
  - destruct Hch as (H1 & H2 & H3).
    rewrite ranges_from_cons, last_previous_ends, <- !app_assoc.
    apply gap_range_tiles; [exact H1|]. simpl. auto.
Qed.

Section PartsTheorem.
Context (env : Env).

Lemma FormatToParts_run (date_time_format : JSDateTimeFormat.t) (date_value : double)
    format formatted spans :
  JSDateTimeFormat.icu_simple_date_format date_time_format = Some format ->
  icu_format_positions env format date_value = (formatted, spans, true) ->
  Forall mapped_field spans ->
  FormatToParts env date_time_format date_value = Just (expected_parts formatted spans).
Proof.
  intros Hf Hfmt Hmapped. unfold FormatToParts. rewrite Hf, Hfmt. simpl negb. cbv iota.
  destruct formatted as [|u formatted]; [reflexivity|].
  replace (Z.of_nat (length (u :: formatted)) =? 0)%Z with false
    by (symmetry; apply Z.eqb_neq; simpl; lia).
  rewrite (FormatToParts_loop_run _ _ Hmapped 0 0%Z []) by reflexivity.
  rewrite ?app_nil_l. unfold expected_parts, literal_gap.
  destruct (_ <? _)%Z; [|rewrite app_nil_r; reflexivity].
  rewrite AddElement_at_end. reflexivity.
Qed.

Lemma FormatToParts_mapped (date_time_format : JSDateTimeFormat.t) (date_value : double)
    format formatted spans parts :
  JSDateTimeFormat.icu_simple_date_format date_time_format = Some format ->
  icu_format_positions env format date_value = (formatted, spans, true) ->
  FormatToParts env date_time_format date_value = Just parts ->
  parts = expected_parts formatted spans.
Proof.
  intros Hf Hfmt. unfold FormatToParts. rewrite Hf, Hfmt. simpl negb. cbv iota.
  destruct formatted as [|u formatted]; [intros [= <-]; reflexivity|].
  replace (Z.of_nat (length (u :: formatted)) =? 0)%Z with false
    by (symmetry; apply Z.eqb_neq; simpl; lia).
  destruct (FormatToParts_loop _ _ _ _ _) as [[[index prev] result]|e|] eqn:Hloop;
    try discriminate.
  pose proof (FormatToParts_loop_mapped _ _ _ _ _ _ Hloop) as Hmapped.
  rewrite (FormatToParts_loop_run _ _ Hmapped 0 0%Z []) in Hloop by reflexivity.
  injection Hloop as <- <- <-.
  rewrite ?app_nil_l. unfold expected_parts, literal_gap.
  destruct (_ <? _)%Z; [|rewrite app_nil_r; intros [= <-]; reflexivity].
  rewrite AddElement_at_end. intros [= <-]. reflexivity.
Qed.

Lemma TimeClip_not_nan (x : double) : isnan (TimeClip env x) = false -> TimeClip env x = x.
Proof.
  destruct x as [|n|ms]; simpl; try discriminate.
  destruct (_ && _); [reflexivity | discriminate].
Qed.

Lemma expected_parts_text formatted spans :
  chained 0 (Z.of_nat (length formatted)) spans ->
  concat (part_value <$> expected_parts formatted spans) = formatted.
Proof.
  intros Hch. unfold expected_parts. destruct formatted as [|u formatted]; [reflexivity|].
  rewrite parts_from_text by (assumption || lia). apply SubString_all.
Qed.

Lemma expected_parts_ranges formatted spans :
  part_value <$> expected_parts formatted spans
  = range_text formatted <$> expected_ranges (Z.of_nat (length formatted)) spans.
Proof.
  unfold expected_parts, expected_ranges. destruct formatted as [|u formatted]; [reflexivity|].
  replace (Z.of_nat (length (u :: formatted)) =? 0)%Z with false
    by (symmetry; apply Z.eqb_neq; simpl; lia).
  apply parts_from_ranges.
Qed.

Lemma expected_ranges_tile (length : Z) spans :
  chained 0 length spans -> tiles 0 length (expected_ranges length spans).
Proof.
  intros Hch. unfold expected_ranges. destruct (length =? 0)%Z eqn:E.
  - apply Z.eqb_eq in E. simpl. congruence.
  - apply ranges_from_tiles, Hch.
Qed.

End PartsTheorem.

(** C1.  When the spans reported by the engine are sorted by begin index, do
    not overlap and lie within the formatted string, the parts returned by
    [FormatToParts] are, span by span, a literal for the gap before the span
    (when there is one) and the span itself, then a literal for what is left
    after the last span; their index ranges follow one another from 0 to the
    length with no gap and no overlap; their texts concatenate to the
    formatted string, hence to the string returned by [FormatDateTime] when
    the engine gives both calls the same text; an empty formatted string
    gives an empty list; and the parts are returned whenever every span has
    a field id of the table. *)
Theorem FormatToParts_tiles_formatted_string
    (env : Env) (date_time_format : JSDateTimeFormat.t) (date_value : double)
    (format : SimpleDateFormat) (formatted : UnicodeString) (spans : list FieldPosition) :
  JSDateTimeFormat.icu_simple_date_format date_time_format = Some format ->
  icu_format_positions env format date_value = (formatted, spans, true) ->
  spans_well_formed (Z.of_nat (length formatted)) spans ->
  (forall parts,
     FormatToParts env date_time_format date_value = Just parts ->
     parts = expected_parts formatted spans /\
     part_value <$> parts
       = range_text formatted <$> expected_ranges (Z.of_nat (length formatted)) spans /\
     tiles 0 (Z.of_nat (length formatted))
       (expected_ranges (Z.of_nat (length formatted)) spans) /\
     concat (part_value <$> parts) = formatted /\
     (forall text,
        icu_format env format date_value = formatted ->
        FormatDateTime env format date_value = Just text ->
        concat (part_value <$> parts) = text)) /\
  (formatted = [] -> FormatToParts env date_time_format date_value = Just []) /\
  (Forall mapped_field spans ->
   exists parts, FormatToParts env date_time_format date_value = Just parts).
Proof.
  intros Hf Hfmt [Hbounds Hadj].
  assert (Hch : chained 0 (Z.of_nat (length formatted)) spans).
  { apply chained_of_well_formed; [assumption | assumption | lia |].
    intros fp Hhead. apply Hbounds. destruct spans as [|fq spans]; [discriminate|].
    injection Hhead as ->. left. }
  split; [|split].
  - intros parts Hrun.
    apply (FormatToParts_mapped env _ _ _ _ _ _ Hf Hfmt) in Hrun. subst parts.
    split; [reflexivity|]. split; [apply expected_parts_ranges|].
    split; [apply expected_ranges_tile, Hch|].
    split; [apply expected_parts_text, Hch|].
    intros text Hsame Htext. rewrite expected_parts_text by exact Hch.
    unfold FormatDateTime in Htext.
    destruct (isnan (TimeClip env date_value)) eqn:Hnan; [discriminate Htext|].
    injection Htext as <-. rewrite (TimeClip_not_nan env _ Hnan). symmetry. exact Hsame.
  - intros ->. unfold FormatToParts. rewrite Hf, Hfmt. reflexivity.
  - intros Hmapped. eexists. apply (FormatToParts_run env _ _ _ _ _ Hf Hfmt Hmapped).
Qed.

Lemma FormatToParts_tiles_formatted_string_witness :
  FormatToParts sample_env (sample_formatter "M/d/y" kUndefined) (Finite 1546387200000)
    = Just (expected_parts sample_text sample_positions) /\
  concat (part_value <$> expected_parts sample_text sample_positions) = sample_text /\
  FormatDateTime sample_env (sample_format "M/d/y") (Finite 1546387200000) = Just sample_text.
Proof.
  assert (Hwf : spans_well_formed (Z.of_nat (length sample_text)) sample_positions).
  { split.
    - intros fp Hin. apply list_elem_of_In in Hin. simpl in Hin.
      destruct Hin as [<- | [<- | [<- | []]]]; vm_compute; intuition discriminate.
    - intros [|[|[|i]]] fp fq Hp Hq; simpl in Hp, Hq; try discriminate;
        injection Hp as <-; injection Hq as <-; vm_compute; intuition discriminate. }
  destruct (FormatToParts_tiles_formatted_string sample_env
              (sample_formatter "M/d/y" kUndefined) (Finite 1546387200000)
              (sample_format "M/d/y") sample_text sample_positions
              eq_refl eq_refl Hwf) as (Hparts & _ & Hsome).
  destruct Hsome as [parts Hrun].
  { repeat constructor; vm_compute; eauto. }
  destruct (Hparts parts Hrun) as (-> & _ & _ & Htext & _).
  split; [exact Hrun|]. split; [exact Htext|]. vm_compute. reflexivity.
Defined.

(** * The time value *)












Section TimeValue.
Context (env : Env).












End TimeValue.




(** * [ToLocaleDateTime] *)

(** C10.  On a JSDate whose time value is NaN, [ToLocaleDateTime] returns
    the string "Invalid Date", the twelve code units I n v a l i d, space,
    D a t e, and no error, and leaves the isolate exactly as it was: no object
    has been allocated for an options view, no formatter has been built and
    the cache is untouched.  This holds for every locales and options
    argument, also for those that [ToDateTimeOptions] or [Initialize] would
    reject. *)
Theorem ToLocaleDateTime_of_NaN_is_Invalid_Date
    (env : Env) (date : loc) (o : JSObject) (x : double) (locales options : Object)
    (required : RequiredOption.t) (defaults : DefaultsOption.t) (iso : Isolate) :
  heap iso !! date = Some o ->
  date_value o = Some x ->
  isnan x = true ->
  ToLocaleDateTime env (JSReceiver date) locales options required defaults iso
    = (Just (UNICODE_STRING_SIMPLE "Invalid Date"), iso) /\
  UNICODE_STRING_SIMPLE "Invalid Date"
    = [73; 110; 118; 97; 108; 105; 100; 32; 68; 97; 116; 101]%N.
Proof.
  intros Hdate Hvalue Hnan. split; [|reflexivity]. unfold ToLocaleDateTime.
  rewrite bind_run. unfold JSDate_value. rewrite Hdate. simpl. rewrite Hvalue, Hnan.
  reflexivity.
Qed.

Lemma ToLocaleDateTime_of_NaN_is_Invalid_Date_witness :
  ToLocaleDateTime sample_env (JSReceiver 1%positive) undefined_value null_value
    RequiredOption.kAny DefaultsOption.kAll (isolate_with_date NaN)
    = (Just (UNICODE_STRING_SIMPLE "Invalid Date"), isolate_with_date NaN) /\
  (ToLocaleDateTime sample_env (JSReceiver 1%positive) undefined_value null_value
     RequiredOption.kAny DefaultsOption.kAll (isolate_with_date (Finite 0))).1
    = Throw (Pending "Object::ToObject").
Proof.
  split.
  - apply (ToLocaleDateTime_of_NaN_is_Invalid_Date sample_env 1%positive
             {| properties := []; prototype := None; date_value := Some NaN;
                format_fields := None |} NaN);
      reflexivity.
  - vm_compute. reflexivity.
Defined.

(** * ASCII case mapping *)

(** X1.  The two case maps are inverse to each other on ASCII letters, leave
    every other character (also the bytes above 127) as it is, agree on which
    characters are letters, and absorb each other. *)
Theorem ascii_case_maps (ch : ascii) :
  (IsInRange ch "a" "z" = true ->
   LocaleIndependentAsciiToLower (LocaleIndependentAsciiToUpper ch) = ch) /\
  (IsInRange ch "A" "Z" = true ->
   LocaleIndependentAsciiToUpper (LocaleIndependentAsciiToLower ch) = ch) /\
  (IsAsciiAlpha ch = false ->
   LocaleIndependentAsciiToUpper ch = ch /\ LocaleIndependentAsciiToLower ch = ch) /\
  IsAsciiAlpha (LocaleIndependentAsciiToUpper ch) = IsAsciiAlpha ch /\
  IsAsciiAlpha (LocaleIndependentAsciiToLower ch) = IsAsciiAlpha ch /\
  LocaleIndependentAsciiToUpper (LocaleIndependentAsciiToLower ch)
    = LocaleIndependentAsciiToUpper ch /\
  LocaleIndependentAsciiToLower (LocaleIndependentAsciiToUpper ch)
    = LocaleIndependentAsciiToLower ch.
Proof.
  destruct ch as [[] [] [] [] [] [] [] []]; vm_compute;
    repeat split; intros; congruence.
Qed.

Lemma ascii_case_maps_witness :
  LocaleIndependentAsciiToLower (LocaleIndependentAsciiToUpper "i") = "i"%char /\
  LocaleIndependentAsciiToUpper (LocaleIndependentAsciiToLower "I") = "I"%char /\
  LocaleIndependentAsciiToUpper "253" = "253"%char.
Proof.
  destruct (ascii_case_maps "i") as (Hi & _).
  destruct (ascii_case_maps "I") as (_ & HI & _).
  destruct (ascii_case_maps "253") as (_ & _ & Hother & _).
  split; [apply Hi; reflexivity|]. split; [apply HI; reflexivity|].
  apply Hother. reflexivity.
Defined.

(** * Time-zone canonicalisation: case and fixed points *)

Definition is_case_map (f : ascii -> ascii) : Prop :=
  f = LocaleIndependentAsciiToUpper \/ f = LocaleIndependentAsciiToLower.

Ltac by_cases_on_char c :=
  destruct c as [[] [] [] [] [] [] [] []]; vm_compute; repeat split; intros; congruence.

Lemma case_map_pointwise (f : ascii -> ascii) (c : ascii) :
  is_case_map f ->
  IsAsciiAlpha (f c) = IsAsciiAlpha c /\
  LocaleIndependentAsciiToUpper (f c) = LocaleIndependentAsciiToUpper c /\
  LocaleIndependentAsciiToLower (f c) = LocaleIndependentAsciiToLower c /\
  Ascii.eqb (f c) "_" = Ascii.eqb c "_" /\
  Ascii.eqb (f c) "-" = Ascii.eqb c "-" /\
  Ascii.eqb (f c) "/" = Ascii.eqb c "/" /\
  Ascii.eqb (f c) "+" = Ascii.eqb c "+" /\
  Ascii.eqb (f c) "0" = Ascii.eqb c "0" /\
  Ascii.eqb (f c) "1" = Ascii.eqb c "1" /\
  IsInRange (f c) "0" "9" = IsInRange c "0" "9" /\
  IsInRange (f c) "0" "4" = IsInRange c "0" "4" /\
  (IsAsciiAlpha c = false -> f c = c).
Proof. intros [-> | ->]; by_cases_on_char c. Qed.

Lemma transform_length f (s : string) : String.length (transform f s) = String.length s.
Proof. induction s; simpl; congruence. Qed.

Lemma transform_append f (s1 s2 : string) :
  transform f (s1 +:+ s2) = transform f s1 +:+ transform f s2.
Proof.
  induction s1 as [|c s1 IH]; [reflexivity|].
  change (String (f c) (transform f (s1 +:+ s2))
          = String (f c) (transform f s1 +:+ transform f s2)).
  rewrite IH. reflexivity.
Qed.

Lemma transform_push_back f (s : string) (c : ascii) :
  transform f (push_back s c) = push_back (transform f s) (f c).
Proof. unfold push_back. rewrite transform_append. reflexivity. Qed.

Lemma transform_upper_case_map f (s : string) :
  is_case_map f ->
  transform LocaleIndependentAsciiToUpper (transform f s)
  = transform LocaleIndependentAsciiToUpper s.
Proof.
  intros Hf. induction s as [|c s IH]; simpl; [reflexivity|].
  destruct (case_map_pointwise f c Hf) as (_ & -> & _). rewrite IH. reflexivity.
Qed.

Lemma transform_lower_case_map f (s : string) :
  is_case_map f ->
  transform LocaleIndependentAsciiToLower (transform f s)
  = transform LocaleIndependentAsciiToLower s.
Proof.
  intros Hf. induction s as [|c s IH]; simpl; [reflexivity|].
  destruct (case_map_pointwise f c Hf) as (_ & _ & -> & _). rewrite IH. reflexivity.
Qed.

Lemma sign_or_digit_fixed f (c : ascii) :
  is_case_map f ->
  (Ascii.eqb c "+" || Ascii.eqb c "-" = true -> f c = c) /\
  (IsInRange c "0" "9" = true -> f c = c) /\
  (IsInRange c "0" "4" = true -> f c = c) /\
  (Ascii.eqb c "1" = true -> f c = c).
Proof. intros [-> | ->]; by_cases_on_char c. Qed.

Lemma GetGMTTzID_case_map f (input : string) :
  is_case_map f -> GetGMTTzID (transform f input) = GetGMTTzID input.
Proof.
  intros Hf.
  destruct input as [|c0 [|c1 [|c2 [|c3 [|c4 [|c5 [|c6 [|a [|b [|c [|d rest]]]]]]]]]]];
    try reflexivity; unfold GetGMTTzID; cbn.
  - destruct (case_map_pointwise f a Hf) as (_ & _ & _ & _ & _ & _ & _ & -> & _).
    reflexivity.
  - destruct (case_map_pointwise f a Hf) as (_ & _ & _ & _ & -> & _ & -> & _).
    destruct (case_map_pointwise f b Hf) as (_ & _ & _ & _ & _ & _ & _ & _ & _ & -> & _).
    destruct (Ascii.eqb a "+" || Ascii.eqb a "-") eqn:Ea; [|reflexivity].
    destruct (IsInRange b "0" "9") eqn:Eb; [|reflexivity]. simpl.
    destruct (sign_or_digit_fixed f a Hf) as (Ha & _).
    destruct (sign_or_digit_fixed f b Hf) as (_ & Hb & _).
    rewrite (Ha Ea), (Hb Eb). reflexivity.
  - destruct (case_map_pointwise f a Hf) as (_ & _ & _ & _ & -> & _ & -> & _).
    destruct (case_map_pointwise f b Hf) as (_ & _ & _ & _ & _ & _ & _ & _ & -> & _).
    destruct (case_map_pointwise f c Hf)
      as (_ & _ & _ & _ & _ & _ & _ & _ & _ & _ & -> & _).
    destruct (Ascii.eqb a "+" || Ascii.eqb a "-") eqn:Ea; [|reflexivity].
    destruct (Ascii.eqb b "1") eqn:Eb; [|reflexivity].
    destruct (IsInRange c "0" "4") eqn:Ec; [|reflexivity]. simpl.
    destruct (sign_or_digit_fixed f a Hf) as (Ha & _).
    destruct (sign_or_digit_fixed f b Hf) as (_ & _ & _ & Hb).
    destruct (sign_or_digit_fixed f c Hf) as (_ & _ & Hc & _).
    rewrite (Ha Ea), (Hb Eb), (Hc Ec). reflexivity.
Qed.

Lemma ToTitleCase_loop_case_map f (rest title_cased : string) (word_length : nat) :
  is_case_map f ->
  ToTitleCase_loop (transform f rest) title_cased word_length
  = ToTitleCase_loop rest title_cased word_length.
Proof.
  intros Hf. revert title_cased word_length.
  induction rest as [|ch rest IH]; intros title_cased word_length; simpl; [reflexivity|].
  destruct (case_map_pointwise f ch Hf)
    as (-> & -> & -> & -> & -> & -> & _ & _ & _ & _ & _ & Hfix).
  rewrite !IH. destruct (IsAsciiAlpha ch); [reflexivity|].
  rewrite Hfix; reflexivity.
Qed.

Lemma CanonicalizeTimeZoneID_case_map f (input : string) :
  is_case_map f -> CanonicalizeTimeZoneID (transform f input) = CanonicalizeTimeZoneID input.
Proof.
  intros Hf. unfold CanonicalizeTimeZoneID, ToTitleCaseTimezoneLocation.
  rewrite (transform_upper_case_map f input Hf), (GetGMTTzID_case_map f input Hf),
    (ToTitleCase_loop_case_map f input _ _ Hf). reflexivity.
Qed.

Lemma CanonicalizeTimeZoneID_same_lower (input other : string) :
  transform LocaleIndependentAsciiToLower input = transform LocaleIndependentAsciiToLower other ->
  CanonicalizeTimeZoneID input = CanonicalizeTimeZoneID other.
Proof.
  intros Heq.
  rewrite <- (CanonicalizeTimeZoneID_case_map LocaleIndependentAsciiToLower input)
    by (right; reflexivity).
  rewrite <- (CanonicalizeTimeZoneID_case_map LocaleIndependentAsciiToLower other)
    by (right; reflexivity).
  rewrite Heq. reflexivity.
Qed.

(** X2.  Canonicalisation does not depend on the ASCII case of its input:
    the input, its ASCII upper-casing and its ASCII lower-casing have the
    same canonical form, and so have any two inputs that differ in ASCII case
    only. *)
Theorem CanonicalizeTimeZoneID_ignores_case (input other : string) :
  CanonicalizeTimeZoneID (transform LocaleIndependentAsciiToUpper input)
    = CanonicalizeTimeZoneID input /\
  CanonicalizeTimeZoneID (transform LocaleIndependentAsciiToLower input)
    = CanonicalizeTimeZoneID input /\
  (transform LocaleIndependentAsciiToLower input = transform LocaleIndependentAsciiToLower other ->
   CanonicalizeTimeZoneID input = CanonicalizeTimeZoneID other).
Proof.
  split; [apply CanonicalizeTimeZoneID_case_map; left; reflexivity|].
  split; [apply CanonicalizeTimeZoneID_case_map; right; reflexivity|].
  apply CanonicalizeTimeZoneID_same_lower.
Qed.

Lemma CanonicalizeTimeZoneID_ignores_case_witness :
  CanonicalizeTimeZoneID "aSiA/hO_cHI_mINH" = CanonicalizeTimeZoneID "Asia/Ho_Chi_Minh".
Proof.
  destruct (CanonicalizeTimeZoneID_ignores_case "aSiA/hO_cHI_mINH" "Asia/Ho_Chi_Minh")
    as (_ & _ & H).
  apply H. reflexivity.
Defined.

(** ** Title-casing changes letter case only *)

Lemma append_push_back (s r : string) (c : ascii) :
  push_back s c +:+ r = s +:+ String c r.
Proof.
  unfold push_back. induction s as [|x s IH]; [reflexivity|].
  change (String x ((s +:+ String c "") +:+ r) = String x (s +:+ String c r)).
  rewrite IH. reflexivity.
Qed.

Lemma append_empty_r (s : string) : s +:+ "" = s.
Proof.
  induction s as [|x s IH]; [reflexivity|].
  change (String x (s +:+ "") = String x s). rewrite IH. reflexivity.
Qed.

Lemma transform_lower_set_char (s : string) (i : nat) :
  transform LocaleIndependentAsciiToLower
    (set_char s i (LocaleIndependentAsciiToLower (char_at s i)))
  = transform LocaleIndependentAsciiToLower s.
Proof.
  revert i. induction s as [|c s IH]; intros [|i]; try reflexivity.
  - cbn. f_equal.
    destruct (case_map_pointwise LocaleIndependentAsciiToLower c) as (_ & _ & H & _);
      [right; reflexivity | exact H].
  - change (String (LocaleIndependentAsciiToLower c)
              (transform LocaleIndependentAsciiToLower
                 (set_char s i (LocaleIndependentAsciiToLower (char_at s i))))
            = String (LocaleIndependentAsciiToLower c)
                (transform LocaleIndependentAsciiToLower s)).
    rewrite IH. reflexivity.
Qed.

Lemma ToTitleCase_loop_recases (rest title_cased : string) (word_length : nat) :
  valid_location rest = true ->
  transform LocaleIndependentAsciiToLower (ToTitleCase_loop rest title_cased word_length)
  = transform LocaleIndependentAsciiToLower title_cased
    +:+ transform LocaleIndependentAsciiToLower rest.
Proof.
  revert title_cased word_length.
  induction rest as [|ch rest IH]; intros title_cased word_length Hvalid.
  - simpl. rewrite append_empty_r. reflexivity.
  - unfold valid_location in Hvalid. cbn [list_ascii_of_string forallb] in Hvalid.
    apply andb_true_iff in Hvalid as [Hch Hrest].
    cbn [ToTitleCase_loop transform].
    destruct (IsAsciiAlpha ch) eqn:Ealpha.
    + rewrite (IH _ _ Hrest), transform_push_back, append_push_back. do 2 f_equal.
      destruct (case_map_pointwise LocaleIndependentAsciiToUpper ch) as (_ & _ & Hup & _);
        [left; reflexivity|].
      destruct (case_map_pointwise LocaleIndependentAsciiToLower ch) as (_ & _ & Hlo & _);
        [right; reflexivity|].
      destruct (word_length =? 0)%nat; assumption.
    + simpl in Hch. rewrite Hch.
      rewrite (IH _ _ Hrest), transform_push_back, append_push_back. f_equal.
      destruct (word_length =? 2)%nat; [|reflexivity].
      match goal with |- context [if ?b then _ else _] => destruct b end;
        [apply transform_lower_set_char | reflexivity].
Qed.

Lemma transform_empty_inv f (s : string) : transform f s = "" -> s = "".
Proof. destruct s; [reflexivity | discriminate]. Qed.

(** X3.  Title-casing a time-zone location changes letter case only: when
    every character of the input is an ASCII letter or one of _ - /, the
    result has the same ASCII lower-casing (so the same length and the same
    separators at the same places) as the input; any other character makes the
    result empty.  So the result is empty exactly for an empty or an invalid
    input. *)
Theorem ToTitleCaseTimezoneLocation_changes_case_only (input : string) :
  (valid_location input = true ->
   transform LocaleIndependentAsciiToLower (ToTitleCaseTimezoneLocation input)
   = transform LocaleIndependentAsciiToLower input) /\
  (valid_location input = false -> ToTitleCaseTimezoneLocation input = "") /\
  (ToTitleCaseTimezoneLocation input = "" <-> input = "" \/ valid_location input = false).
Proof.
  assert (Hvalid : valid_location input = true ->
            transform LocaleIndependentAsciiToLower (ToTitleCaseTimezoneLocation input)
            = transform LocaleIndependentAsciiToLower input).
  { intros H. unfold ToTitleCaseTimezoneLocation.
    rewrite (ToTitleCase_loop_recases _ _ _ H). reflexivity. }
  assert (Hinvalid : valid_location input = false -> ToTitleCaseTimezoneLocation input = "").
  { intros H. apply ToTitleCase_loop_invalid. exact H. }
  split; [exact Hvalid|]. split; [exact Hinvalid|]. split.
  - intros Hempty. destruct (valid_location input) eqn:E; [left | right; reflexivity].
    specialize (Hvalid eq_refl). rewrite Hempty in Hvalid.
    symmetry in Hvalid. apply transform_empty_inv in Hvalid. exact Hvalid.
  - intros [-> | H]; [reflexivity | apply Hinvalid, H].
Qed.

Lemma ToTitleCaseTimezoneLocation_changes_case_only_witness :
  transform LocaleIndependentAsciiToLower (ToTitleCaseTimezoneLocation "amERICA/port-AU-prince")
    = "america/port-au-prince" /\
  ToTitleCaseTimezoneLocation "Europe/Paris2" = "".
Proof.
  destruct (ToTitleCaseTimezoneLocation_changes_case_only "amERICA/port-AU-prince")
    as (H1 & _).
  destruct (ToTitleCaseTimezoneLocation_changes_case_only "Europe/Paris2") as (_ & H2 & _).
  split; [apply H1; reflexivity | apply H2; reflexivity].
Defined.

(** ** The canonical form is the input up to letter case *)

Lemma strncmp_cons_inv (a b : string) (c : ascii) (n : nat) :
  c <> zero -> strncmp_eq a (String c b) (S n) = true ->
  exists a', a = String c a' /\ strncmp_eq a' b n = true.
Proof.
  intros Hc. cbn [strncmp_eq].
  destruct a as [|x a].
  - destruct (Ascii.eqb zero c) eqn:E; [|discriminate].
    apply Ascii.eqb_eq in E. congruence.
  - destruct (Ascii.eqb x c) eqn:E; [|discriminate].
    apply Ascii.eqb_eq in E. subst x. cbn [negb].
    destruct (Ascii.eqb c zero) eqn:E0; [apply Ascii.eqb_eq in E0; contradiction|].
    intros H. exists a. split; [reflexivity | exact H].
Qed.

Lemma transform_cons_inv f (s r : string) (c : ascii) :
  transform f s = String c r -> exists i s', s = String i s' /\ f i = c /\ transform f s' = r.
Proof. destruct s as [|i s']; [discriminate|]. intros [= <- <-]. eauto. Qed.

Lemma upper_determines_lower (i c : ascii) :
  LocaleIndependentAsciiToUpper i = c ->
  LocaleIndependentAsciiToLower i = LocaleIndependentAsciiToLower c.
Proof.
  intros <-. symmetry.
  destruct (case_map_pointwise LocaleIndependentAsciiToUpper i) as (_ & _ & H & _);
    [left; reflexivity | exact H].
Qed.

Lemma strncmp_transform_inv (s b : string) (c : ascii) (n : nat) :
  c <> zero ->
  strncmp_eq (transform LocaleIndependentAsciiToUpper s) (String c b) (S n) = true ->
  exists i s', s = String i s' /\
    LocaleIndependentAsciiToLower i = LocaleIndependentAsciiToLower c /\
    strncmp_eq (transform LocaleIndependentAsciiToUpper s') b n = true.
Proof.
  intros Hc H. apply strncmp_cons_inv in H as (a' & Ha & H); [|exact Hc].
  apply transform_cons_inv in Ha as (i & s' & -> & Hi & <-).
  exists i, s'. split; [reflexivity|]. split; [apply upper_determines_lower, Hi | exact H].
Qed.

Lemma GetGMTTzID_recases (input : string) :
  strncmp_eq (transform LocaleIndependentAsciiToUpper input) "ETC/GMT" 7 = true ->
  GetGMTTzID input = "" \/
  (transform LocaleIndependentAsciiToLower (GetGMTTzID input)
     = transform LocaleIndependentAsciiToLower input /\
   GetGMTTzID (GetGMTTzID input) = GetGMTTzID input /\
   String.prefix "Etc/GMT" (GetGMTTzID input) = true /\
   (8 <= String.length (GetGMTTzID input))%nat).
Proof.
  intros H.
  apply strncmp_transform_inv in H as (i0 & r0 & -> & E0 & H); [|discriminate].
  apply strncmp_transform_inv in H as (i1 & r1 & -> & E1 & H); [|discriminate].
  apply strncmp_transform_inv in H as (i2 & r2 & -> & E2 & H); [|discriminate].
  apply strncmp_transform_inv in H as (i3 & r3 & -> & E3 & H); [|discriminate].
  apply strncmp_transform_inv in H as (i4 & r4 & -> & E4 & H); [|discriminate].
  apply strncmp_transform_inv in H as (i5 & r5 & -> & E5 & H); [|discriminate].
  apply strncmp_transform_inv in H as (i6 & suffix & -> & E6 & _); [|discriminate].
  destruct suffix as [|a [|b [|c [|d suffix]]]]; try (left; reflexivity);
    unfold GetGMTTzID; cbn [String.length char_at String.get default from_option].
  - cbn. destruct (Ascii.eqb a "0") eqn:Ea; [right | left; reflexivity].
    apply Ascii.eqb_eq in Ea; subst a.
    unfold push_back, String.append. cbn. rewrite E0, E1, E2, E3, E4, E5, E6. repeat split; first [reflexivity | cbn; lia].
  - cbn. destruct (Ascii.eqb a "+" || Ascii.eqb a "-") eqn:Ea; [|left; reflexivity].
    destruct (IsInRange b "0" "9") eqn:Eb; [right | left; reflexivity].
    unfold push_back, String.append. cbn. rewrite E0, E1, E2, E3, E4, E5, E6, Ea, Eb. repeat split; first [reflexivity | cbn; lia].
  - cbn. destruct (Ascii.eqb a "+" || Ascii.eqb a "-") eqn:Ea; [|left; reflexivity].
    destruct (Ascii.eqb b "1") eqn:Eb; [|left; reflexivity].
    destruct (IsInRange c "0" "4") eqn:Ec; [right | left; reflexivity].
    unfold push_back, String.append. cbn. rewrite E0, E1, E2, E3, E4, E5, E6, Ea, Eb, Ec. repeat split; first [reflexivity | cbn; lia].
Qed.

(** X4.  The canonical form of a time-zone name is UTC, or the empty string
    (the name is rejected), or the input with only the ASCII case of its
    letters changed; and canonicalising a canonical form gives it back. *)
Theorem CanonicalizeTimeZoneID_recases_and_is_idempotent (input : string) :
  (CanonicalizeTimeZoneID input = "UTC" \/
   CanonicalizeTimeZoneID input = "" \/
   transform LocaleIndependentAsciiToLower (CanonicalizeTimeZoneID input)
     = transform LocaleIndependentAsciiToLower input) /\
  CanonicalizeTimeZoneID (CanonicalizeTimeZoneID input) = CanonicalizeTimeZoneID input.
Proof.
  assert (Hcases : CanonicalizeTimeZoneID input = "UTC" \/
            CanonicalizeTimeZoneID input = "" \/
            transform LocaleIndependentAsciiToLower (CanonicalizeTimeZoneID input)
              = transform LocaleIndependentAsciiToLower input).
  { unfold CanonicalizeTimeZoneID.
    match goal with |- context [if ?b then "UTC" else _] => destruct b end;
      [left; reflexivity | right].
    destruct (strncmp_eq (transform LocaleIndependentAsciiToUpper input) "ETC/GMT" 7) eqn:E.
    - destruct (GetGMTTzID_recases input E) as [H | (H & _)]; [left | right]; exact H.
    - destruct (valid_location input) eqn:Ev.
      + right. unfold ToTitleCaseTimezoneLocation.
        rewrite (ToTitleCase_loop_recases _ _ _ Ev). reflexivity.
      + left. apply ToTitleCase_loop_invalid. exact Ev. }
  split; [exact Hcases|].
  destruct Hcases as [-> | [-> | H]]; [reflexivity | reflexivity |].
  apply CanonicalizeTimeZoneID_same_lower, H.
Qed.

(** * The pattern tables *)

Lemma map_insert_fold_lookup (pairs : list PatternMap.t) (m : gmap string string) (v : string) :
  foldl (fun m pair => map_insert (PatternMap.value pair) (PatternMap.pattern pair) m) m pairs
    !! v
  = match m !! v with
    | Some token => Some token
    | None => first_token v pairs
    end.
Proof.
  revert m. induction pairs as [|p pairs IH]; intros m; simpl.
  - destruct (m !! v); reflexivity.
  - rewrite IH. unfold map_insert, first_token. simpl.
    destruct (decide (PatternMap.value p = v)) as [<- | Hne].
    + destruct (m !! PatternMap.value p) eqn:E; [rewrite E; reflexivity|].
      rewrite lookup_insert_eq. reflexivity.
    + assert (Hsame : (match m !! PatternMap.value p with
                       | Some _ => m
                       | None => <[PatternMap.value p := PatternMap.pattern p]> m
                       end) !! v = m !! v).
      { destruct (m !! PatternMap.value p); [reflexivity|].
        apply lookup_insert_ne. exact Hne. }
      rewrite Hsame. destruct (m !! v); [reflexivity|].
      destruct (list_find (fun p0 => PatternMap.value p0 = v) pairs) as [[i q]|]; reflexivity.
Qed.

Lemma GetPatternData_no_standalone_token (hc : HourCycle) :
  forallb no_standalone_token (GetPatternData hc) = true.
Proof. destruct hc; vm_compute; reflexivity. Qed.

(** X5.  The map from option value to skeleton token of a row keeps, for
    every value, the token of the first pair that lists the value, since
    [std::map::insert] does not replace an entry; a value that no pair lists
    has no token.  So the stand-alone tokens of the weekday and month rows,
    which repeat values listed before them, are never put in a skeleton: no
    token of [GetPatternData] has the symbol L or c. *)
Theorem NewPatternData_keeps_first_token :
  (forall (property : string) (pairs : list PatternMap.t) (allowed_values : list string)
          (v : string),
     PatternData.map (NewPatternData property pairs allowed_values) !! v
     = first_token v pairs) /\
  (forall (hc : HourCycle) (data : PatternData.t) (v token : string),
     data ∈ GetPatternData hc -> PatternData.map data !! v = Some token ->
     contains_char "L" token = false /\ contains_char "c" token = false).
Proof.
  split.
  - intros property pairs allowed_values v.
    unfold NewPatternData. cbn [PatternData.map].
    rewrite map_insert_fold_lookup, lookup_empty. reflexivity.
  - intros hc data v token Hdata Hv.
    pose proof (GetPatternData_no_standalone_token hc) as Hall.
    rewrite forallb_forall in Hall.
    specialize (Hall data (proj1 (list_elem_of_In _ _) Hdata)).
    unfold no_standalone_token in Hall. rewrite forallb_forall in Hall.
    apply elem_of_map_to_list, list_elem_of_In in Hv. specialize (Hall _ Hv).
    cbn [snd] in Hall. apply andb_true_iff in Hall as [HL Hc].
    apply negb_true_iff in HL, Hc. auto.
Qed.

Lemma NewPatternData_keeps_first_token_witness :
  PatternData.map (NewPatternData "month" [mk "MMMM" "long"; mk "LLLL" "long"] ["long"])
    !! "long" = Some "MMMM".
Proof.
  destruct NewPatternData_keeps_first_token as [Hfirst _].
  rewrite Hfirst. reflexivity.
Defined.

Lemma tokens_read_back_all (hc : HourCycle) :
  forallb (fun data =>
             (bool_decide (hc = kUndefined) && String.eqb (PatternData.property data) "hour")
             || tokens_read_back data)
          (GetPatternData hc) = true.
Proof. destruct hc; vm_compute; reflexivity. Qed.

Lemma item_of_spec (property : string) (item : PatternItem.t) :
  item ∈ GetPatternItems -> PatternItem.property item = property -> item_of property = Some item.
Proof.
  intros Hin <-. unfold GetPatternItems in Hin.
  repeat (apply elem_of_cons in Hin as [-> | Hin]); try (vm_compute; reflexivity).
  apply elem_of_nil in Hin. contradiction.
Qed.

(** X6.  Every skeleton token that [Initialize] can emit for an option
    value is read back by the scan of [ResolvedOptions] as that same value:
    in the table row of the same property, the first pair whose token occurs
    in the token is the pair of the value.  The one exception is the hour row
    while the hour cycle is undefined, whose tokens jj and j are for ICU to
    resolve. *)
Theorem skeleton_tokens_read_back (hc : HourCycle) (data : PatternData.t)
    (item : PatternItem.t) (v token : string) :
  hc <> kUndefined \/ PatternData.property data <> "hour" ->
  data ∈ GetPatternData hc ->
  item ∈ GetPatternItems ->
  PatternItem.property item = PatternData.property data ->
  PatternData.map data !! v = Some token ->
  first_match token (PatternItem.pairs item) = Some v.
Proof.
  intros Hhc Hdata Hitem Hprop Hv.
  pose proof (tokens_read_back_all hc) as Hall.
  rewrite forallb_forall in Hall.
  specialize (Hall data (proj1 (list_elem_of_In _ _) Hdata)).
  apply orb_true_iff in Hall as [Hexc | Hall].
  { apply andb_true_iff in Hexc as [Hu Hh].
    apply bool_decide_eq_true in Hu. apply String.eqb_eq in Hh.
    destruct Hhc; contradiction. }
  unfold tokens_read_back in Hall.
  rewrite (item_of_spec _ item Hitem Hprop) in Hall.
  rewrite forallb_forall in Hall.
  apply elem_of_map_to_list in Hv. apply list_elem_of_In in Hv.
  specialize (Hall _ Hv). apply bool_decide_eq_true in Hall. exact Hall.
Qed.

Lemma skeleton_tokens_read_back_witness :
  first_match "MMMM"
    (PatternItem.pairs
       {| PatternItem.property := "month";
          PatternItem.pairs := [mk "MMMMM" "narrow"; mk "MMMM" "long"; mk "MMM" "short";
                                mk "MM" "2-digit"; mk "M" "numeric";
                                mk "LLLLL" "narrow"; mk "LLLL" "long"; mk "LLL" "short";
                                mk "LL" "2-digit"; mk "L" "numeric"];
          PatternItem.allowed_values := ["narrow"; "long"; "short"; "2-digit"; "numeric"] |})
  = Some "long".
Proof.
  apply (skeleton_tokens_read_back kH23
           (NewPatternData "month"
              [mk "MMMMM" "narrow"; mk "MMMM" "long"; mk "MMM" "short";
               mk "MM" "2-digit"; mk "M" "numeric";
               mk "LLLLL" "narrow"; mk "LLLL" "long"; mk "LLL" "short";
               mk "LL" "2-digit"; mk "L" "numeric"]
              ["narrow"; "long"; "short"; "2-digit"; "numeric"])).
  - left. discriminate.
  - apply list_elem_of_In. vm_compute. tauto.
  - apply list_elem_of_In. vm_compute. tauto.
  - reflexivity.
  - vm_compute. reflexivity.
Defined.

Lemma values_allowed_all : forallb values_allowed GetPatternItems = true.
Proof. vm_compute. reflexivity. Qed.

Lemma reverseMap_allowed (pattern : string) (k : string) (v : Object) :
  (k, v) ∈ reverseMap pattern ->
  exists item s, item ∈ GetPatternItems /\ k = PatternItem.property item /\
    v = Str s /\ s ∈ PatternItem.allowed_values item.
Proof.
  unfold reverseMap. intros Hin.
  apply list_elem_of_omap in Hin as (item & Hitem & Hsome).
  apply fmap_Some in Hsome as (s & Hfirst & [= -> ->]).
  exists item, s. repeat split; [exact Hitem|].
  apply first_match_spec in Hfirst as (l1 & p & l2 & Hpairs & _ & <- & _).
  pose proof values_allowed_all as Hall. rewrite forallb_forall in Hall.
  specialize (Hall item (proj1 (list_elem_of_In _ _) Hitem)).
  unfold values_allowed in Hall. rewrite forallb_forall in Hall.
  assert (Hp : In p (PatternItem.pairs item)).
  { rewrite Hpairs. apply in_or_app. right. left. reflexivity. }
  specialize (Hall p Hp). apply bool_decide_eq_true in Hall. exact Hall.
Qed.

Lemma assoc_Some_elem_of (key : string) (v : Object) props :
  assoc key props = Some v -> (key, v) ∈ props.
Proof.
  induction props as [|[k v'] props IH]; simpl; [discriminate|].
  destruct (String.eqb k key) eqn:E.
  - apply String.eqb_eq in E. intros [= ->]. subst k. left.
  - intros H. right. apply IH, H.
Qed.

(** X7.  Whatever the pattern of the formatter, a date or time field of the
    object that [ResolvedOptions] returns carries one of the values that
    the table row of the field allows, that is a value that [Initialize]
    accepts for the option of the same name. *)
Theorem ResolvedOptions_reports_allowed_values (env : Env)
    (date_time_format : JSDateTimeFormat.t) (iso : Isolate) (options : loc) (iso' : Isolate) :
  ResolvedOptions env date_time_format iso = (Just options, iso') ->
  exists o, heap iso' !! options = Some o /\
    forall k v, k ∈ field_names -> assoc k (properties o) = Some v ->
      exists item s, item ∈ GetPatternItems /\ k = PatternItem.property item /\
        v = Str s /\ s ∈ PatternItem.allowed_values item.
Proof.
  intros Hres.
  apply ResolvedOptions_inv in Hres as (l & f & c & tag & _ & _ & _ & _ & Hobj).
  eexists. split; [exact Hobj|]. unfold resolved_object. cbn [properties].
  intros k v Hk Hv.
  unfold resolved_properties in Hv. rewrite assoc_app, header_has_no_field in Hv by exact Hk.
  apply assoc_Some_elem_of, reverseMap_allowed in Hv. exact Hv.
Qed.

Lemma ResolvedOptions_reports_allowed_values_witness :
  exists o, heap (ResolvedOptions sample_env (sample_formatter "dd/MM/yy" kUndefined)
                    empty_isolate).2 !! 1%positive = Some o /\
    exists item, item ∈ GetPatternItems /\ "year" = PatternItem.property item /\
      "2-digit" ∈ PatternItem.allowed_values item.
Proof.
  destruct (ResolvedOptions_reports_allowed_values sample_env
              (sample_formatter "dd/MM/yy" kUndefined) empty_isolate 1%positive
              (ResolvedOptions sample_env (sample_formatter "dd/MM/yy" kUndefined)
                 empty_isolate).2) as (o & Ho & Hfields); [vm_compute; reflexivity|].
  exists o. split; [exact Ho|].
  destruct (Hfields "year" (Str "2-digit")) as (item & s & Hitem & Hk & [= <-] & Hs).
  - apply list_elem_of_In. vm_compute. tauto.
  - vm_compute in Ho. injection Ho as <-. vm_compute. reflexivity.
  - exists item. auto.
Defined.

(** * Outcomes of [Initialize] *)

Lemma extends_refl iso : extends iso iso.
Proof. split; [reflexivity | auto]. Qed.

Lemma aborts_only_bind {A B} (Q : Prop) (c : M A) (k : A -> M B) :
  aborts_only Q c -> (forall a, returns c a -> aborts_only Q (k a)) ->
  aborts_only Q (c ≫= k).
Proof.
  intros Hc Hk iso iso' H. rewrite bind_run in H.
  destruct (c iso) as [[a|e0|] iso1] eqn:E; simpl in H.
  - eapply Hk; [eexists _, _; exact E | exact H].
  - discriminate.
  - injection H as <-. eapply Hc, E.
Qed.

Lemma aborts_only_ret {A} Q (a : A) : aborts_only Q (mret a).
Proof. intros iso iso'. discriminate. Qed.

Lemma aborts_only_throw {A} Q e : aborts_only Q (@throw A e).
Proof. intros iso iso'. discriminate. Qed.

Lemma existsb_eqb_elem_of (v : string) (values : list string) :
  existsb (String.eqb v) values = true <-> v ∈ values.
Proof.
  rewrite existsb_exists. split.
  - intros (x & Hin & Hx). apply String.eqb_eq in Hx. subst x.
    apply list_elem_of_In. exact Hin.
  - intros Hin. exists v. split; [apply list_elem_of_In, Hin | apply String.eqb_refl].
Qed.

(** ** [ToDateTimeOptions] against every input *)

Lemma ToDateTimeOptions_null required defaults iso :
  ToDateTimeOptions null_value required defaults iso = (Throw (Pending "Object::ToObject"), iso).
Proof. reflexivity. Qed.

Lemma ToDateTimeOptions_outcome (input_options : Object)
    (required : RequiredOption.t) (defaults : DefaultsOption.t) iso :
  (input_options = null_value /\
   ToDateTimeOptions input_options required defaults iso
     = (Throw (Pending "Object::ToObject"), iso)) \/
  (input_options <> null_value /\
   exists options iso' o,
     ToDateTimeOptions input_options required defaults iso = (Just options, iso') /\
     extends iso iso' /\ heap iso !! options = None /\ heap iso' !! options = Some o).
Proof.
  assert (Hcases : input_options = null_value \/ input_options <> null_value)
    by (destruct input_options; auto; right; discriminate).
  destruct Hcases as [-> | Hnull].
  { left. split; [reflexivity | apply ToDateTimeOptions_null]. }
  right. split; [exact Hnull|].
  destruct (ToDateTimeOptions_run input_options required defaults iso Hnull)
    as (options & iso1 & proto & Hext & Hfresh & Hobj & _ & Hrun).
  eexists options, _, _. split; [exact Hrun|].
  split; [|split; [exact Hfresh | simpl; apply lookup_insert_eq]].
  destruct Hext as [Hcache Hheap]. split; [exact Hcache|].
  intros l o Hl. simpl. rewrite lookup_insert_ne; [apply Hheap, Hl|].
  intros <-. congruence.
Qed.

Section InitializeOutcomes.
Context (env : Env).

Lemma returns_GetStringOption (options : loc) (property : string) (values : list string)
    (v : string) :
  returns (GetStringOption env options property values) (Some v) ->
  values = [] \/ v ∈ values.
Proof.
  intros (iso & iso' & H). unfold GetStringOption in H.
  apply bind_inv in H as (o & iso1 & _ & H).
  destruct (IsUndefined o); [discriminate H|].
  apply bind_inv in H as (s & iso2 & _ & H).
  destruct values as [|v0 values]; [left; reflexivity|].
  destruct (existsb (String.eqb s) (v0 :: values)) eqn:E; [|discriminate H].
  injection H as <- _. right. apply existsb_eqb_elem_of, E.
Qed.

Lemma aborts_only_ToString (Q : Prop) (v : Object) : aborts_only Q (ToString env v).
Proof.
  destruct v as [| |[]|s|l]; simpl; try apply aborts_only_ret.
  destruct (ReceiverToString env l); [apply aborts_only_ret | apply aborts_only_throw].
Qed.

Lemma aborts_only_GetStringOption (Q : Prop) (options : loc) (property : string)
    (values : list string) :
  aborts_only Q (GetStringOption env options property values).
Proof.
  unfold GetStringOption. apply aborts_only_bind; [intros iso iso'; discriminate|].
  intros o _. destruct (IsUndefined o); [apply aborts_only_ret|].
  apply aborts_only_bind; [apply aborts_only_ToString|].
  intros s _. destruct values as [|v0 values]; [apply aborts_only_ret|].
  destruct (existsb _ _); [apply aborts_only_ret | apply aborts_only_throw].
Qed.

Lemma enum_of_is_Some {T} (s : string) (str_values : list string) (enum_values : list T) :
  s ∈ str_values -> length str_values <= length enum_values ->
  is_Some (enum_of s str_values enum_values).
Proof.
  revert enum_values. induction str_values as [|sv str_values IH]; intros enum_values Hin Hlen.
  - apply elem_of_nil in Hin. contradiction.
  - destruct enum_values as [|ev enum_values]; simpl in *; [lia|].
    destruct (String.eqb s sv) eqn:E; [eauto|].
    apply String.eqb_neq in E. apply elem_of_cons in Hin as [Hin | Hin]; [contradiction|].
    apply IH; [exact Hin | lia].
Qed.

Lemma aborts_only_GetStringOptionEnum {T} (Q : Prop) (options : loc) (name : string)
    (str_values : list string) (enum_values : list T) (default_value : T) :
  str_values <> [] -> length str_values <= length enum_values ->
  aborts_only Q (GetStringOptionEnum env options name str_values enum_values default_value).
Proof.
  intros Hne Hlen. unfold GetStringOptionEnum.
  apply aborts_only_bind; [apply aborts_only_GetStringOption|].
  intros [s|] Hret; [|apply aborts_only_ret].
  apply returns_GetStringOption in Hret as [-> | Hin]; [contradiction|].
  destruct (enum_of_is_Some s str_values enum_values Hin Hlen) as [e ->].
  apply aborts_only_ret.
Qed.

Lemma aborts_only_Initialize_skeleton (Q : Prop) (options : loc) (items : list PatternData.t)
    (has_hour_option : bool) (skeleton : string) :
  forallb tokens_complete items = true ->
  aborts_only Q (Initialize_skeleton env options items has_hour_option skeleton).
Proof.
  revert has_hour_option skeleton.
  induction items as [|item items IH]; intros has_hour_option skeleton Hall; simpl;
    [apply aborts_only_ret|].
  simpl in Hall. apply andb_true_iff in Hall as [Hitem Hitems].
  apply aborts_only_bind; [apply aborts_only_GetStringOption|].
  intros [input|] Hret; [|apply IH, Hitems].
  unfold tokens_complete in Hitem. apply andb_true_iff in Hitem as [Hne Hcomplete].
  apply negb_true_iff, bool_decide_eq_false in Hne.
  apply returns_GetStringOption in Hret as [Hnil | Hin]; [contradiction|].
  rewrite forallb_forall in Hcomplete.
  specialize (Hcomplete input (proj1 (list_elem_of_In _ _) Hin)).
  destruct (PatternData.map item !! input); [apply IH, Hitems | discriminate].
Qed.

Lemma GetPatternData_complete (hc : HourCycle) :
  forallb tokens_complete (GetPatternData hc) = true.
Proof. destruct hc; vm_compute; reflexivity. Qed.

Lemma aborts_only_ToDateTimeOptions (Q : Prop) input_options required defaults :
  aborts_only Q (ToDateTimeOptions input_options required defaults).
Proof.
  intros iso iso' H.
  destruct (ToDateTimeOptions_outcome input_options required defaults iso)
    as [(_ & Hrun) | (_ & options & iso1 & o & Hrun & _)]; congruence.
Qed.

Lemma only_allocates_ToDateTimeOptions input_options required defaults :
  only_allocates (ToDateTimeOptions input_options required defaults).
Proof.
  intros iso.
  destruct (ToDateTimeOptions_outcome input_options required defaults iso)
    as [(_ & ->) | (_ & options & iso1 & o & -> & Hext & _)];
    [apply extends_refl | exact Hext].
Qed.

Lemma bind_fatal_inv {A B} (c : M A) (k : A -> M B) iso iso' :
  aborts_only False c -> (c ≫= k) iso = (Fatal, iso') ->
  exists a iso1, c iso = (Just a, iso1) /\ k a iso1 = (Fatal, iso').
Proof.
  intros Hc H. rewrite bind_run in H.
  destruct (c iso) as [[a|e|] iso1] eqn:E; simpl in H.
  - eauto.
  - discriminate H.
  - exfalso. eapply Hc, E.
Qed.

Lemma aborts_only_GetBoolOption (Q : Prop) (options : loc) (property : string) :
  aborts_only Q (GetBoolOption options property).
Proof.
  unfold GetBoolOption. apply aborts_only_bind; [intros i i'; discriminate|].
  intros v _. destruct (IsUndefined v); apply aborts_only_ret.
Qed.

(** The last steps of [Initialize], from the first write of the hour
    cycle on, for what the steps before have computed. *)
Lemma Initialize_stores (date_time_format : loc) iso fields1 (has_hour_option : bool)
    (hour_cycle : HourCycle) (maybe_get_hour12 : option bool) (maybe_hour_cycle : HourCycle)
    (hc_extension : option string) (icu_locale : Locale) (date_format : SimpleDateFormat) :
  fields_at iso date_time_format = Some fields1 ->
  let stored := stored_hour_cycle has_hour_option hour_cycle (HourCycleDefault date_format) in
  (_ ← (if has_hour_option then
          set_fields date_time_format
            (JSDateTimeFormat.set_hour_cycle
               (if bool_decide (hour_cycle = kUndefined)
                then HourCycleDefault date_format else hour_cycle))
        else set_fields date_time_format (JSDateTimeFormat.set_hour_cycle kUndefined));
   icu_locale ←
     (if found maybe_get_hour12 || negb (bool_decide (maybe_hour_cycle = kUndefined)) then
        match hc_extension with
        | Some hc_extension =>
            fields ← get_fields date_time_format;
            if negb (bool_decide (JSDateTimeFormat.hour_cycle fields
                                  = ToHourCycle hc_extension))
            then setKeywordValue_nullptr env "hc" icu_locale
            else mret icu_locale
        | None => mret icu_locale
        end
      else mret icu_locale);
   _ ← set_fields date_time_format (JSDateTimeFormat.set_icu_locale icu_locale);
   _ ← set_fields date_time_format (JSDateTimeFormat.set_icu_simple_date_format date_format);
   mret date_time_format) iso
  = if keyword_removal_fails env maybe_get_hour12 maybe_hour_cycle hc_extension stored
         icu_locale
    then (Fatal,
          store_fields date_time_format (JSDateTimeFormat.set_hour_cycle stored fields1) iso)
    else (Just date_time_format,
          store_fields date_time_format
            {| JSDateTimeFormat.hour_cycle := stored;
               JSDateTimeFormat.icu_locale :=
                 Some (reconciled_locale maybe_get_hour12 maybe_hour_cycle hc_extension
                         stored icu_locale);
               JSDateTimeFormat.icu_simple_date_format := Some date_format |} iso).
Proof.
  intros Hf1 stored.
  assert (Hfirst : (if has_hour_option then
                      set_fields date_time_format
                        (JSDateTimeFormat.set_hour_cycle
                           (if bool_decide (hour_cycle = kUndefined)
                            then HourCycleDefault date_format else hour_cycle))
                    else set_fields date_time_format
                           (JSDateTimeFormat.set_hour_cycle kUndefined)) iso
                   = (Just tt, store_fields date_time_format
                                 (JSDateTimeFormat.set_hour_cycle stored fields1) iso)).
  { unfold stored, stored_hour_cycle.
    destruct has_hour_option; apply set_fields_run, Hf1. }
  rewrite (bind_just _ _ _ _ _ Hfirst). clear Hfirst.
  set (iso2 := store_fields date_time_format
                 (JSDateTimeFormat.set_hour_cycle stored fields1) iso).
  assert (Hf2 : fields_at iso2 date_time_format
                = Some (JSDateTimeFormat.set_hour_cycle stored fields1)).
  { eapply fields_at_store_fields, fields_at_is_Some, Hf1. }
  assert (Hlast : forall l,
    (_ ← set_fields date_time_format (JSDateTimeFormat.set_icu_locale l);
     _ ← set_fields date_time_format (JSDateTimeFormat.set_icu_simple_date_format date_format);
     mret date_time_format) iso2
    = (Just date_time_format,
       store_fields date_time_format
         {| JSDateTimeFormat.hour_cycle := stored;
            JSDateTimeFormat.icu_locale := Some l;
            JSDateTimeFormat.icu_simple_date_format := Some date_format |} iso)).
  { intros l. rewrite (bind_just _ _ _ _ _ (set_fields_run _ _ _ _ Hf2)).
    erewrite bind_just
      by (apply set_fields_run; eapply fields_at_store_fields, fields_at_is_Some, Hf2).
    unfold iso2. rewrite !store_fields_twice. reflexivity. }
  unfold keyword_removal_fails, reconciled_locale.
  destruct (found maybe_get_hour12 || negb (bool_decide (maybe_hour_cycle = kUndefined)));
    [|rewrite bind_ret; apply Hlast].
  destruct hc_extension as [v|]; [|rewrite bind_ret; apply Hlast].
  rewrite bind_assoc, (bind_just _ _ _ _ _ (get_fields_run _ _ _ Hf2)).
  cbn [JSDateTimeFormat.hour_cycle JSDateTimeFormat.set_hour_cycle].
  destruct (negb (bool_decide (stored = ToHourCycle v))); [|rewrite bind_ret; apply Hlast].
  unfold setKeywordValue_nullptr.
  destruct (setKeywordValue_ok env "hc" icu_locale); [rewrite bind_ret; apply Hlast|].
  reflexivity.
Qed.

(** The hour cycle that the steps of [Initialize] compute before the
    skeleton is the negotiated one. *)
Lemma hour_cycle_negotiated (hour12 : option bool) (hourCycle : HourCycle)
    (ext : option string) :
  (let hour_cycle := if found hour12 then kUndefined else hourCycle in
   let hour_cycle :=
     if negb (found hour12) && bool_decide (hour_cycle = kUndefined) then
       match ext with
       | Some hc_extension => ToHourCycle hc_extension
       | None => hour_cycle
       end
     else hour_cycle in
   if bool_decide (hour_cycle = kUndefined) then
     match hour12 with
     | Some hour12 => if hour12 : bool then kH12 else kH23
     | None => hour_cycle
     end
   else hour_cycle)
  = negotiated_hour_cycle hour12 hourCycle ext.
Proof.
  unfold negotiated_hour_cycle.
  destruct hour12 as [[]|], hourCycle, ext as [v|]; simpl; try reflexivity;
    destruct (ToHourCycle v); reflexivity.
Qed.

(** X8.  [Initialize] on a formatter aborts the process only when ICU fails
    on what this very call asks of it: when it builds no calendar for the
    time zone made of the timeZone option and the resolved locale; when it
    refuses the date format for the skeleton of the options, for the resolved
    locale and again for its base name; or when it fails to remove the "hc"
    keyword from the locale of the date format.  The lookup of the skeleton
    token of an option value, which the source does not check, and the mapping
    of an option string to its enumeration member always succeed. *)
Theorem Initialize_aborts_only_on_ICU_failure
    (date_time_format : loc) (locales input_options : Object)
    (iso iso' : Isolate) (fields0 : JSDateTimeFormat.t) :
  fields_at iso date_time_format = Some fields0 ->
  Initialize env date_time_format locales input_options iso = (Fatal, iso') ->
  exists requested_locales options iso1 locale_matcher hour12 hourCycle timezone,
    CanonicalizeLocaleList env locales = Some requested_locales /\
    ToDateTimeOptions input_options RequiredOption.kAny DefaultsOption.kDate
        (store_fields date_time_format (JSDateTimeFormat.set_flags_0 fields0) iso)
      = (Just options, iso1) /\
    GetLocaleMatcher env options iso1 = (Just locale_matcher, iso1) /\
    GetBoolOption options "hour12" iso1 = (Just hour12, iso1) /\
    GetHourCycle env options iso1 = (Just hourCycle, iso1) /\
    GetStringOption env options "timeZone" [] iso1 = (Just timezone, iso1) /\
    let r := ResolveLocale env (AvailableLocales env) requested_locales locale_matcher
               ["nu"; "ca"; "hc"] in
    let icu_locale := ResolvedLocale.icu_locale r in
    let hc_extension := ResolvedLocale.extensions r !! "hc" in
    let hc := negotiated_hour_cycle hour12 hourCycle hc_extension in
    (exists tz, CreateTimeZone env timezone = Some tz /\
                Calendar_createInstance env tz icu_locale = None) \/
    (exists calendar has_hour skeleton,
       CreateCalendar env icu_locale timezone = Just (Some calendar) /\
       Initialize_skeleton env options (GetPatternData hc) false "" iso1
         = (Just (has_hour, skeleton), iso1) /\
       (CreateICUDateFormat env icu_locale skeleton = None /\
        CreateICUDateFormat env (no_extension icu_locale) skeleton = None \/
        exists f base,
          (CreateICUDateFormat env icu_locale skeleton = Some f /\ base = icu_locale \/
           CreateICUDateFormat env icu_locale skeleton = None /\
           CreateICUDateFormat env (no_extension icu_locale) skeleton = Some f /\
           base = no_extension icu_locale) /\
          keyword_removal_fails env hour12 hourCycle hc_extension
            (stored_hour_cycle has_hour hc (HourCycleDefault (adoptCalendar calendar f)))
            base = true)).
Proof.
  intros Hfields0 H. unfold Initialize in H.
  rewrite (bind_just _ _ _ _ _ (set_fields_run _ _ _ _ Hfields0)) in H.
  apply bind_fatal_inv in H as (requested_locales & iso0 & H0 & H).
  2:{ destruct (CanonicalizeLocaleList env locales);
        [apply aborts_only_ret | apply aborts_only_throw]. }
  destruct (CanonicalizeLocaleList env locales) as [l|] eqn:Hcll; [|discriminate H0].
  injection H0 as -> <-.
  apply bind_fatal_inv in H as (options & iso1 & Hopt & H);
    [|apply aborts_only_ToDateTimeOptions].
  apply bind_fatal_inv in H as (locale_matcher & iso11 & Hm & H);
    [|apply aborts_only_GetStringOptionEnum; [discriminate | simpl; lia]].
  apply (readonly_is_same _ _ _ _ (readonly_GetStringOptionEnum env _ _ _ _ _)) in Hm as [Hm ->].
  apply bind_fatal_inv in H as (hour12 & iso12 & H12 & H);
    [|apply aborts_only_GetBoolOption].
  apply (readonly_is_same _ _ _ _ (readonly_GetBoolOption _ _)) in H12 as [H12 ->].
  apply bind_fatal_inv in H as (hourCycle & iso13 & Hhc & H);
    [|apply aborts_only_GetStringOptionEnum; [discriminate | simpl; lia]].
  apply (readonly_is_same _ _ _ _ (readonly_GetStringOptionEnum env _ _ _ _ _)) in Hhc as [Hhc ->].
  cbv zeta in H.
  set (r := ResolveLocale env (AvailableLocales env) requested_locales locale_matcher
              ["nu"; "ca"; "hc"]) in *.
  set (ext := ResolvedLocale.extensions r !! "hc") in *.
  apply bind_fatal_inv in H as (timezone & iso14 & Htz & H);
    [|apply aborts_only_GetStringOption].
  apply (readonly_is_same _ _ _ _ (readonly_GetStringOption env _ _ _)) in Htz as [Htz ->].
  exists requested_locales, options, iso1, locale_matcher, hour12, hourCycle, timezone.
  repeat (split; [first [assumption | reflexivity]|]). cbv zeta. fold r. fold ext.
  rewrite bind_run in H. unfold lift in H.
  destruct (CreateCalendar env (ResolvedLocale.icu_locale r) timezone)
    as [[calendar|]|e|] eqn:Hcal; try discriminate H.
  2:{ left. unfold CreateCalendar in Hcal.
      destruct (CreateTimeZone env timezone) as [tz|]; [|discriminate Hcal].
      destruct (Calendar_createInstance env tz _) as [[ty g]|] eqn:E; [discriminate Hcal|].
      eauto. }
  right.
  pose proof (hour_cycle_negotiated hour12 hourCycle ext) as HE. cbv zeta in HE.
  rewrite !HE in H. clear HE.
  set (hc := negotiated_hour_cycle hour12 hourCycle ext) in *.
  apply bind_fatal_inv in H as ([has_hour skeleton] & iso16 & Hsk & H);
    [|apply aborts_only_Initialize_skeleton, GetPatternData_complete].
  apply (readonly_is_same _ _ _ _ (readonly_Initialize_skeleton env _ _ _ _)) in Hsk as [Hsk ->].
  apply bind_fatal_inv in H as (fm & iso17 & Hfm & H);
    [|apply aborts_only_GetStringOptionEnum; [discriminate | simpl; lia]].
  apply (readonly_is_same _ _ _ _ (readonly_GetStringOptionEnum env _ _ _ _ _)) in Hfm as [Hfm ->].
  exists calendar, has_hour, skeleton.
  split; [reflexivity|]. split; [exact Hsk|].
  assert (Hf1 : fields_at iso1 date_time_format
                = Some (JSDateTimeFormat.set_flags_0 fields0)).
  { eapply extends_fields_at; [eapply ToDateTimeOptions_extends, Hopt|].
    eapply fields_at_store_fields, fields_at_is_Some, Hfields0. }
  rewrite bind_run in H.
  destruct (CreateICUDateFormat env (ResolvedLocale.icu_locale r) skeleton) as [f|] eqn:E1.
  - right. exists f, (ResolvedLocale.icu_locale r). split; [auto|].
    cbn in H.
    rewrite (Initialize_stores date_time_format iso1 _ has_hour hc hour12 hourCycle ext
               (ResolvedLocale.icu_locale r) (adoptCalendar calendar f) Hf1) in H.
    destruct (keyword_removal_fails _ _ _ _ _ _); [reflexivity | discriminate H].
  - destruct (CreateICUDateFormat env (no_extension (ResolvedLocale.icu_locale r)) skeleton)
      as [f|] eqn:E2; [|left; auto].
    right. exists f, (no_extension (ResolvedLocale.icu_locale r)). split; [auto|].
    cbn in H.
    rewrite (Initialize_stores date_time_format iso1 _ has_hour hc hour12 hourCycle ext
               (no_extension (ResolvedLocale.icu_locale r)) (adoptCalendar calendar f) Hf1)
      in H.
    destruct (keyword_removal_fails _ _ _ _ _ _); [reflexivity | discriminate H].
Qed.

Lemma CreateCalendar_rejected (icu_locale : Locale) (tz : string) :
  CreateTimeZone env (Some tz) = None ->
  CreateCalendar env icu_locale (Some tz) = Just None.
Proof. intros H. unfold CreateCalendar. rewrite H. reflexivity. Qed.

(** X9.  The RangeError for an invalid time zone.  When the options up to
    timeZone have been read and the timeZone option reads as a name that
    [CreateTimeZone] rejects, a name whose canonical form is empty or is no
    zone that ICU knows, [Initialize] throws the RangeError with the name as
    it was read, not its canonical form.  ICU has not been asked for a
    calendar, and of the receiver only the flags have been written. *)
Theorem Initialize_rejects_invalid_time_zone
    (date_time_format : loc) (locales input_options : Object) (iso : Isolate)
    (fields0 : JSDateTimeFormat.t) (requested_locales : list string) (options : loc)
    (iso1 : Isolate) (locale_matcher : MatcherOption) (hour12 : option bool)
    (hourCycle : HourCycle) (tz : string) :
  fields_at iso date_time_format = Some fields0 ->
  CanonicalizeLocaleList env locales = Some requested_locales ->
  ToDateTimeOptions input_options RequiredOption.kAny DefaultsOption.kDate
      (store_fields date_time_format (JSDateTimeFormat.set_flags_0 fields0) iso)
    = (Just options, iso1) ->
  GetLocaleMatcher env options iso1 = (Just locale_matcher, iso1) ->
  GetBoolOption options "hour12" iso1 = (Just hour12, iso1) ->
  GetHourCycle env options iso1 = (Just hourCycle, iso1) ->
  GetStringOption env options "timeZone" [] iso1 = (Just (Some tz), iso1) ->
  CanonicalizeTimeZoneID tz = "" \/
  IsValidTimeZoneName env (createTimeZone env (CanonicalizeTimeZoneID tz)) = false ->
  Initialize env date_time_format locales input_options iso
    = (Throw (NewRangeError (kInvalidTimeZone tz)), iso1) /\
  fields_at iso1 date_time_format = Some (JSDateTimeFormat.set_flags_0 fields0).
Proof.
  intros Hfields0 Hcll Hopt Hm H12 Hhc Htz Hrejected.
  split.
  - unfold Initialize.
    rewrite (bind_just _ _ _ _ _ (set_fields_run _ _ _ _ Hfields0)), Hcll, bind_ret.
    rewrite (bind_just _ _ _ _ _ Hopt), (bind_just _ _ _ _ _ Hm).
    rewrite (bind_just _ _ _ _ _ H12), (bind_just _ _ _ _ _ Hhc). cbv zeta.
    rewrite (bind_just _ _ _ _ _ Htz), bind_run. unfold lift.
    rewrite CreateCalendar_rejected; [reflexivity|].
    unfold CreateTimeZone.
    destruct Hrejected as [-> | Hinvalid]; [reflexivity|].
    destruct (String.eqb (CanonicalizeTimeZoneID tz) ""); [reflexivity|].
    rewrite Hinvalid. reflexivity.
  - eapply extends_fields_at; [eapply ToDateTimeOptions_extends, Hopt|].
    eapply fields_at_store_fields, fields_at_is_Some, Hfields0.
Qed.

Lemma bind_throw_inv {A B} (c : M A) (k : A -> M B) iso e iso' :
  (c ≫= k) iso = (Throw e, iso') ->
  c iso = (Throw e, iso') \/
  exists a iso1, c iso = (Just a, iso1) /\ k a iso1 = (Throw e, iso').
Proof.
  intros H. rewrite bind_run in H.
  destruct (c iso) as [[a|e0|] iso1] eqn:E; simpl in H.
  - right. eauto.
  - left. injection H as <- <-. reflexivity.
  - discriminate H.
Qed.

(** A step that only reads: when it throws, the isolate is the one it
    started in; when it returns, the steps after it start there too. *)
Ltac reading_step H Hext lem :=
  let Ha := fresh "Ha" in
  apply bind_throw_inv in H as [H | (? & ? & Ha & H)];
  [ apply (readonly_inv _ _ _ _ lem) in H; subst; exact Hext
  | apply (readonly_inv _ _ _ _ lem) in Ha; subst ].

(** When [Initialize] throws, it has allocated at most, after the reset
    of the flags of its receiver. *)
Lemma Initialize_throws_after_reset (date_time_format : loc) (locales input_options : Object)
    iso fields0 e iso' :
  fields_at iso date_time_format = Some fields0 ->
  Initialize env date_time_format locales input_options iso = (Throw e, iso') ->
  extends (store_fields date_time_format (JSDateTimeFormat.set_flags_0 fields0) iso) iso'.
Proof.
  intros Hfields0 H. unfold Initialize in H.
  rewrite (bind_just _ _ _ _ _ (set_fields_run _ _ _ _ Hfields0)) in H.
  set (iso0 := store_fields date_time_format (JSDateTimeFormat.set_flags_0 fields0) iso) in *.
  apply bind_throw_inv in H as [H | (requested & iso0' & H0 & H)].
  { destruct (CanonicalizeLocaleList env locales); [discriminate H|].
    injection H as _ <-. apply extends_refl. }
  destruct (CanonicalizeLocaleList env locales) as [l|]; [|discriminate H0].
  injection H0 as -> <-.
  apply bind_throw_inv in H as [H | (options & iso1 & Hopt & H)].
  { pose proof (only_allocates_ToDateTimeOptions input_options RequiredOption.kAny
                  DefaultsOption.kDate iso0) as Hext.
    rewrite H in Hext. exact Hext. }
  assert (Hext : extends iso0 iso1) by (eapply ToDateTimeOptions_extends, Hopt).
  assert (Hf1 : fields_at iso1 date_time_format
                = Some (JSDateTimeFormat.set_flags_0 fields0)).
  { eapply extends_fields_at; [exact Hext|].
    eapply fields_at_store_fields, fields_at_is_Some, Hfields0. }
  reading_step H Hext (readonly_GetStringOptionEnum env options "localeMatcher"
                         ["best fit"; "lookup"] [kBestFit; kLookup] kBestFit).
  reading_step H Hext (readonly_GetBoolOption options "hour12").
  reading_step H Hext (readonly_GetStringOptionEnum env options "hourCycle"
                         ["h11"; "h12"; "h23"; "h24"] [kH11; kH12; kH23; kH24] kUndefined).
  cbv zeta in H.
  reading_step H Hext (readonly_GetStringOption env options "timeZone" []).
  apply bind_throw_inv in H as [H | (calendar & iso2 & Hcal & H)].
  { unfold lift in H. injection H as _ <-. exact Hext. }
  unfold lift in Hcal. injection Hcal as Hcal <-.
  destruct calendar as [calendar|]; [|injection H as _ <-; exact Hext].
  apply bind_throw_inv in H as [H | ([has_hour skeleton] & iso2 & Hsk & H)].
  { apply (readonly_inv _ _ _ _ (readonly_Initialize_skeleton env _ _ _ _)) in H.
    subst. exact Hext. }
  apply (readonly_inv _ _ _ _ (readonly_Initialize_skeleton env _ _ _ _)) in Hsk. subst iso2.
  reading_step H Hext (readonly_GetStringOptionEnum env options "formatMatcher"
                         ["best fit"; "basic"]
                         [FormatMatcherOption.kBestFit; FormatMatcherOption.kBasic]
                         FormatMatcherOption.kBestFit).
  apply bind_throw_inv in H as [H | ([base f] & iso3 & Hdf & H)].
  { destruct (CreateICUDateFormat env _ _); [discriminate H|].
    destruct (CreateICUDateFormat env _ _); discriminate H. }
  assert (iso3 = iso1) as ->.
  { destruct (CreateICUDateFormat env _ _); [injection Hdf as _ _ <-; reflexivity|].
    destruct (CreateICUDateFormat env _ _); [injection Hdf as _ _ <-; reflexivity|].
    discriminate Hdf. }
  erewrite Initialize_stores in H by exact Hf1.
  destruct (keyword_removal_fails _ _ _ _ _ _); discriminate H.
Qed.

(** X10.  [Initialize] writes its receiver in place.  When it returns, it
    returns the receiver, whose locale and date format, with its calendar,
    are set.  When it throws, the receiver has lost its hour cycle and kept
    its locale and its date format: the flags are reset before the first step
    that can fail, and the other fields are written after the last one.  In
    both cases the receiver keeps its properties, its prototype and its date
    value. *)
Theorem Initialize_writes_its_receiver
    (date_time_format : loc) (locales input_options : Object) (iso : Isolate)
    (o : JSObject) (fields0 : JSDateTimeFormat.t) (r : Maybe loc) (iso' : Isolate) :
  heap iso !! date_time_format = Some o ->
  format_fields o = Some fields0 ->
  Initialize env date_time_format locales input_options iso = (r, iso') ->
  match r with
  | Just result =>
      result = date_time_format /\
      exists fields icu_locale f calendar,
        heap iso' !! date_time_format = Some (with_fields fields o) /\
        JSDateTimeFormat.icu_locale fields = Some icu_locale /\
        JSDateTimeFormat.icu_simple_date_format fields = Some f /\
        sdf_calendar f = Some calendar
  | Throw e =>
      heap iso' !! date_time_format
        = Some (with_fields (JSDateTimeFormat.set_flags_0 fields0) o)
  | Fatal => True
  end.
Proof.
  intros Ho Hfields H.
  assert (Hfields0 : fields_at iso date_time_format = Some fields0).
  { unfold fields_at. rewrite Ho. exact Hfields. }
  assert (Hreset : heap (store_fields date_time_format
                           (JSDateTimeFormat.set_flags_0 fields0) iso) !! date_time_format
                   = Some (with_fields (JSDateTimeFormat.set_flags_0 fields0) o)).
  { rewrite heap_store_fields_eq, Ho. reflexivity. }
  destruct r as [result|e|]; [| |exact I].
  - apply Initialize_inv in H
      as (fields0' & iso1 & requested & options & matcher & hour12 & hourCycle & date_format
          & calendar & base & Hf0 & -> & _ & Hopt & _ & _ & _ & _ & Hcal & _ & ->).
    rewrite Hfields0 in Hf0. injection Hf0 as <-.
    split; [reflexivity|]. eexists _, _, date_format, calendar.
    split.
    { apply ToDateTimeOptions_extends in Hopt as [_ [_ Hext]].
      rewrite heap_store_fields_eq, (Hext _ _ Hreset). reflexivity. }
    split; [reflexivity|]. split; [reflexivity | exact Hcal].
  - apply (Initialize_throws_after_reset _ _ _ _ _ _ _ Hfields0) in H as [_ Hext].
    apply Hext, Hreset.
Qed.

End InitializeOutcomes.

Lemma Initialize_aborts_only_on_ICU_failure_witness :
  let iso := isolate_with_formatter (plain_object []) in
  (Initialize no_calendar_env 2%positive undefined_value undefined_value iso).1 = Fatal /\
  Calendar_createInstance no_calendar_env (createDefault no_calendar_env) sample_locale = None.
Proof.
  intros iso. split; [vm_compute; reflexivity|].
  destruct (Initialize_aborts_only_on_ICU_failure no_calendar_env 2%positive
              undefined_value undefined_value iso
              (Initialize no_calendar_env 2%positive undefined_value undefined_value iso).2
              JSDateTimeFormat.New)
    as (requested & options & iso1 & matcher & hour12 & hourCycle & timezone
        & _ & _ & _ & _ & _ & Htz & H);
    [vm_compute; reflexivity | vm_compute; reflexivity |].
  cbv zeta in H. destruct H as [(tz & Hzone & Hnone) | (calendar & has_hour & sk & Hcal & _)].
  - reflexivity.
  - unfold CreateCalendar in Hcal.
    destruct (CreateTimeZone no_calendar_env timezone); discriminate Hcal.
Defined.

Lemma Initialize_rejects_invalid_time_zone_witness :
  let iso := isolate_with_formatter (plain_object [("timeZone", Str "Mars/Olympus_Mons2")]) in
  (Initialize sample_env 2%positive undefined_value (JSReceiver 1%positive) iso).1
    = Throw (NewRangeError (kInvalidTimeZone "Mars/Olympus_Mons2")) /\
  CanonicalizeTimeZoneID "Mars/Olympus_Mons2" = "".
Proof.
  intros iso. split; [|vm_compute; reflexivity].
  destruct (Initialize_rejects_invalid_time_zone sample_env 2%positive undefined_value
              (JSReceiver 1%positive) iso JSDateTimeFormat.New ["en-US"] 3%positive
              (ToDateTimeOptions (JSReceiver 1%positive) RequiredOption.kAny
                 DefaultsOption.kDate
                 (store_fields 2%positive
                    (JSDateTimeFormat.set_flags_0 JSDateTimeFormat.New) iso)).2
              kBestFit None kUndefined "Mars/Olympus_Mons2") as [H _];
    [vm_compute; reflexivity | vm_compute; reflexivity | vm_compute; reflexivity
     | vm_compute; reflexivity | vm_compute; reflexivity | vm_compute; reflexivity
     | vm_compute; reflexivity | left; vm_compute; reflexivity |].
  rewrite H. reflexivity.
Defined.

Lemma Initialize_writes_its_receiver_witness :
  let iso := isolate_with_fields (plain_object [("timeZone", Str "Mars/Olympus_Mons2")])
               (sample_formatter "h" kH12) in
  heap (Initialize sample_env 2%positive undefined_value (JSReceiver 1%positive) iso).2
    !! 2%positive
  = Some (formatter_object (sample_formatter "h" kUndefined)).
Proof.
  intros iso.
  apply (Initialize_writes_its_receiver sample_env 2%positive undefined_value
           (JSReceiver 1%positive) iso (formatter_object (sample_formatter "h" kH12))
           (sample_formatter "h" kH12)
           (Throw (NewRangeError (kInvalidTimeZone "Mars/Olympus_Mons2")))
           (Initialize sample_env 2%positive undefined_value (JSReceiver 1%positive) iso).2);
    vm_compute; reflexivity.
Defined.

(** * The calendar and the time zone of a formatter *)

Section InitializeCalendar.
Context (env : Env).

Lemma CreateCalendar_Some (icu_locale : Locale) (timezone : option string) (calendar : Calendar) :
  CreateCalendar env icu_locale timezone = Just (Some calendar) ->
  CreateTimeZone env timezone = Some (calendar_time_zone calendar) /\
  Calendar_createInstance env (calendar_time_zone calendar) icu_locale
    = Some (calendar_type calendar, is_gregorian calendar) /\
  gregorian_change calendar = (if is_gregorian calendar then Some start_of_time else None).
Proof.
  unfold CreateCalendar. destruct (CreateTimeZone env timezone) as [tz|]; [|discriminate].
  destruct (Calendar_createInstance env tz icu_locale) as [[ty g]|] eqn:E; [|discriminate].
  intros [= <-]. simpl. auto.
Qed.

Lemma CreateTimeZone_Some (timezone : option string) (tz : string) :
  CreateTimeZone env timezone = Some tz ->
  match timezone with
  | None => tz = createDefault env
  | Some name =>
      CanonicalizeTimeZoneID name <> "" /\
      tz = createTimeZone env (CanonicalizeTimeZoneID name) /\
      IsValidTimeZoneName env tz = true
  end.
Proof.
  unfold CreateTimeZone. destruct timezone as [name|]; [|congruence].
  destruct (String.eqb (CanonicalizeTimeZoneID name) "") eqn:E; [discriminate|].
  apply String.eqb_neq in E.
  destruct (IsValidTimeZoneName env (createTimeZone env (CanonicalizeTimeZoneID name))) eqn:Ev;
    [|discriminate].
  intros [= <-]. auto.
Qed.

(** X11.  The formatter that [Initialize] returns carries a calendar in
    the time zone asked for: ICU's default zone when the timeZone option reads
    as undefined, else the zone that ICU creates for the canonical form of the
    option, a form that is not empty and a zone that ICU knows.  A Gregorian
    calendar is made proleptic: its change date is the start of time,
    -2^53 ms.  [ResolvedOptions] reports that zone, in ICU's canonical
    form, as UTC when the form is Etc/UTC or Etc/GMT.  The options view is
    built, and read, after the flags of the receiver have been reset; the
    fields are stored in the receiver, which is returned. *)
Theorem Initialize_stores_calendar_in_requested_zone
    (date_time_format : loc) (locales input_options : Object)
    (iso : Isolate) (result : loc) (iso' : Isolate) :
  Initialize env date_time_format locales input_options iso = (Just result, iso') ->
  exists fields0 options iso1 fields f calendar,
    fields_at iso date_time_format = Some fields0 /\
    ToDateTimeOptions input_options RequiredOption.kAny DefaultsOption.kDate
        (store_fields date_time_format (JSDateTimeFormat.set_flags_0 fields0) iso)
      = (Just options, iso1) /\
    result = date_time_format /\
    fields_at iso' result = Some fields /\
    iso' = store_fields result fields iso1 /\
    JSDateTimeFormat.icu_simple_date_format fields = Some f /\
    sdf_calendar f = Some calendar /\
    (absent iso1 options "timeZone" = true ->
     calendar_time_zone calendar = createDefault env) /\
    (forall name, view iso1 options "timeZone" = Str name ->
       CanonicalizeTimeZoneID name <> "" /\
       calendar_time_zone calendar = createTimeZone env (CanonicalizeTimeZoneID name) /\
       IsValidTimeZoneName env (calendar_time_zone calendar) = true) /\
    (is_gregorian calendar = true -> gregorian_change calendar = Some (- 2 ^ 53)%Z) /\
    forall iso2 resolved iso3,
      ResolvedOptions env fields iso2 = (Just resolved, iso3) ->
      exists o, heap iso3 !! resolved = Some o /\
        assoc "timeZone" (properties o) = Some (resolved_time_zone env calendar).
Proof.
  intros Hinit.
  apply Initialize_inv_full in Hinit
    as (fields0 & iso1 & requested & options & matcher & hour12 & hourCycle & timezone
        & calendar & has_hour & skeleton & f & base
        & Hf0 & -> & _ & Hopt & _ & _ & _ & Htz & Hcal & _ & _ & _ & Hfields & ->).
  eexists fields0, options, iso1, _, (adoptCalendar calendar f), calendar.
  split; [exact Hf0|]. split; [exact Hopt|]. split; [reflexivity|].
  split; [exact Hfields|]. split; [reflexivity|].
  split; [reflexivity|]. split; [reflexivity|].
  apply CreateCalendar_Some in Hcal as (Hzone & _ & Hchange).
  apply CreateTimeZone_Some in Hzone.
  split; [|split; [|split]].
  - intros Habs. rewrite (GetStringOption_absent env _ _ _ _ Habs) in Htz.
    injection Htz as <-. exact Hzone.
  - intros name Hview. unfold GetStringOption in Htz. rewrite bind_run in Htz.
    unfold GetPropertyOrElement in Htz. fold (view iso1 options "timeZone") in Htz.
    rewrite Hview in Htz. simpl in Htz. injection Htz as <-. exact Hzone.
  - intros Hg. rewrite Hchange, Hg. reflexivity.
  - intros iso2 resolved iso3 Hres.
    apply ResolvedOptions_inv in Hres as (l & f' & c & tag & _ & Hf' & Hc & _ & Hobj).
    simpl in Hf'. injection Hf' as <-. simpl in Hc. injection Hc as <-.
    eexists. split; [exact Hobj|]. simpl.
    unfold resolved_properties, resolved_header.
    destruct (String.eqb (GetNumberingSystem env l) ""); reflexivity.
Qed.

End InitializeCalendar.

Lemma Initialize_stores_calendar_in_requested_zone_witness :
  let iso := isolate_with_formatter (plain_object [("timeZone", Str "europe/isle_of_man")]) in
  exists iso' fields f calendar,
    Initialize sample_env 2%positive undefined_value (JSReceiver 1%positive) iso
      = (Just 2%positive, iso') /\
    fields_at iso' 2%positive = Some fields /\
    JSDateTimeFormat.icu_simple_date_format fields = Some f /\
    sdf_calendar f = Some calendar /\
    calendar_time_zone calendar = "Europe/Isle_of_Man" /\
    gregorian_change calendar = Some (- 2 ^ 53)%Z.
Proof.
  intros iso.
  destruct (Initialize sample_env 2%positive undefined_value (JSReceiver 1%positive) iso)
    as [[d| |] iso'] eqn:Hrun; try (vm_compute in Hrun; discriminate Hrun).
  destruct (Initialize_stores_calendar_in_requested_zone _ _ _ _ _ _ _ Hrun)
    as (fields0 & options & iso1 & fields & f & calendar
        & Hf0 & Hopt & -> & Hfields & _ & Hf & Hcal & _ & Hzone & Hchange & _).
  exists iso', fields, f, calendar.
  split; [reflexivity|]. split; [exact Hfields|]. split; [exact Hf|]. split; [exact Hcal|].
  vm_compute in Hf0. injection Hf0 as <-.
  vm_compute in Hopt. injection Hopt as <- <-.
  vm_compute in Hrun. injection Hrun as <-.
  vm_compute in Hfields. injection Hfields as <-.
  simpl in Hf. injection Hf as <-. simpl in Hcal. injection Hcal as <-.
  split.
  - destruct (Hzone "europe/isle_of_man") as (_ & Hz & _); [vm_compute; reflexivity|].
    rewrite Hz. vm_compute. reflexivity.
  - apply Hchange. reflexivity.
Defined.

(** * The hour cycle when hour12 is not given *)

Lemma GetHourCycle_view (env : Env) (options : loc) iso hc iso' (s : string) :
  GetHourCycle env options iso = (Just hc, iso') ->
  view iso options "hourCycle" = Str s ->
  hc = ToHourCycle s /\ hc <> kUndefined.
Proof.
  unfold GetHourCycle, GetStringOptionEnum. intros H Hview.
  apply bind_inv in H as (r & iso1 & Hget & H).
  unfold GetStringOption in Hget. rewrite bind_run in Hget.
  unfold GetPropertyOrElement in Hget. fold (view iso options "hourCycle") in Hget.
  rewrite Hview in Hget. cbn [IsUndefined fst snd ToString] in Hget.
  rewrite bind_ret in Hget.
  destruct (existsb (String.eqb s) ["h11"; "h12"; "h23"; "h24"]); [|discriminate Hget].
  injection Hget as <- _.
  destruct (enum_of s _ _) as [e|] eqn:He; [|discriminate H].
  injection H as <- _. split; [|eapply enum_of_hour_cycle, He].
  simpl in He. unfold ToHourCycle.
  repeat (destruct (String.eqb s _); [congruence|]). discriminate He.
Qed.

Lemma GetHourCycle_absent (env : Env) (options : loc) iso hc iso' :
  GetHourCycle env options iso = (Just hc, iso') ->
  absent iso options "hourCycle" = true -> hc = kUndefined.
Proof.
  unfold GetHourCycle, GetStringOptionEnum. intros H Habs.
  rewrite bind_run, (GetStringOption_absent env _ _ _ _ Habs) in H.
  injection H as <- _. reflexivity.
Qed.

(** X12.  The hour cycle of a formatter with an hour field when hour12 is
    not given: the hourCycle option if it is set; else the hour cycle named
    by the "hc" extension of the resolved locale, if that names one; else the
    hour cycle that the generated pattern shows ([HourCycleDefault]: K is
    h11, h is h12, H is h23, k is h24, looked for in this order).  The options
    view is built, and read, after the flags of the receiver have been reset;
    the fields are stored in the receiver, which is returned. *)
Theorem Initialize_hour_cycle_precedence
    (env : Env) (date_time_format : loc) (locales input_options : Object)
    (iso : Isolate) (result : loc) (iso' : Isolate) :
  Initialize env date_time_format locales input_options iso = (Just result, iso') ->
  exists fields0 options iso1 fields requested_locales locale_matcher f,
    fields_at iso date_time_format = Some fields0 /\
    CanonicalizeLocaleList env locales = Some requested_locales /\
    ToDateTimeOptions input_options RequiredOption.kAny DefaultsOption.kDate
        (store_fields date_time_format (JSDateTimeFormat.set_flags_0 fields0) iso)
      = (Just options, iso1) /\
    GetLocaleMatcher env options iso1 = (Just locale_matcher, iso1) /\
    result = date_time_format /\
    fields_at iso' result = Some fields /\
    iso' = store_fields result fields iso1 /\
    JSDateTimeFormat.icu_simple_date_format fields = Some f /\
    (absent iso1 options "hour" = false -> absent iso1 options "hour12" = true ->
     (forall s, view iso1 options "hourCycle" = Str s ->
        JSDateTimeFormat.hour_cycle fields = ToHourCycle s /\
        ToHourCycle s <> kUndefined) /\
     (absent iso1 options "hourCycle" = true ->
        JSDateTimeFormat.hour_cycle fields =
          match ResolvedLocale.extensions
                  (ResolveLocale env (AvailableLocales env) requested_locales locale_matcher
                     ["nu"; "ca"; "hc"]) !! "hc" with
          | Some v =>
              if bool_decide (ToHourCycle v = kUndefined) then HourCycleDefault f
              else ToHourCycle v
          | None => HourCycleDefault f
          end)).
Proof.
  intros Hinit.
  apply Initialize_inv in Hinit
    as (fields0 & iso1 & requested & options & matcher & hour12 & hourCycle & date_format
        & calendar & base & Hf0 & -> & Hcll & Hopt & Hm & H12 & Hhc & _ & _ & Hfields & ->).
  eexists fields0, options, iso1, _, requested, matcher, date_format.
  split; [exact Hf0|]. split; [exact Hcll|]. split; [exact Hopt|]. split; [exact Hm|].
  split; [reflexivity|]. split; [exact Hfields|]. split; [reflexivity|].
  split; [reflexivity|].
  intros Hhour Hno12.
  apply GetBoolOption_view in H12. rewrite Hno12 in H12. subst hour12.
  cbn [JSDateTimeFormat.hour_cycle]. rewrite Hhour.
  unfold stored_hour_cycle, negotiated_hour_cycle. cbn [negb].
  split.
  - intros s Hview. destruct (GetHourCycle_view _ _ _ _ _ _ Hhc Hview) as [-> Hdef].
    rewrite !(bool_decide_eq_false_2 _ Hdef). split; [reflexivity | exact Hdef].
  - intros Habs. rewrite (GetHourCycle_absent _ _ _ _ _ Hhc Habs).
    change (bool_decide (kUndefined = kUndefined)) with true. cbv iota.
    destruct (ResolvedLocale.extensions _ !! "hc") as [v|]; reflexivity.
Qed.

Lemma Initialize_hour_cycle_precedence_witness :
  let iso := isolate_with_formatter
               (plain_object [("hour", Str "2-digit"); ("hourCycle", Str "h11")]) in
  exists iso' fields,
    Initialize sample_env 2%positive undefined_value (JSReceiver 1%positive) iso
      = (Just 2%positive, iso') /\
    fields_at iso' 2%positive = Some fields /\
    JSDateTimeFormat.hour_cycle fields = kH11.
Proof.
  intros iso.
  destruct (Initialize sample_env 2%positive undefined_value (JSReceiver 1%positive) iso)
    as [[d| |] iso'] eqn:Hrun; try (vm_compute in Hrun; discriminate Hrun).
  destruct (Initialize_hour_cycle_precedence _ _ _ _ _ _ _ Hrun)
    as (fields0 & options & iso1 & fields & requested & matcher & f
        & Hf0 & _ & Hopt & _ & -> & Hfields & _ & _ & Hcycle).
  exists iso', fields. split; [reflexivity|]. split; [exact Hfields|].
  vm_compute in Hf0. injection Hf0 as <-.
  vm_compute in Hopt. injection Hopt as <- <-.
  destruct Hcycle as [Hset _]; [vm_compute; reflexivity | vm_compute; reflexivity |].
  destruct (Hset "h11") as [-> _]; [vm_compute; reflexivity | reflexivity].
Defined.

(** * The options view never comes back empty *)

Lemma absent_own_property iso options o name v :
  heap iso !! options = Some o -> assoc name (properties o) = Some v ->
  absent iso options name = IsUndefined v.
Proof. intros Ho Hv. unfold absent. simpl. rewrite Ho, Hv. reflexivity. Qed.

Lemma ToDateTimeOptions_has_a_field (input_options : Object)
    (required : RequiredOption.t) (defaults : DefaultsOption.t) iso options iso' :
  ToDateTimeOptions input_options required defaults iso = (Just options, iso') ->
  forallb (absent iso' options) date_time_fields = false.
Proof.
  intros Hjust.
  assert (Hnull : input_options <> null_value).
  { intros ->. rewrite ToDateTimeOptions_null in Hjust. discriminate Hjust. }
  destruct (ToDateTimeOptions_run input_options required defaults iso Hnull)
    as (options1 & iso1 & proto & _ & _ & Hobj & _ & Hrun).
  rewrite Hrun in Hjust. injection Hjust as <- <-. unfold date_time_fields.
  destruct (needsDefault required iso1 options1) eqn:Hnd.
  - assert (Hown : forall name,
              assoc name (default_properties true defaults) = Some (Str "numeric") ->
              absent (set_heap (<[options1 := {| properties := default_properties true defaults;
                                                 prototype := proto;
                                                 date_value := None; format_fields := None |}]>
                                  (heap iso1)) iso1) options1 name = false).
    { intros name Hname.
      apply (absent_own_property _ options1
               {| properties := default_properties true defaults;
                  prototype := proto;
                  date_value := None; format_fields := None |} name (Str "numeric"));
        [simpl; apply lookup_insert_eq | exact Hname]. }
    cbn [forallb].
    destruct defaults.
    + rewrite (Hown "year") by reflexivity. rewrite andb_false_r. reflexivity.
    + rewrite (Hown "hour") by reflexivity. rewrite !andb_false_r. reflexivity.
    + rewrite (Hown "year") by reflexivity. rewrite andb_false_r. reflexivity.
  - change (default_properties false defaults) with (@nil (string * Object)).
    rewrite insert_id, set_heap_id by exact Hobj.
    unfold needsDefault in Hnd. cbn [forallb] in *.
    destruct required, (absent iso1 options1 "weekday"), (absent iso1 options1 "year"),
      (absent iso1 options1 "month"), (absent iso1 options1 "day"),
      (absent iso1 options1 "hour"), (absent iso1 options1 "minute"),
      (absent iso1 options1 "second"); try reflexivity; discriminate Hnd.
Qed.

(** X13.  For null, [ToDateTimeOptions] leaves the exception of the
    conversion to an object pending and the isolate as it was.  Whenever it
    returns a view, at least one of weekday, year, month, day, hour, minute
    and second reads as defined on the view, whatever [required] and
    [defaults] are: a formatter built from the view always has a field to
    format. *)
Theorem ToDateTimeOptions_view_has_a_field (input_options : Object)
    (required : RequiredOption.t) (defaults : DefaultsOption.t) (iso : Isolate) :
  (input_options = null_value ->
   ToDateTimeOptions input_options required defaults iso
     = (Throw (Pending "Object::ToObject"), iso)) /\
  (forall options iso',
     ToDateTimeOptions input_options required defaults iso = (Just options, iso') ->
     forallb (absent iso' options)
       ["weekday"; "year"; "month"; "day"; "hour"; "minute"; "second"] = false).
Proof.
  split; [intros ->; apply ToDateTimeOptions_null|].
  intros options iso' Hrun.
  apply (ToDateTimeOptions_has_a_field _ _ _ _ _ _ Hrun).
Qed.

Lemma ToDateTimeOptions_view_has_a_field_witness :
  let run := ToDateTimeOptions (JSReceiver 1%positive) RequiredOption.kDate
               DefaultsOption.kTime (isolate_with (plain_object [("era", Str "short")])) in
  run.1 = Just 2%positive /\
  forallb (absent run.2 2%positive)
    ["weekday"; "year"; "month"; "day"; "hour"; "minute"; "second"] = false /\
  absent run.2 2%positive "hour" = false.
Proof.
  intros run. split; [vm_compute; reflexivity|]. split; [|vm_compute; reflexivity].
  destruct (ToDateTimeOptions_view_has_a_field (JSReceiver 1%positive) RequiredOption.kDate
              DefaultsOption.kTime (isolate_with (plain_object [("era", Str "short")])))
    as (_ & H).
  apply H. vm_compute. reflexivity.
Defined.

(** * The object of resolved options *)

Lemma ResolvedOptions_inv_run (env : Env) (date_time_format : JSDateTimeFormat.t)
    iso options iso' :
  ResolvedOptions env date_time_format iso = (Just options, iso') ->
  exists icu_locale f calendar tag,
    JSDateTimeFormat.icu_locale date_time_format = Some icu_locale /\
    JSDateTimeFormat.icu_simple_date_format date_time_format = Some f /\
    sdf_calendar f = Some calendar /\
    ToLanguageTag env icu_locale = Some tag /\
    options = fresh (dom (heap iso)) /\
    iso' = set_heap (<[options :=
                        resolved_object env
                          (resolved_properties env icu_locale tag f calendar
                             (JSDateTimeFormat.hour_cycle date_time_format))]> (heap iso)) iso.
Proof.
  destruct (JSDateTimeFormat.icu_locale date_time_format) as [icu_locale|] eqn:Hloc;
    [|unfold ResolvedOptions; rewrite bind_run, Hloc; discriminate].
  destruct (ToLanguageTag env icu_locale) as [tag|] eqn:Htag;
    [|unfold ResolvedOptions; rewrite bind_run, Hloc, Htag; discriminate].
  destruct (JSDateTimeFormat.icu_simple_date_format date_time_format) as [f|] eqn:Hf;
    [|unfold ResolvedOptions; rewrite bind_run, Hloc, Htag, Hf; discriminate].
  destruct (sdf_calendar f) as [calendar|] eqn:Hcal;
    [|unfold ResolvedOptions; rewrite bind_run, Hloc, Htag, Hf, Hcal; discriminate].
  rewrite (ResolvedOptions_outcome env _ iso _ _ _ _ Hloc Hf Hcal Htag).
  destruct (time_zone_converts env calendar); [|discriminate].
  intros [= <- <-]. exists icu_locale, f, calendar, tag. repeat split; auto.
Qed.

Lemma reverseMap_keys_sublist (pattern : string) :
  (reverseMap pattern).*1 `sublist_of` field_names.
Proof.
  unfold reverseMap. change field_names with (PatternItem.property <$> GetPatternItems).
  induction GetPatternItems as [|item items IH]; [constructor|].
  cbn [omap list_omap fmap list_fmap].
  destruct (first_match pattern (PatternItem.pairs item)) as [v|]; cbn.
  - apply sublist_skip, IH.
  - apply sublist_cons, IH.
Qed.

Lemma header_keys_sublist (locale calendar numbering_system : string) tzv hc :
  (resolved_header locale calendar numbering_system tzv hc).*1
    `sublist_of` ["locale"; "calendar"; "numberingSystem"; "timeZone"; "hourCycle"; "hour12"].
Proof.
  unfold resolved_header.
  destruct (String.eqb numbering_system ""), hc; cbn;
    repeat first [apply sublist_skip | apply sublist_cons | apply sublist_nil].
Qed.

Lemma NoDup_resolved_key_order : NoDup resolved_key_order.
Proof. apply (bool_decide_unpack _). vm_compute. reflexivity. Qed.

Lemma resolved_calendar_no_alias (calendar : Calendar) :
  resolved_calendar calendar <> "gregorian" /\
  resolved_calendar calendar <> "ethiopic-amete-alem".
Proof.
  unfold resolved_calendar.
  destruct (String.eqb (calendar_type calendar) "gregorian") eqn:E1;
    [split; discriminate|].
  destruct (String.eqb (calendar_type calendar) "ethiopic-amete-alem") eqn:E2;
    [split; discriminate|].
  apply String.eqb_neq in E1, E2. auto.
Qed.

Lemma resolved_time_zone_no_alias (env : Env) (calendar : Calendar) :
  resolved_time_zone env calendar <> Str "Etc/UTC" /\
  resolved_time_zone env calendar <> Str "Etc/GMT".
Proof.
  unfold resolved_time_zone.
  destruct (getCanonicalID env (calendar_time_zone calendar)) as [tz|]; [|split; discriminate].
  destruct (String.eqb tz "Etc/UTC") eqn:E1; [split; discriminate|].
  destruct (String.eqb tz "Etc/GMT") eqn:E2; [split; discriminate|].
  apply String.eqb_neq in E1, E2. cbn. split; congruence.
Qed.

Local Arguments reverseMap : simpl never.

(** X14.  The object that [ResolvedOptions] returns is a new object whose
    prototype is %ObjectPrototype%, and every object that was on the heap
    before is unchanged.
    Its own properties come in the fixed order locale, calendar,
    numberingSystem, timeZone, hourCycle, hour12, weekday, era, year, month,
    day, hour, minute, second, timeZoneName, each at most once.  The calendar
    is never reported under ICU's names gregorian and ethiopic-amete-alem, the
    time zone never as Etc/UTC or Etc/GMT, and an empty numbering system is
    not reported at all.  hourCycle and hour12 are there exactly when the
    formatter has an hour cycle, and hour12 is true exactly for h11 and h12. *)
Theorem ResolvedOptions_shape (env : Env) (date_time_format : JSDateTimeFormat.t)
    (iso : Isolate) (options : loc) (iso' : Isolate) :
  ResolvedOptions env date_time_format iso = (Just options, iso') ->
  heap iso !! options = None /\ extends iso iso' /\
  exists o, heap iso' !! options = Some o /\
    prototype o = Some (object_function_prototype env) /\
    (properties o).*1 `sublist_of` resolved_key_order /\
    NoDup (properties o).*1 /\
    (exists tag, assoc "locale" (properties o) = Some (Str tag)) /\
    (exists c, assoc "calendar" (properties o) = Some (Str c) /\
               c <> "gregorian" /\ c <> "ethiopic-amete-alem") /\
    assoc "numberingSystem" (properties o) <> Some (Str "") /\
    (exists tz, assoc "timeZone" (properties o) = Some tz /\
                tz <> Str "Etc/UTC" /\ tz <> Str "Etc/GMT") /\
    assoc "hourCycle" (properties o) =
      match JSDateTimeFormat.hour_cycle date_time_format with
      | kUndefined => None
      | _ => Some (Str (JSDateTimeFormat.HourCycleAsString date_time_format))
      end /\
    assoc "hour12" (properties o) =
      match JSDateTimeFormat.hour_cycle date_time_format with
      | kUndefined => None
      | kH11 | kH12 => Some (Boolean true)
      | kH23 | kH24 => Some (Boolean false)
      end.
Proof.
  intros Hres.
  apply ResolvedOptions_inv_run in Hres as (l & f & c & tag & _ & _ & _ & _ & -> & ->).
  split; [apply fresh_not_in_heap|]. split; [apply extends_alloc|].
  eexists. split; [simpl; apply lookup_insert_eq|].
  unfold resolved_object. cbn [prototype properties].
  split; [reflexivity|].
  assert (Hsub : (resolved_properties env l tag f c
                    (JSDateTimeFormat.hour_cycle date_time_format)).*1
                 `sublist_of` resolved_key_order).
  { unfold resolved_properties, resolved_key_order. rewrite fmap_app.
    apply sublist_app; [apply header_keys_sublist | apply reverseMap_keys_sublist]. }
  split; [exact Hsub|].
  split; [exact (sublist_NoDup _ _ NoDup_resolved_key_order Hsub)|].
  assert (Hnot : forall k, k ∉ field_names -> assoc k (reverseMap (sdf_pattern f)) = None)
    by (intros k; apply assoc_reverseMap_None).
  assert (Hh : ("hourCycle" ∉ field_names) /\ ("hour12" ∉ field_names)
               /\ ("numberingSystem" ∉ field_names)).
  { repeat split; intros Hin; apply list_elem_of_In in Hin; simpl in Hin;
      intuition discriminate. }
  destruct Hh as (HhourCycle & Hhour12 & Hns).
  destruct (resolved_calendar_no_alias c) as [Hc1 Hc2].
  destruct (resolved_time_zone_no_alias env c) as [Hz1 Hz2].
  unfold resolved_properties, resolved_header, JSDateTimeFormat.HourCycleAsString.
  destruct (String.eqb (GetNumberingSystem env l) "") eqn:Ens,
    (JSDateTimeFormat.hour_cycle date_time_format); cbn;
    rewrite ?(Hnot _ HhourCycle), ?(Hnot _ Hhour12), ?(Hnot _ Hns);
    (split; [eauto|]); (split; [eauto|]);
    (split; [first [discriminate
                   | intros [= E]; rewrite E in Ens; discriminate Ens]|]);
    (split; [eauto|]); split; reflexivity.
Qed.

Lemma ResolvedOptions_shape_witness :
  exists o, heap (ResolvedOptions sample_env (sample_formatter "h:mm" kH12)
                    empty_isolate).2 !! 1%positive = Some o /\
    prototype o = Some 100%positive /\
    (properties o).*1
      = ["locale"; "calendar"; "numberingSystem"; "timeZone"; "hourCycle"; "hour12";
         "hour"; "minute"] /\
    assoc "calendar" (properties o) = Some (Str "gregory") /\
    assoc "hour12" (properties o) = Some (Boolean true).
Proof.
  destruct (ResolvedOptions_shape sample_env (sample_formatter "h:mm" kH12) empty_isolate
              1%positive
              (ResolvedOptions sample_env (sample_formatter "h:mm" kH12) empty_isolate).2)
    as (_ & _ & o & Ho & Hproto & _ & _ & _ & _ & _ & _ & _ & H12); [vm_compute; reflexivity|].
  exists o. split; [exact Ho|]. split; [exact Hproto|]. split; [|split; [|exact H12]];
    vm_compute in Ho; injection Ho as <-; vm_compute; reflexivity.
Defined.

(** X15.  On the fields that [Initialize] has stored in its receiver,
    [ResolvedOptions] never aborts: the locale and the date format that it
    requires are set, and the date format has its calendar.  It returns the
    object of resolved options unless the conversion of the stored locale to a
    language tag fails, or that of the canonical time zone to a string: the
    only exceptions it can leave pending. *)
Theorem ResolvedOptions_after_Initialize
    (env : Env) (date_time_format : loc) (locales input_options : Object)
    (iso : Isolate) (result : loc) (iso' : Isolate) :
  Initialize env date_time_format locales input_options iso = (Just result, iso') ->
  exists fields icu_locale f calendar,
    result = date_time_format /\
    fields_at iso' result = Some fields /\
    JSDateTimeFormat.icu_locale fields = Some icu_locale /\
    JSDateTimeFormat.icu_simple_date_format fields = Some f /\
    sdf_calendar f = Some calendar /\
    forall iso2,
      match ToLanguageTag env icu_locale with
      | Some tag =>
          if time_zone_converts env calendar then
            exists options iso3 o,
              ResolvedOptions env fields iso2 = (Just options, iso3) /\
              heap iso3 !! options = Some o /\
              assoc "locale" (properties o) = Some (Str tag)
          else
            exists iso3,
              ResolvedOptions env fields iso2 = (Throw (Pending "Intl::ToString"), iso3)
      | None =>
          exists iso3,
            ResolvedOptions env fields iso2 = (Throw (Pending "Intl::ToLanguageTag"), iso3)
      end.
Proof.
  intros Hinit.
  apply Initialize_inv in Hinit
    as (fields0 & iso1 & requested & options & matcher & hour12 & hourCycle & date_format
        & calendar & base & _ & -> & _ & _ & _ & _ & _ & _ & Hcal & Hfields & ->).
  cbv zeta in Hfields |- *. eexists _, _, date_format, calendar.
  split; [reflexivity|]. split; [exact Hfields|].
  split; [reflexivity|]. split; [reflexivity|]. split; [exact Hcal|].
  intros iso2.
  match goal with |- context [ToLanguageTag env ?l] =>
    destruct (ToLanguageTag env l) as [tag|] eqn:Htag end.
  - match goal with |- context [ResolvedOptions env ?d iso2] =>
      pose proof (ResolvedOptions_outcome env d iso2 _ _ _ _ eq_refl eq_refl Hcal Htag)
        as Hres
    end.
    cbv zeta in Hres. destruct (time_zone_converts env calendar).
    + eexists _, _, _. split; [exact Hres|]. split.
      * simpl. apply lookup_insert_eq.
      * reflexivity.
    + eexists. exact Hres.
  - eexists. unfold ResolvedOptions. rewrite bind_run. cbn.
    rewrite Htag. reflexivity.
Qed.

Lemma ResolvedOptions_after_Initialize_witness :
  let iso := isolate_with_formatter (plain_object []) in
  exists iso' fields options iso3 o,
    Initialize sample_env 2%positive undefined_value undefined_value iso
      = (Just 2%positive, iso') /\
    fields_at iso' 2%positive = Some fields /\
    ResolvedOptions sample_env fields iso' = (Just options, iso3) /\
    heap iso3 !! options = Some o /\
    assoc "locale" (properties o) = Some (Str "en_US-u-hc-h23").
Proof.
  intros iso.
  destruct (Initialize sample_env 2%positive undefined_value undefined_value iso)
    as [[d| |] iso'] eqn:Hrun; try (vm_compute in Hrun; discriminate Hrun).
  destruct (ResolvedOptions_after_Initialize _ _ _ _ _ _ _ Hrun)
    as (fields & l & f & calendar & -> & Hfields & Hl & Hf & Hcal & Hres).
  specialize (Hres iso').
  vm_compute in Hrun. injection Hrun as <-.
  vm_compute in Hfields. injection Hfields as <-.
  simpl in Hl. injection Hl as <-. simpl in Hf. injection Hf as <-.
  simpl in Hcal. injection Hcal as <-.
  change (ToLanguageTag sample_env sample_locale) with (Some "en_US-u-hc-h23") in Hres.
  change (time_zone_converts sample_env sample_calendar) with true in Hres.
  destruct Hres as (options & iso3 & o & Hres & Ho & Hlocale).
  eexists _, _, options, iso3, o. split; [reflexivity|]. split; [vm_compute; reflexivity|].
  split; [exact Hres|]. split; [exact Ho | exact Hlocale].
Defined.

(** * Parts for whatever the engine reports *)







(** * [ToLocaleDateTime] and the cache of formatters *)

Lemma cache_lookup_filter_other (type other : ICUObjectCacheType)
    (cache : list (ICUObjectCacheType * SimpleDateFormat)) :
  other <> type ->
  cache_lookup other (filter (fun e => fst e <> type) cache) = cache_lookup other cache.
Proof.
  intros Hne. induction cache as [|[k f] cache IH]; [reflexivity|].
  rewrite filter_cons. cbn [fst].
  destruct (decide (k <> type)) as [Hk | Hk]; cbn [cache_lookup].
  - rewrite IH. reflexivity.
  - assert (k = type) as -> by (destruct (decide (k = type)); [assumption | contradiction]).
    rewrite bool_decide_eq_false_2 by congruence. exact IH.
Qed.

Local Arguments ToDateTimeOptions : simpl never.
Local Arguments Initialize : simpl never.
Local Arguments FormatDateTime : simpl never.

Section Cache.
Context (env : Env).

Lemma Initialize_keeps_cache (date_time_format : loc) (locales input_options : Object)
    iso result iso' :
  Initialize env date_time_format locales input_options iso = (Just result, iso') ->
  icu_object_cache iso' = icu_object_cache iso.
Proof.
  intros H.
  apply Initialize_inv in H
    as (fields0 & iso1 & requested & options & matcher & hour12 & hourCycle & date_format
        & calendar & base & _ & _ & _ & Hopt & _ & _ & _ & _ & _ & _ & ->).
  apply ToDateTimeOptions_extends in Hopt as [_ [Hcache _]]. exact Hcache.
Qed.

Lemma ToLocaleDateTime_hit (date : loc) (o : JSObject) (x : double)
    (required : RequiredOption.t) (defaults : DefaultsOption.t) (iso : Isolate)
    (cached : SimpleDateFormat) :
  heap iso !! date = Some o -> date_value o = Some x -> isnan x = false ->
  cache_lookup (ConvertToCacheType defaults) (icu_object_cache iso) = Some cached ->
  ToLocaleDateTime env (JSReceiver date) undefined_value undefined_value required defaults iso
    = (FormatDateTime env cached x, iso).
Proof.
  intros Hdate Hvalue Hnan Hcached. unfold ToLocaleDateTime.
  rewrite bind_run. unfold JSDate_value. rewrite Hdate. cbn. rewrite Hvalue, Hnan.
  rewrite bind_run. unfold get_cached_icu_object. cbn. rewrite Hcached. reflexivity.
Qed.

(** X17.  After a call of [ToLocaleDateTime] without locales and options
    that returned a text, the formatter that made the text is in the cache
    under the key of [defaults], the entries under the other keys are as
    before, and every later call without locales and options and with the same
    [defaults] formats with that formatter, whatever [required] is, without
    reading an option and without changing the isolate. *)
Theorem ToLocaleDateTime_fills_and_uses_cache
    (date : loc) (o : JSObject) (x : double)
    (required : RequiredOption.t) (defaults : DefaultsOption.t)
    (iso : Isolate) (text : UnicodeString) (iso' : Isolate) :
  heap iso !! date = Some o -> date_value o = Some x -> isnan x = false ->
  ToLocaleDateTime env (JSReceiver date) undefined_value undefined_value required defaults iso
    = (Just text, iso') ->
  exists format,
    cache_lookup (ConvertToCacheType defaults) (icu_object_cache iso') = Some format /\
    FormatDateTime env format x = Just text /\
    (forall other, other <> ConvertToCacheType defaults ->
       cache_lookup other (icu_object_cache iso') = cache_lookup other (icu_object_cache iso)) /\
    forall date2 o2 x2 required2,
      heap iso' !! date2 = Some o2 -> date_value o2 = Some x2 -> isnan x2 = false ->
      ToLocaleDateTime env (JSReceiver date2) undefined_value undefined_value required2
        defaults iso'
        = (FormatDateTime env format x2, iso').
Proof.
  intros Hdate Hvalue Hnan Hrun.
  destruct (cache_lookup (ConvertToCacheType defaults) (icu_object_cache iso))
    as [cached|] eqn:Hcached.
  - rewrite (ToLocaleDateTime_hit _ _ _ _ _ _ _ Hdate Hvalue Hnan Hcached) in Hrun.
    injection Hrun as Htext <-. exists cached.
    split; [exact Hcached|]. split; [exact Htext|]. split; [reflexivity|].
    intros date2 o2 x2 required2 Hdate2 Hvalue2 Hnan2.
    apply (ToLocaleDateTime_hit _ _ _ _ _ _ _ Hdate2 Hvalue2 Hnan2 Hcached).
  - unfold ToLocaleDateTime in Hrun.
    rewrite bind_run in Hrun. unfold JSDate_value in Hrun. rewrite Hdate in Hrun.
    cbn in Hrun. rewrite Hvalue, Hnan in Hrun.
    rewrite bind_run in Hrun. unfold get_cached_icu_object in Hrun. cbn in Hrun.
    rewrite Hcached in Hrun.
    apply bind_inv in Hrun as (internal_options & iso1 & Hopt & Hrun).
    apply bind_inv in Hrun as (obj & iso2 & Hnew & Hrun).
    apply bind_inv in Hrun as (date_time_format & iso3 & Hinit & Hrun).
    apply bind_inv in Hrun as (fields & iso4 & Hget & Hrun).
    apply get_fields_inv in Hget as [Hget ->].
    apply ToDateTimeOptions_extends in Hopt as [_ [Hcache1 _]].
    assert (Hcache2 : icu_object_cache iso2 = icu_object_cache iso1).
    { unfold JSObject_New in Hnew. injection Hnew as _ <-. reflexivity. }
    pose proof (Initialize_keeps_cache _ _ _ _ _ _ Hinit) as Hcache3.
    destruct (JSDateTimeFormat.icu_simple_date_format fields) as [format|];
      [|discriminate Hrun].
    rewrite bind_run in Hrun. cbn in Hrun. injection Hrun as Htext <-.
    assert (Hstored : cache_lookup (ConvertToCacheType defaults)
                        ((ConvertToCacheType defaults, format)
                           :: filter (fun e => e.1 <> ConvertToCacheType defaults)
                                (icu_object_cache iso3)) = Some format).
    { cbn. rewrite bool_decide_eq_true_2 by reflexivity. reflexivity. }
    exists format. split; [exact Hstored|]. split; [exact Htext|]. split.
    + intros other Hother. cbn [icu_object_cache cache_lookup].
      rewrite bool_decide_eq_false_2 by congruence.
      rewrite cache_lookup_filter_other by exact Hother. congruence.
    + intros date2 o2 x2 required2 Hdate2 Hvalue2 Hnan2.
      apply (ToLocaleDateTime_hit _ _ _ _ _ _ _ Hdate2 Hvalue2 Hnan2 Hstored).
Qed.

End Cache.

Lemma ToLocaleDateTime_fills_and_uses_cache_witness :
  exists text iso' format,
    ToLocaleDateTime sample_env (JSReceiver 1%positive) undefined_value undefined_value
      RequiredOption.kAny DefaultsOption.kAll (isolate_with_date (Finite 0)) = (Just text, iso') /\
    cache_lookup kDefaultSimpleDateFormat (icu_object_cache iso') = Some format /\
    ToLocaleDateTime sample_env (JSReceiver 1%positive) undefined_value undefined_value
      RequiredOption.kDate DefaultsOption.kAll iso'
      = (FormatDateTime sample_env format (Finite 0), iso').
Proof.
  destruct (ToLocaleDateTime sample_env (JSReceiver 1%positive) undefined_value undefined_value
              RequiredOption.kAny DefaultsOption.kAll (isolate_with_date (Finite 0)))
    as [[text| |] iso'] eqn:Hrun; try (vm_compute in Hrun; discriminate Hrun).
  destruct (ToLocaleDateTime_fills_and_uses_cache sample_env 1%positive
              {| properties := []; prototype := None;
                 date_value := Some (Finite 0); format_fields := None |}
              (Finite 0) RequiredOption.kAny DefaultsOption.kAll
              (isolate_with_date (Finite 0)) text iso' eq_refl eq_refl eq_refl Hrun)
    as (format & Hcache & _ & _ & Hlater).
  exists text, iso', format. split; [reflexivity|]. split; [exact Hcache|].
  apply (Hlater 1%positive
           {| properties := []; prototype := None;
              date_value := Some (Finite 0); format_fields := None |});
    [|reflexivity|reflexivity].
  vm_compute in Hrun. injection Hrun as _ <-. vm_compute. reflexivity.
Defined.

(** * Time-zone names are matched without regard to case *)

(** X19.  The time zone that [CreateTimeZone] builds for a name, and so
    the calendar of [CreateCalendar], does not depend on the ASCII case of
    the name; and every name that upper-cases to UTC, GMT, ETC/UTC or ETC/GMT
    gets the zone that ICU creates for "UTC". *)
Theorem CreateTimeZone_ignores_case (env : Env) (icu_locale : Locale) (name other : string) :
  (transform LocaleIndependentAsciiToLower name = transform LocaleIndependentAsciiToLower other ->
   CreateTimeZone env (Some name) = CreateTimeZone env (Some other) /\
   CreateCalendar env icu_locale (Some name) = CreateCalendar env icu_locale (Some other)) /\
  (transform LocaleIndependentAsciiToUpper name ∈ utc_aliases ->
   CreateTimeZone env (Some name) = CreateTimeZone env (Some "UTC")).
Proof.
  split.
  - intros Hsame.
    assert (Hzone : CreateTimeZone env (Some name) = CreateTimeZone env (Some other)).
    { unfold CreateTimeZone.
      rewrite (CanonicalizeTimeZoneID_same_lower name other Hsame). reflexivity. }
    split; [exact Hzone|]. unfold CreateCalendar. rewrite Hzone. reflexivity.
  - intros Halias. apply is_utc_alias_spec in Halias.
    unfold CreateTimeZone at 1. unfold CanonicalizeTimeZoneID. rewrite Halias. reflexivity.
Qed.

Lemma CreateTimeZone_ignores_case_witness :
  CreateTimeZone sample_env (Some "ASIA/KOLKATA") = CreateTimeZone sample_env (Some "asia/kolkata")
  /\ CreateTimeZone sample_env (Some "etc/Gmt") = CreateTimeZone sample_env (Some "UTC").
Proof.
  destruct (CreateTimeZone_ignores_case sample_env sample_locale "ASIA/KOLKATA" "asia/kolkata")
    as [Hcase _].
  destruct (CreateTimeZone_ignores_case sample_env sample_locale "etc/Gmt" "") as [_ Hutc].
  split; [apply Hcase; reflexivity|].
  apply Hutc. apply is_utc_alias_spec. reflexivity.
Defined.

(** * The skeleton handed to ICU *)

Lemma contains_char_append (c : ascii) (s t : string) :
  contains_char c (s +:+ t) = contains_char c s || contains_char c t.
Proof.
  induction s as [|x s IH]; [reflexivity|].
  change ((if Ascii.eqb x c then true else contains_char c (s +:+ t))
          = (if Ascii.eqb x c then true else contains_char c s) || contains_char c t).
  rewrite IH. destruct (Ascii.eqb x c); reflexivity.
Qed.

Lemma length_append (s t : string) :
  String.length (s +:+ t) = String.length s + String.length t.
Proof.
  induction s as [|x s IH]; [reflexivity|].
  change (S (String.length (s +:+ t)) = S (String.length s + String.length t)).
  rewrite IH. reflexivity.
Qed.

Lemma all_one_symbol (h : ascii) (token : string) :
  forallb (fun c => Ascii.eqb c h) (list_ascii_of_string token) = true ->
  token <> "" ->
  contains_char h token = true /\
  forall c, c <> h -> contains_char c token = false.
Proof.
  intros Hall Hne. split.
  - destruct token as [|x token]; [contradiction|].
    cbn in Hall. apply andb_true_iff in Hall as [Hx _]. cbn. rewrite Hx. reflexivity.
  - intros c Hc. clear Hne. induction token as [|x token IH]; [reflexivity|].
    cbn in Hall. apply andb_true_iff in Hall as [Hx Hall].
    apply Ascii.eqb_eq in Hx. subst x. cbn.
    destruct (Ascii.eqb h c) eqn:E; [apply Ascii.eqb_eq in E; congruence|].
    apply IH, Hall.
Qed.

Lemma no_hour_symbol (token : string) :
  forallb (fun c => negb (existsb (Ascii.eqb c) hour_symbols)) (list_ascii_of_string token)
    = true ->
  no_hour token.
Proof.
  intros Hall c Hc. induction token as [|x token IH]; [reflexivity|].
  cbn [list_ascii_of_string forallb] in Hall. apply andb_true_iff in Hall as [Hx Hall].
  cbn [contains_char]. destruct (Ascii.eqb x c) eqn:E; [|apply IH, Hall].
  apply Ascii.eqb_eq in E. subst x. apply negb_true_iff in Hx.
  assert (Hin : existsb (Ascii.eqb c) hour_symbols = true).
  { apply existsb_exists. exists c. split; [apply list_elem_of_In, Hc | apply Ascii.eqb_refl]. }
  congruence.
Qed.

Lemma row_token (hc : HourCycle) (data : PatternData.t) (v token : string) :
  row_tokens_ok hc data = true ->
  PatternData.map data !! v = Some token ->
  token <> "" /\
  if String.eqb (PatternData.property data) "hour" then only_hour hc token else no_hour token.
Proof.
  intros Hrow Hv. unfold row_tokens_ok in Hrow. rewrite forallb_forall in Hrow.
  apply elem_of_map_to_list, list_elem_of_In in Hv.
  specialize (Hrow _ Hv). cbn [snd] in Hrow.
  apply andb_true_iff in Hrow as [Hne Hchars].
  apply negb_true_iff, String.eqb_neq in Hne. split; [exact Hne|].
  destruct (String.eqb (PatternData.property data) "hour").
  - destruct (all_one_symbol _ _ Hchars Hne) as [Hh Hothers].
    split; [exact Hh | intros c _ Hc; apply Hothers, Hc].
  - apply no_hour_symbol, Hchars.
Qed.

Lemma GetPatternData_tokens_ok (hc : HourCycle) :
  forallb (row_tokens_ok hc) (GetPatternData hc) = true.
Proof. destruct hc; vm_compute; reflexivity. Qed.

Lemma GetPatternData_has_fields (hc : HourCycle) :
  forallb (fun name =>
             existsb (fun item => String.eqb (PatternData.property item) name)
               (GetPatternData hc))
          date_time_fields = true.
Proof. destruct hc; vm_compute; reflexivity. Qed.

Section Skeleton.
Context (env : Env).

(** The skeleton loop appends tokens only; it appends one for each option
    that does not read as undefined; and the hour symbols of the skeleton say
    whether the hour option was read. *)
Lemma Initialize_skeleton_symbols (hc : HourCycle) (options : loc)
    (items : list PatternData.t) (b : bool) (sk : string) iso b' sk' iso' :
  forallb (row_tokens_ok hc) items = true ->
  Initialize_skeleton env options items b sk iso = (Just (b', sk'), iso') ->
  (if b then only_hour hc sk else no_hour sk) ->
  (if b' then only_hour hc sk' else no_hour sk') /\
  String.length sk <= String.length sk' /\
  (existsb (fun item => negb (absent iso options (PatternData.property item))) items = true ->
   String.length sk < String.length sk').
Proof.
  revert b sk. induction items as [|item items IH]; intros b sk Hrows Hrun Hinv.
  - cbn in Hrun. injection Hrun as <- <- <-. split; [exact Hinv|]. split; [lia|].
    cbn. discriminate.
  - cbn [forallb] in Hrows. apply andb_true_iff in Hrows as [Hrow Hrows].
    cbn [Initialize_skeleton] in Hrun. rewrite bind_run in Hrun.
    destruct (GetStringOption env options (PatternData.property item)
                (PatternData.allowed_values item) iso) as [[r|e|] iso1] eqn:Hget;
      try discriminate Hrun.
    assert (iso1 = iso) as ->
      by (eapply readonly_inv; [apply readonly_GetStringOption | exact Hget]).
    destruct r as [input|].
    + destruct (PatternData.map item !! input) as [token|] eqn:Htoken;
        [|discriminate Hrun].
      destruct (row_token hc item input token Hrow Htoken) as [Hne Hkind].
      assert (Hlen : String.length sk < String.length (sk +:+ token)).
      { rewrite length_append. destruct token; [contradiction | simpl; lia]. }
      destruct (IH _ _ Hrows Hrun) as (Hinv' & Hle & _).
      { destruct (String.eqb (PatternData.property item) "hour").
        - destruct Hkind as [Hh Hothers]. split.
          + rewrite contains_char_append, Hh. apply orb_true_r.
          + intros c Hc Hneq. rewrite contains_char_append, (Hothers c Hc Hneq).
            rewrite orb_false_r.
            destruct b; [apply Hinv; assumption | apply Hinv, Hc].
        - destruct b.
          + destruct Hinv as [Hh Hothers]. split.
            * rewrite contains_char_append, Hh. reflexivity.
            * intros c Hc Hneq.
              rewrite contains_char_append, (Hothers c Hc Hneq), (Hkind c Hc). reflexivity.
          + intros c Hc. rewrite contains_char_append, (Hinv c Hc), (Hkind c Hc).
            reflexivity. }
      split; [exact Hinv'|]. split; lia.
    + destruct (IH _ _ Hrows Hrun Hinv) as (Hinv' & Hle & Hlt).
      split; [exact Hinv'|]. split; [exact Hle|].
      cbn [existsb]. intros Hsome. apply Hlt.
      destruct (absent iso options (PatternData.property item)) eqn:Habs;
        [exact Hsome|].
      destruct (GetStringOption_present env _ _ _ _ _ _ Habs Hget) as [v Hv].
      discriminate Hv.
Qed.

End Skeleton.

Lemma CreateICUDateFormat_pattern (env : Env) (icu_locale : Locale) (skeleton : string)
    (f : SimpleDateFormat) :
  CreateICUDateFormat env icu_locale skeleton = Some f ->
  sdf_pattern f =
    (if generator_ok env (no_extension icu_locale)
     then getBestPattern env (no_extension icu_locale) skeleton else "") /\
  sdf_locale f = icu_locale.
Proof.
  unfold CreateICUDateFormat.
  destruct (SimpleDateFormat_ok env _ icu_locale); [|discriminate].
  intros [= <-]. split; reflexivity.
Qed.

(** X20.  The pattern of the formatter that [Initialize] stores is the
    best pattern that ICU generates, for the base name of the resolved locale
    (its extensions dropped), for a skeleton that is never empty; it is the
    empty pattern when ICU has no pattern generator for that locale.  The
    skeleton has an hour symbol exactly when the hour option is read as
    present, and then only the symbol of the negotiated hour cycle: K for h11,
    h for h12, H for h23, k for h24, and j, which leaves the choice to ICU,
    when no hour cycle was negotiated.  The options view is built, and read,
    after the flags of the receiver have been reset; the fields are stored in
    the receiver, which is returned. *)
Theorem Initialize_skeleton_for_ICU
    (env : Env) (date_time_format : loc) (locales input_options : Object)
    (iso : Isolate) (result : loc) (iso' : Isolate) :
  Initialize env date_time_format locales input_options iso = (Just result, iso') ->
  exists fields0 options iso1 fields requested_locales locale_matcher hour12 hourCycle
         skeleton f,
    fields_at iso date_time_format = Some fields0 /\
    CanonicalizeLocaleList env locales = Some requested_locales /\
    ToDateTimeOptions input_options RequiredOption.kAny DefaultsOption.kDate
        (store_fields date_time_format (JSDateTimeFormat.set_flags_0 fields0) iso)
      = (Just options, iso1) /\
    GetLocaleMatcher env options iso1 = (Just locale_matcher, iso1) /\
    GetBoolOption options "hour12" iso1 = (Just hour12, iso1) /\
    GetHourCycle env options iso1 = (Just hourCycle, iso1) /\
    result = date_time_format /\
    fields_at iso' result = Some fields /\
    iso' = store_fields result fields iso1 /\
    let r := ResolveLocale env (AvailableLocales env) requested_locales locale_matcher
               ["nu"; "ca"; "hc"] in
    let hc := negotiated_hour_cycle hour12 hourCycle (ResolvedLocale.extensions r !! "hc") in
    JSDateTimeFormat.icu_simple_date_format fields = Some f /\
    sdf_pattern f =
      (if generator_ok env (no_extension (ResolvedLocale.icu_locale r))
       then getBestPattern env (no_extension (ResolvedLocale.icu_locale r)) skeleton
       else "") /\
    skeleton <> "" /\
    if absent iso1 options "hour" then no_hour skeleton else only_hour hc skeleton.
Proof.
  intros Hinit.
  apply Initialize_inv_full in Hinit
    as (fields0 & iso1 & requested & options & matcher & hour12 & hourCycle & timezone
        & calendar & has_hour & skeleton & f & base
        & Hf0 & -> & Hcll & Hopt & Hm & H12 & Hhc & _ & _ & Hsk & Hflag & Hbase
        & Hfields & ->).
  eexists fields0, options, iso1, _, requested, matcher, hour12, hourCycle, skeleton,
    (adoptCalendar calendar f).
  split; [exact Hf0|]. split; [exact Hcll|]. split; [exact Hopt|]. split; [exact Hm|].
  split; [exact H12|]. split; [exact Hhc|]. split; [reflexivity|].
  split; [exact Hfields|]. split; [reflexivity|]. cbv zeta in *.
  set (hc := negotiated_hour_cycle hour12 hourCycle _) in *.
  split; [reflexivity|]. split.
  { cbn [sdf_pattern adoptCalendar].
    destruct Hbase as [[Hcreate _] | (_ & Hcreate & _)];
      apply CreateICUDateFormat_pattern in Hcreate as [Hpattern _]; exact Hpattern. }
  destruct (Initialize_skeleton_symbols env hc _ _ _ _ _ _ _ _
              (GetPatternData_tokens_ok hc) Hsk) as (Hsymbols & _ & Hgrows).
  { intros c _. reflexivity. }
  split; [|rewrite Hflag in Hsymbols; destruct (absent iso1 options "hour"); exact Hsymbols].
  intros ->. cbn [String.length] in Hgrows.
  assert (Hnone : existsb (fun item => negb (absent iso1 options (PatternData.property item)))
                    (GetPatternData hc) = false).
  { destruct (existsb _ (GetPatternData hc)) eqn:E; [|reflexivity].
    specialize (Hgrows eq_refl). lia. }
  pose proof (ToDateTimeOptions_has_a_field _ _ _ _ _ _ Hopt) as Hfield.
  assert (Hall : forallb (absent iso1 options) date_time_fields = true); [|congruence].
  apply forallb_forall. intros name Hname.
  pose proof (GetPatternData_has_fields hc) as Hrows. rewrite forallb_forall in Hrows.
  specialize (Hrows name Hname). apply existsb_exists in Hrows as (item & Hitem & Heq).
  apply String.eqb_eq in Heq. subst name.
  destruct (absent iso1 options (PatternData.property item)) eqn:Habs; [reflexivity|].
  assert (Hsome : existsb (fun item => negb (absent iso1 options (PatternData.property item)))
                    (GetPatternData hc) = true); [|congruence].
  apply existsb_exists. exists item. split; [exact Hitem|]. rewrite Habs. reflexivity.
Qed.

Lemma Initialize_skeleton_for_ICU_witness :
  let iso := isolate_with_formatter hour12_h23_hour_options in
  exists iso' fields f,
    Initialize sample_env 2%positive undefined_value (JSReceiver 1%positive) iso
      = (Just 2%positive, iso') /\
    fields_at iso' 2%positive = Some fields /\
    JSDateTimeFormat.icu_simple_date_format fields = Some f /\
    sdf_pattern f = "h".
Proof.
  intros iso.
  destruct (Initialize sample_env 2%positive undefined_value (JSReceiver 1%positive) iso)
    as [[d| |] iso'] eqn:Hrun; try (vm_compute in Hrun; discriminate Hrun).
  destruct (Initialize_skeleton_for_ICU _ _ _ _ _ _ _ Hrun)
    as (fields0 & options & iso1 & fields & requested & matcher & hour12 & hourCycle
        & skeleton & f & _ & _ & _ & _ & _ & _ & -> & Hfields & _ & Hf & _).
  exists iso', fields, f. split; [reflexivity|]. split; [exact Hfields|]. split; [exact Hf|].
  vm_compute in Hrun. injection Hrun as <-.
  vm_compute in Hfields. injection Hfields as <-.
  cbn in Hf. injection Hf as <-. reflexivity.
Defined.

(** * Resolved options fed back to [Initialize] *)

Lemma view_through_prototype iso (options proto : loc) (o po : JSObject) (name : string) :
  heap iso !! options = Some o -> assoc name (properties o) = None ->
  prototype o = Some proto ->
  heap iso !! proto = Some po -> prototype po = None ->
  view iso options name = default undefined_value (assoc name (properties po)).
Proof.
  intros Ho Hown Hproto Hpo Hnone. unfold view.
  cbn [lookup_chain]. rewrite Ho, Hown, Hproto.
  destruct (size (heap iso)) as [|n] eqn:Hsize.
  - apply map_size_empty_inv in Hsize. rewrite Hsize, lookup_empty in Ho. discriminate Ho.
  - cbn [lookup_chain]. rewrite Hpo, Hnone. destruct (assoc name (properties po)); reflexivity.
Qed.

Lemma size_two (h : gmap loc JSObject) (a b : loc) (x y : JSObject) :
  h !! a = Some x -> h !! b = Some y -> a <> b -> 2 <= size h.
Proof.
  intros Ha Hb Hne.
  pose proof (map_size_delete_Some a h (mk_is_Some _ _ Ha)) as Hsize.
  assert (Hb' : delete a h !! b = Some y) by (rewrite lookup_delete_ne; auto).
  destruct (size (delete a h)) as [|n] eqn:E.
  - apply map_size_empty_inv in E. rewrite E, lookup_empty in Hb'. discriminate.
  - lia.
Qed.

(** A read through a view whose prototype inherits from an object without
    prototype. *)
Lemma view_through_two_prototypes iso (options proto proto2 : loc) (o po po2 : JSObject)
    (name : string) :
  heap iso !! options = Some o -> assoc name (properties o) = None ->
  prototype o = Some proto ->
  heap iso !! proto = Some po -> prototype po = Some proto2 ->
  heap iso !! proto2 = Some po2 -> prototype po2 = None ->
  view iso options name =
    match assoc name (properties po) with
    | Some v => v
    | None => default undefined_value (assoc name (properties po2))
    end.
Proof.
  intros Ho Hown Hproto Hpo Hproto2 Hpo2 Hnone. unfold view.
  assert (Hne : proto <> proto2) by (intros ->; congruence).
  pose proof (size_two _ _ _ _ _ Hpo Hpo2 Hne) as Hsize.
  destruct (size (heap iso)) as [|[|n]]; [lia | lia |].
  cbn [lookup_chain]. rewrite Ho, Hown, Hproto, Hpo.
  destruct (assoc name (properties po)); [reflexivity|].
  rewrite Hproto2, Hpo2, Hnone. destruct (assoc name (properties po2)); reflexivity.
Qed.

(** X21.  Feeding the object of [ResolvedOptions] of a formatter with an
    hour cycle back to [Initialize] does not always give the hour cycle
    back: the new formatter reads the hour12 property of that object, which
    decides alone, so h11 comes back as h12 and h24 as h23, while h12 and h23
    are kept; and the hour cycle is undefined when the object has no hour
    property.  The object inherits from %ObjectPrototype%: this holds as long
    as that object has no hour property, and no prototype, of its own. *)
Theorem Initialize_of_resolved_options_hour_cycle
    (env : Env) (formatter : JSDateTimeFormat.t) (iso : Isolate)
    (object_prototype : JSObject) (resolved : loc) (iso1 : Isolate)
    (date_time_format : loc) (locales : Object) (result : loc) (iso2 : Isolate) :
  heap iso !! object_function_prototype env = Some object_prototype ->
  prototype object_prototype = None ->
  assoc "hour" (properties object_prototype) = None ->
  ResolvedOptions env formatter iso = (Just resolved, iso1) ->
  JSDateTimeFormat.hour_cycle formatter <> kUndefined ->
  Initialize env date_time_format locales (JSReceiver resolved) iso1 = (Just result, iso2) ->
  exists o fields,
    heap iso1 !! resolved = Some o /\
    fields_at iso2 result = Some fields /\
    JSDateTimeFormat.hour_cycle fields =
      match assoc "hour" (properties o) with
      | None => kUndefined
      | Some _ =>
          match JSDateTimeFormat.hour_cycle formatter with
          | kH11 | kH12 => kH12
          | _ => kH23
          end
      end.
Proof.
  intros Hop Hop_proto Hop_hour Hres Hhc Hinit.
  apply ResolvedOptions_inv_run in Hres as (l & f & c & tag & _ & _ & _ & _ & Hfresh & ->).
  set (ro := resolved_object env
               (resolved_properties env l tag f c (JSDateTimeFormat.hour_cycle formatter)))
    in *.
  set (iso1 := set_heap (<[resolved := ro]> (heap iso)) iso) in *.
  assert (Hnew : heap iso !! resolved = None) by (rewrite Hfresh; apply fresh_not_in_heap).
  assert (Hro : heap iso1 !! resolved = Some ro) by (simpl; apply lookup_insert_eq).
  assert (Hp_ne : object_function_prototype env <> resolved) by congruence.
  assert (Hop1 : heap iso1 !! object_function_prototype env = Some object_prototype).
  { simpl. rewrite lookup_insert_ne by congruence. exact Hop. }
  apply Initialize_inv in Hinit
    as (fields0 & iso_r & requested & options & matcher & hour12 & hourCycle & date_format
        & calendar & base & Hf0 & -> & _ & Hopt & _ & H12 & _ & _ & _ & Hfields & ->).
  eexists ro, _. split; [exact Hro|]. split; [exact Hfields|].
  cbn [JSDateTimeFormat.hour_cycle].
  assert (Hdtf : date_time_format <> resolved).
  { intros ->. unfold fields_at in Hf0. rewrite Hro in Hf0. discriminate Hf0. }
  set (iso0 := store_fields date_time_format (JSDateTimeFormat.set_flags_0 fields0) iso1)
    in *.
  assert (Hro0 : heap iso0 !! resolved = Some ro).
  { unfold iso0. rewrite heap_store_fields_ne by exact Hdtf. exact Hro. }
  assert (Hop0 : exists op, heap iso0 !! object_function_prototype env = Some op /\
                            properties op = properties object_prototype /\
                            prototype op = None).
  { destruct (decide (date_time_format = object_function_prototype env)) as [->|Hne].
    - eexists. unfold iso0. rewrite heap_store_fields_eq, Hop1. split; [reflexivity|].
      split; [reflexivity | exact Hop_proto].
    - exists object_prototype. unfold iso0. rewrite heap_store_fields_ne by exact Hne. auto. }
  destruct Hop0 as (op & Hop0 & Hop_props & Hop_none).
  assert (Hnull : JSReceiver resolved <> null_value) by discriminate.
  destruct (ToDateTimeOptions_run (JSReceiver resolved) RequiredOption.kAny DefaultsOption.kDate
              iso0 Hnull) as (options1 & iso1' & proto & Hext & Hnew1 & _ & Hproto & Hrun).
  rewrite Hrun in Hopt. injection Hopt as <- <-. cbn in Hproto. subst proto.
  set (o1 := {| properties := default_properties (needsDefault RequiredOption.kAny iso1' options1)
                                DefaultsOption.kDate;
                prototype := Some resolved; date_value := None; format_fields := None |}) in *.
  set (iso_r := set_heap (<[options1 := o1]> (heap iso1')) iso1') in *.
  assert (Ho1 : heap iso_r !! options1 = Some o1) by (simpl; apply lookup_insert_eq).
  assert (Hro2 : heap iso_r !! resolved = Some ro).
  { simpl. rewrite lookup_insert_ne by congruence. apply Hext, Hro0. }
  assert (Hop2 : heap iso_r !! object_function_prototype env = Some op).
  { simpl. rewrite lookup_insert_ne by congruence. apply Hext, Hop0. }
  assert (Hview : forall name, name ∉ ["year"; "month"; "day"] ->
            view iso_r options1 name =
              match assoc name (properties ro) with
              | Some v => v
              | None => default undefined_value (assoc name (properties object_prototype))
              end).
  { intros name Hname. rewrite <- Hop_props.
    apply (view_through_two_prototypes iso_r options1 resolved
             (object_function_prototype env) o1 ro op name Ho1);
      [|reflexivity | exact Hro2 | reflexivity | exact Hop2 | exact Hop_none].
    unfold o1. cbn [properties]. apply assoc_None.
    destruct (needsDefault _ _ _); cbn; [exact Hname | apply not_elem_of_nil]. }
  assert (Hout : forall name, name ∈ ["hour12"; "hour"] -> name ∉ ["year"; "month"; "day"]).
  { intros name Hin Hin'. apply list_elem_of_In in Hin, Hin'. cbn in Hin, Hin'.
    intuition congruence. }
  apply GetBoolOption_view in H12. unfold absent in H12.
  fold (view iso_r options1 "hour12") in H12.
  unfold stored_hour_cycle, negotiated_hour_cycle, absent.
  fold (view iso_r options1 "hour").
  rewrite (Hview "hour") by (apply Hout, list_elem_of_In; cbn; auto).
  rewrite (Hview "hour12") in H12 by (apply Hout, list_elem_of_In; cbn; auto).
  assert (H12value : assoc "hour12" (properties ro) =
            Some (Boolean match JSDateTimeFormat.hour_cycle formatter with
                          | kH11 | kH12 => true
                          | _ => false
                          end)).
  { unfold ro, resolved_object. cbn [properties]. unfold resolved_properties, resolved_header.
    destruct (String.eqb (GetNumberingSystem env l) ""),
      (JSDateTimeFormat.hour_cycle formatter); try contradiction; reflexivity. }
  rewrite H12value in H12. cbn in H12. subst hour12.
  destruct (assoc "hour" (properties ro)) as [v|] eqn:Hhour; cbn.
  - assert (Hstr : exists s, v = Str s).
    { unfold ro, resolved_object in Hhour. cbn [properties] in Hhour.
      unfold resolved_properties in Hhour.
      rewrite assoc_app, header_has_no_field in Hhour
        by (apply list_elem_of_In; cbn; auto 10).
      apply assoc_Some_elem_of, reverseMap_allowed in Hhour
        as (item & s & _ & _ & -> & _). eauto. }
    destruct Hstr as [s ->]. cbn.
    destruct (JSDateTimeFormat.hour_cycle formatter); try contradiction; reflexivity.
  - rewrite Hop_hour. reflexivity.
Qed.

(** An isolate with %ObjectPrototype%, at the address that [sample_env]
    gives it, and a formatter that was just allocated, at address 2. *)
Lemma Initialize_of_resolved_options_hour_cycle_witness :
  let iso := {| heap := {[ 100%positive := plain_object [];
                          2%positive := formatter_object JSDateTimeFormat.New ]};
                icu_object_cache := [] |} in
  exists resolved iso1 iso2 fields,
    ResolvedOptions sample_env (sample_formatter "K:mm" kH11) iso = (Just resolved, iso1) /\
    Initialize sample_env 2%positive undefined_value (JSReceiver resolved) iso1
      = (Just 2%positive, iso2) /\
    fields_at iso2 2%positive = Some fields /\
    JSDateTimeFormat.hour_cycle fields = kH12.
Proof.
  intros iso.
  destruct (ResolvedOptions sample_env (sample_formatter "K:mm" kH11) iso)
    as [[resolved| |] iso1] eqn:Hres; try (vm_compute in Hres; discriminate Hres).
  destruct (Initialize sample_env 2%positive undefined_value (JSReceiver resolved) iso1)
    as [[d| |] iso2] eqn:Hinit.
  - destruct (Initialize_of_resolved_options_hour_cycle sample_env _ iso (plain_object [])
                _ _ _ _ _ _ eq_refl eq_refl eq_refl Hres ltac:(discriminate) Hinit)
      as (o & fields & Ho & Hfields & Hcycle).
    exists resolved, iso1, iso2, fields.
    vm_compute in Hres. injection Hres as <- <-.
    vm_compute in Hinit. injection Hinit as <- <-.
    split; [reflexivity|]. split; [reflexivity|]. split; [exact Hfields|].
    rewrite Hcycle. vm_compute in Ho. injection Ho as <-. reflexivity.
  - vm_compute in Hres. injection Hres as <- <-. vm_compute in Hinit. discriminate Hinit.
  - vm_compute in Hres. injection Hres as <- <-. vm_compute in Hinit. discriminate Hinit.
Defined.

(** * The formatter of the defaults *)

Lemma skeleton_for_defaults (defaults : DefaultsOption.t) (hc : HourCycle) :
  skeleton_for (read_defaults defaults) (GetPatternData hc) false ""
  = Some (match defaults with DefaultsOption.kDate => false | _ => true end,
          default_skeleton defaults hc).
Proof. destruct defaults, hc; vm_compute; reflexivity. Qed.

Lemma rows_allow_defaults (defaults : DefaultsOption.t) (hc : HourCycle) :
  forallb (row_allows_default defaults) (GetPatternData hc) = true.
Proof. destruct defaults, hc; vm_compute; reflexivity. Qed.

Section Defaults.
Context (env : Env).

Lemma GetStringOption_view_Str (options : loc) (property : string) (values : list string)
    iso (s : string) :
  view iso options property = Str s -> values = [] \/ s ∈ values ->
  GetStringOption env options property values iso = (Just (Some s), iso).
Proof.
  intros Hview Hallowed. unfold GetStringOption. rewrite bind_run.
  unfold GetPropertyOrElement. fold (view iso options property). rewrite Hview.
  cbn [fst snd IsUndefined ToString]. rewrite bind_ret.
  destruct Hallowed as [-> | Hin]; [reflexivity|].
  destruct values as [|v0 values]; [reflexivity|].
  apply existsb_eqb_elem_of in Hin. rewrite Hin. reflexivity.
Qed.

Lemma Initialize_skeleton_pure (options : loc) (read : string -> option string) iso
    (items : list PatternData.t) (b : bool) (sk : string) :
  (forall item, item ∈ items ->
     GetStringOption env options (PatternData.property item) (PatternData.allowed_values item) iso
       = (Just (read (PatternData.property item)), iso)) ->
  Initialize_skeleton env options items b sk iso =
  (match skeleton_for read items b sk with Some r => Just r | None => Fatal end, iso).
Proof.
  revert b sk. induction items as [|item items IH]; intros b sk Hread; [reflexivity|].
  cbn [Initialize_skeleton skeleton_for].
  rewrite bind_run, (Hread item) by left. cbn [fst snd].
  assert (Hrest : forall item0, item0 ∈ items ->
            GetStringOption env options (PatternData.property item0)
              (PatternData.allowed_values item0) iso
            = (Just (read (PatternData.property item0)), iso))
    by (intros item0 Hin; apply Hread; right; exact Hin).
  destruct (read (PatternData.property item)) as [input|]; [|apply IH, Hrest].
  destruct (PatternData.map item !! input); [apply IH, Hrest | reflexivity].
Qed.

(** On a view that holds the defaults and nothing else, the loop reads the
    defaults. *)
Lemma reads_defaults (defaults : DefaultsOption.t) (hc : HourCycle) (options : loc) iso :
  (forall name, view iso options name
                = default undefined_value (assoc name (default_properties true defaults))) ->
  forall item, item ∈ GetPatternData hc ->
    GetStringOption env options (PatternData.property item) (PatternData.allowed_values item) iso
      = (Just (read_defaults defaults (PatternData.property item)), iso).
Proof.
  intros Hview item Hitem.
  pose proof (rows_allow_defaults defaults hc) as Hrows. rewrite forallb_forall in Hrows.
  specialize (Hrows item (proj1 (list_elem_of_In _ _) Hitem)).
  unfold row_allows_default in Hrows. unfold read_defaults in *.
  specialize (Hview (PatternData.property item)).
  destruct (assoc (PatternData.property item) (default_properties true defaults))
    as [v|] eqn:Hassoc.
  - assert (Hnumeric : v = Str "numeric").
    { apply assoc_Some_elem_of, list_elem_of_In in Hassoc.
      destruct defaults; cbn in Hassoc; intuition congruence. }
    subst v. cbn in Hview. apply bool_decide_eq_true in Hrows.
    apply (GetStringOption_view_Str _ _ _ _ _ Hview). right. exact Hrows.
  - apply GetStringOption_absent. unfold absent. fold (view iso options (PatternData.property item)).
    rewrite Hview. reflexivity.
Qed.

Lemma GetLocaleMatcher_absent (options : loc) iso m iso' :
  GetLocaleMatcher env options iso = (Just m, iso') ->
  absent iso options "localeMatcher" = true -> m = kBestFit.
Proof.
  unfold GetLocaleMatcher, GetStringOptionEnum. intros H Habs.
  rewrite bind_run, (GetStringOption_absent env _ _ _ _ Habs) in H.
  injection H as <- _. reflexivity.
Qed.

(** A formatter initialised from a view that holds the defaults only. *)
Lemma Initialize_of_defaults (defaults : DefaultsOption.t)
    (date_time_format : loc) (locales input_options : Object) iso result iso' :
  Initialize env date_time_format locales input_options iso = (Just result, iso') ->
  (forall fields0 options iso1,
     fields_at iso date_time_format = Some fields0 ->
     ToDateTimeOptions input_options RequiredOption.kAny DefaultsOption.kDate
         (store_fields date_time_format (JSDateTimeFormat.set_flags_0 fields0) iso)
       = (Just options, iso1) ->
     forall name, view iso1 options name
                  = default undefined_value (assoc name (default_properties true defaults))) ->
  exists requested_locales fields f calendar,
    CanonicalizeLocaleList env locales = Some requested_locales /\
    let r := ResolveLocale env (AvailableLocales env) requested_locales kBestFit
               ["nu"; "ca"; "hc"] in
    fields_at iso' result = Some fields /\
    JSDateTimeFormat.icu_simple_date_format fields = Some f /\
    sdf_pattern f =
      (if generator_ok env (no_extension (ResolvedLocale.icu_locale r))
       then getBestPattern env (no_extension (ResolvedLocale.icu_locale r))
              (default_skeleton defaults (extension_hour_cycle r))
       else "") /\
    sdf_calendar f = Some calendar /\
    calendar_time_zone calendar = createDefault env.
Proof.
  intros Hinit Hview.
  apply Initialize_inv_full in Hinit
    as (fields0 & iso1 & requested & options & matcher & hour12 & hourCycle & timezone
        & calendar & has_hour & skeleton & f & base
        & Hf0 & -> & Hcll & Hopt & Hm & H12 & Hhc & Htz & Hcal & Hsk & _ & Hbase
        & Hfields & ->).
  specialize (Hview fields0 options iso1 Hf0 Hopt).
  assert (Habsent : forall name,
            assoc name (default_properties true defaults) = None ->
            absent iso1 options name = true).
  { intros name Hname. unfold absent. fold (view iso1 options name).
    rewrite Hview, Hname. reflexivity. }
  assert (Hm' : matcher = kBestFit).
  { apply (GetLocaleMatcher_absent _ _ _ _ Hm), Habsent. destruct defaults; reflexivity. }
  assert (H12' : hour12 = None).
  { apply GetBoolOption_view in H12. rewrite Habsent in H12 by (destruct defaults; reflexivity).
    exact H12. }
  assert (Hhc' : hourCycle = kUndefined).
  { apply (GetHourCycle_absent _ _ _ _ _ Hhc), Habsent. destruct defaults; reflexivity. }
  assert (Htz' : timezone = None).
  { rewrite (GetStringOption_absent env _ _ _ _
               (Habsent "timeZone" ltac:(destruct defaults; reflexivity))) in Htz.
    injection Htz as <-. reflexivity. }
  subst matcher hour12 hourCycle timezone. cbv zeta in *.
  change (negotiated_hour_cycle None kUndefined
            (ResolvedLocale.extensions
               (ResolveLocale env (AvailableLocales env) requested kBestFit ["nu"; "ca"; "hc"])
             !! "hc"))
    with (extension_hour_cycle
            (ResolveLocale env (AvailableLocales env) requested kBestFit ["nu"; "ca"; "hc"]))
    in *.
  rewrite (Initialize_skeleton_pure options (read_defaults defaults) iso1) in Hsk
    by (apply reads_defaults, Hview).
  rewrite skeleton_for_defaults in Hsk. injection Hsk as _ <-.
  eexists requested, _, (adoptCalendar calendar f), calendar. split; [exact Hcll|].
  split; [exact Hfields|]. split; [reflexivity|]. split.
  { cbn [sdf_pattern adoptCalendar].
    destruct Hbase as [[Hcreate _] | (_ & Hcreate & _)];
      apply CreateICUDateFormat_pattern in Hcreate as [Hpattern _]; exact Hpattern. }
  split; [reflexivity|].
  apply CreateCalendar_Some in Hcal as (Hzone & _). apply CreateTimeZone_Some in Hzone.
  exact Hzone.
Qed.

End Defaults.

Lemma view_own iso (options : loc) (o : JSObject) (name : string) :
  heap iso !! options = Some o -> prototype o = None ->
  view iso options name = default undefined_value (assoc name (properties o)).
Proof.
  intros Ho Hnone. unfold view. cbn [lookup_chain]. rewrite Ho, Hnone.
  destruct (assoc name (properties o)); reflexivity.
Qed.

Lemma needsDefault_on_empty_object (required : RequiredOption.t) iso options :
  heap iso !! options = Some {| properties := []; prototype := None;
                                date_value := None; format_fields := None |} ->
  needsDefault required iso options = true.
Proof.
  intros Hobj. unfold needsDefault. cbn [forallb].
  rewrite !(absent_on_empty_object _ _ _ Hobj). destruct required; reflexivity.
Qed.

(** The view that [ToDateTimeOptions] makes of an absent options argument:
    a new object that holds the defaults and nothing else. *)
Lemma ToDateTimeOptions_of_undefined (required : RequiredOption.t)
    (defaults : DefaultsOption.t) iso options iso' :
  ToDateTimeOptions undefined_value required defaults iso = (Just options, iso') ->
  extends iso iso' /\
  heap iso' !! options
    = Some {| properties := default_properties true defaults; prototype := None;
              date_value := None; format_fields := None |}.
Proof.
  intros Hrun.
  assert (Hnull : undefined_value <> null_value) by discriminate.
  destruct (ToDateTimeOptions_run undefined_value required defaults iso Hnull)
    as (options1 & iso1 & proto & Hext & Hnew & Hobj & Hproto & Hrun1).
  cbn in Hproto. subst proto.
  rewrite (needsDefault_on_empty_object _ _ _ Hobj) in Hrun1.
  rewrite Hrun1 in Hrun. injection Hrun as <- <-.
  split; [|simpl; apply lookup_insert_eq].
  destruct Hext as [Hcache Hheap]. split; [exact Hcache|].
  intros l o Hl. simpl. rewrite lookup_insert_ne by congruence. apply Hheap, Hl.
Qed.

(** The view that [Initialize] makes of the internal options of
    [ToLocaleDateTime]: their defaults, read through the prototype. *)
Lemma view_of_internal_options (defaults : DefaultsOption.t) (internal_options : loc)
    iso1 options iso2 :
  heap iso1 !! internal_options
    = Some {| properties := default_properties true defaults; prototype := None;
              date_value := None; format_fields := None |} ->
  ToDateTimeOptions (JSReceiver internal_options) RequiredOption.kAny DefaultsOption.kDate iso1
    = (Just options, iso2) ->
  forall name, view iso2 options name
               = default undefined_value (assoc name (default_properties true defaults)).
Proof.
  intros Hinternal Hopt.
  set (io := {| properties := default_properties true defaults; prototype := None;
                date_value := None; format_fields := None |}) in *.
  assert (Hnull : JSReceiver internal_options <> null_value) by discriminate.
  destruct (ToDateTimeOptions_run (JSReceiver internal_options) RequiredOption.kAny
              DefaultsOption.kDate iso1 Hnull)
    as (options1 & iso1' & proto & Hext & Hnew & Hobj & Hproto & Hrun).
  cbn in Hproto. subst proto. rewrite Hrun in Hopt. injection Hopt as <- <-.
  assert (Hinternal' : heap iso1' !! internal_options = Some io) by (apply Hext, Hinternal).
  assert (Hview1 : forall name, view iso1' options1 name
                                = default undefined_value (assoc name (properties io))).
  { intros name.
    apply (view_through_prototype iso1' options1 internal_options _ io name Hobj);
      [reflexivity | reflexivity | exact Hinternal' | reflexivity]. }
  assert (Hnd : needsDefault RequiredOption.kAny iso1' options1 = false).
  { unfold needsDefault, absent. cbn [forallb].
    fold (view iso1' options1 "weekday"). fold (view iso1' options1 "year").
    fold (view iso1' options1 "month"). fold (view iso1' options1 "day").
    fold (view iso1' options1 "hour"). fold (view iso1' options1 "minute").
    fold (view iso1' options1 "second").
    rewrite !Hview1. destruct defaults; reflexivity. }
  rewrite Hnd. change (default_properties false DefaultsOption.kDate)
                 with (@nil (string * Object)).
  rewrite insert_id, set_heap_id by exact Hobj. exact Hview1.
Qed.

(** X22.  A call of [ToLocaleDateTime] without options that does not find
    its formatter in the cache formats with a new formatter whose skeleton is
    made of the defaults alone, whatever [required] is: yMd for the date
    defaults, jms for the time defaults and yMdjms for both, the hour symbol j
    being replaced by the one of the "hc" extension of the resolved locale if
    it has one.  The locale matcher is best fit and the calendar is in ICU's
    default time zone. *)
Theorem ToLocaleDateTime_default_skeleton
    (env : Env) (date : loc) (o : JSObject) (x : double) (locales : Object)
    (required : RequiredOption.t) (defaults : DefaultsOption.t)
    (iso : Isolate) (text : UnicodeString) (iso' : Isolate) :
  heap iso !! date = Some o -> date_value o = Some x -> isnan x = false ->
  (if IsUndefined locales
   then cache_lookup (ConvertToCacheType defaults) (icu_object_cache iso) else None) = None ->
  ToLocaleDateTime env (JSReceiver date) locales undefined_value required defaults iso
    = (Just text, iso') ->
  exists requested_locales f calendar,
    CanonicalizeLocaleList env locales = Some requested_locales /\
    let r := ResolveLocale env (AvailableLocales env) requested_locales kBestFit
               ["nu"; "ca"; "hc"] in
    FormatDateTime env f x = Just text /\
    sdf_pattern f =
      (if generator_ok env (no_extension (ResolvedLocale.icu_locale r))
       then getBestPattern env (no_extension (ResolvedLocale.icu_locale r))
              (default_skeleton defaults (extension_hour_cycle r))
       else "") /\
    sdf_calendar f = Some calendar /\
    calendar_time_zone calendar = createDefault env.
Proof.
  intros Hdate Hvalue Hnan Hmiss Hrun.
  unfold ToLocaleDateTime in Hrun.
  rewrite bind_run in Hrun. unfold JSDate_value in Hrun. rewrite Hdate in Hrun.
  cbn in Hrun. rewrite Hvalue, Hnan in Hrun. rewrite andb_true_r in Hrun.
  assert (Hslow : exists internal_options iso1 obj iso2 date_time_format iso3 fields format,
            ToDateTimeOptions undefined_value required defaults iso
              = (Just internal_options, iso1) /\
            JSObject_New (intl_date_time_format_function_prototype env) iso1
              = (Just obj, iso2) /\
            Initialize env obj locales (JSReceiver internal_options) iso2
              = (Just date_time_format, iso3) /\
            fields_at iso3 date_time_format = Some fields /\
            JSDateTimeFormat.icu_simple_date_format fields = Some format /\
            FormatDateTime env format x = Just text).
  { assert (Hsame : forall can_cache : bool,
      (internal_options ← ToDateTimeOptions undefined_value required defaults;
       obj ← JSObject_New (intl_date_time_format_function_prototype env);
       date_time_format ← Initialize env obj locales (JSReceiver internal_options);
       fields ← get_fields date_time_format;
       match JSDateTimeFormat.icu_simple_date_format fields with
       | None => fatal
       | Some format =>
           _ ← (if can_cache
                then set_icu_object_in_cache (ConvertToCacheType defaults) format
                else mret tt);
           lift (FormatDateTime env format x)
       end) iso = (Just text, iso') ->
      exists internal_options iso1 obj iso2 date_time_format iso3 fields format,
        ToDateTimeOptions undefined_value required defaults iso
          = (Just internal_options, iso1) /\
        JSObject_New (intl_date_time_format_function_prototype env) iso1
          = (Just obj, iso2) /\
        Initialize env obj locales (JSReceiver internal_options) iso2
          = (Just date_time_format, iso3) /\
        fields_at iso3 date_time_format = Some fields /\
        JSDateTimeFormat.icu_simple_date_format fields = Some format /\
        FormatDateTime env format x = Just text).
    { intros can_cache H.
      apply bind_inv in H as (internal_options & iso1 & Hopt & H).
      apply bind_inv in H as (obj & iso2 & Hnew & H).
      apply bind_inv in H as (date_time_format & iso3 & Hinit & H).
      apply bind_inv in H as (fields & iso4 & Hget & H).
      apply get_fields_inv in Hget as [Hget ->].
      destruct (JSDateTimeFormat.icu_simple_date_format fields) as [format|] eqn:Hf;
        [|discriminate H].
      rewrite bind_run in H.
      assert (Htext : FormatDateTime env format x = Just text).
      { destruct can_cache; cbn in H; injection H as Htext _; exact Htext. }
      exists internal_options, iso1, obj, iso2, date_time_format, iso3, fields, format.
      auto 10. }
    rewrite bind_run in Hrun.
    destruct (IsUndefined locales).
    - unfold get_cached_icu_object in Hrun. cbn in Hrun. rewrite Hmiss in Hrun.
      apply (Hsame true), Hrun.
    - cbn in Hrun. apply (Hsame false), Hrun. }
  destruct Hslow as (internal_options & iso1 & obj & iso2 & date_time_format & iso3 & fields
                     & format & Hopt & Hnew & Hinit & Hfields & Hformat & Htext).
  apply ToDateTimeOptions_of_undefined in Hopt as [_ Hinternal].
  assert (Hobj : obj = fresh (dom (heap iso1)) /\
                 iso2 = set_heap (<[obj := {| properties := [];
                                              prototype :=
                                                Some (intl_date_time_format_function_prototype
                                                        env);
                                              date_value := None;
                                              format_fields := Some JSDateTimeFormat.New |}]>
                                    (heap iso1)) iso1).
  { unfold JSObject_New in Hnew. injection Hnew as <- <-. auto. }
  destruct Hobj as [Hobj ->].
  assert (Hne : obj <> internal_options).
  { intros ->. rewrite Hobj, fresh_not_in_heap in Hinternal. discriminate Hinternal. }
  destruct (Initialize_of_defaults env defaults _ _ _ _ _ _ Hinit)
    as (requested & fields' & f & calendar & Hcll & Hfields' & Hf & Hpattern & Hcal & Hzone).
  { intros fields0 options iso_r _ Hview.
    refine (view_of_internal_options defaults internal_options _ options iso_r _ Hview).
    rewrite heap_store_fields_ne by exact Hne. simpl.
    rewrite lookup_insert_ne by exact Hne. exact Hinternal. }
  rewrite Hfields in Hfields'. injection Hfields' as <-.
  rewrite Hformat in Hf. injection Hf as <-.
  exists requested, format, calendar. cbv zeta. auto.
Qed.

Lemma ToLocaleDateTime_default_skeleton_witness :
  exists text iso' f,
    ToLocaleDateTime sample_env (JSReceiver 1%positive) undefined_value undefined_value
      RequiredOption.kAny DefaultsOption.kAll (isolate_with_date (Finite 0)) = (Just text, iso') /\
    FormatDateTime sample_env f (Finite 0) = Just text /\
    sdf_pattern f = "yMdHms".
Proof.
  destruct (ToLocaleDateTime sample_env (JSReceiver 1%positive) undefined_value undefined_value
              RequiredOption.kAny DefaultsOption.kAll (isolate_with_date (Finite 0)))
    as [[text| |] iso'] eqn:Hrun; try (vm_compute in Hrun; discriminate Hrun).
  destruct (ToLocaleDateTime_default_skeleton sample_env 1%positive
              {| properties := []; prototype := None;
                 date_value := Some (Finite 0); format_fields := None |}
              (Finite 0) undefined_value RequiredOption.kAny DefaultsOption.kAll
              (isolate_with_date (Finite 0)) text iso' eq_refl eq_refl eq_refl eq_refl Hrun)
    as (requested & f & calendar & _ & Htext & Hpattern & _).
  exists text, iso', f. split; [reflexivity|]. split; [exact Htext|]. exact Hpattern.
Defined.

Section WithoutOptions.
Context (env : Env).

Lemma GetStringOptionEnum_absent {T} (options : loc) (name : string)
    (str_values : list string) (enum_values : list T) (default_value : T) iso :
  absent iso options name = true ->
  GetStringOptionEnum env options name str_values enum_values default_value iso
    = (Just default_value, iso).
Proof.
  intros Habs. unfold GetStringOptionEnum.
  rewrite bind_run, (GetStringOption_absent env _ _ _ _ Habs). reflexivity.
Qed.

Lemma GetBoolOption_absent (options : loc) (name : string) iso :
  absent iso options name = true -> GetBoolOption options name iso = (Just None, iso).
Proof.
  intros Habs. unfold GetBoolOption. rewrite bind_run. unfold absent in Habs.
  cbn. cbn in Habs. rewrite Habs. reflexivity.
Qed.

Lemma Initialize_without_options_run (date_time_format : loc)
    (locales : Object) (iso : Isolate) (fields0 : JSDateTimeFormat.t) :
  fields_at iso date_time_format = Some fields0 ->
  let iso0 := store_fields date_time_format (JSDateTimeFormat.set_flags_0 fields0) iso in
  Initialize env date_time_format locales undefined_value iso
  = Initialize_without_options_spec env date_time_format locales iso0
      (ToDateTimeOptions undefined_value RequiredOption.kAny DefaultsOption.kDate iso0).2.
Proof.
  intros Hfields0 iso0.
  unfold Initialize, Initialize_without_options_spec.
  rewrite (bind_just _ _ _ _ _ (set_fields_run _ _ _ _ Hfields0)). fold iso0.
  destruct (CanonicalizeLocaleList env locales) as [requested|]; [|reflexivity].
  rewrite bind_ret.
  destruct (ToDateTimeOptions_outcome undefined_value RequiredOption.kAny DefaultsOption.kDate
              iso0) as [(Hnull & _) | (_ & options & iso' & o & Hopt & Hext & _)];
    [discriminate Hnull|].
  rewrite (bind_just _ _ _ _ _ Hopt), Hopt. cbn [snd].
  assert (Hf1 : fields_at iso' date_time_format
                = Some (JSDateTimeFormat.set_flags_0 fields0)).
  { eapply extends_fields_at; [exact Hext|].
    eapply fields_at_store_fields, fields_at_is_Some, Hfields0. }
  pose proof (ToDateTimeOptions_of_undefined _ _ _ _ _ Hopt) as [_ Hobj].
  assert (Hview : forall name, view iso' options name
                    = default undefined_value
                        (assoc name (default_properties true DefaultsOption.kDate)))
    by (intros name; apply (view_own _ _ _ _ Hobj); reflexivity).
  assert (Habsent : forall name,
            assoc name (default_properties true DefaultsOption.kDate) = None ->
            absent iso' options name = true).
  { intros name Hname. unfold absent. fold (view iso' options name).
    rewrite Hview, Hname. reflexivity. }
  unfold GetLocaleMatcher, GetHourCycle.
  rewrite (bind_just _ _ _ _ _
             (GetStringOptionEnum_absent _ _ _ _ _ _ (Habsent "localeMatcher" eq_refl))).
  rewrite (bind_just _ _ _ _ _ (GetBoolOption_absent _ _ _ (Habsent "hour12" eq_refl))).
  rewrite (bind_just _ _ _ _ _
             (GetStringOptionEnum_absent _ _ _ _ _ _ (Habsent "hourCycle" eq_refl))).
  cbv zeta. cbn [found negb andb orb].
  rewrite (bind_just _ _ _ _ _ (GetStringOption_absent env _ _ _ _ (Habsent "timeZone" eq_refl))).
  set (r := ResolveLocale env (AvailableLocales env) requested kBestFit ["nu"; "ca"; "hc"]).
  rewrite bind_run. unfold lift, CreateCalendar, CreateTimeZone. cbn [fst snd].
  destruct (Calendar_createInstance env (createDefault env) (ResolvedLocale.icu_locale r))
    as [[type gregorian]|]; [|reflexivity].
  change (bool_decide (kUndefined = kUndefined)) with true. cbv iota.
  change (match ResolvedLocale.extensions r !! "hc" with
          | Some hc_extension => ToHourCycle hc_extension
          | None => kUndefined
          end) with (extension_hour_cycle r).
  assert (Hhc : (if bool_decide (extension_hour_cycle r = kUndefined)
                 then extension_hour_cycle r else extension_hour_cycle r)
                = extension_hour_cycle r)
    by (destruct (bool_decide _); reflexivity).
  rewrite Hhc.
  rewrite (bind_just _ _ _ _ _
             (eq_trans
                (Initialize_skeleton_pure env options (read_defaults DefaultsOption.kDate) iso'
                   _ false "" (reads_defaults env DefaultsOption.kDate _ options iso' Hview))
                (f_equal (fun s => (match s with Some r0 => Just r0 | None => Fatal end, iso'))
                   (skeleton_for_defaults DefaultsOption.kDate (extension_hour_cycle r))))).
  rewrite (bind_just _ _ _ _ _
             (GetStringOptionEnum_absent _ _ _ _ _ _ (Habsent "formatMatcher" eq_refl))).
  change (default_skeleton DefaultsOption.kDate (extension_hour_cycle r)) with "yMd".
  assert (Hstores : forall icu_locale date_format,
    (_ ← set_fields date_time_format (JSDateTimeFormat.set_hour_cycle kUndefined);
     icu_locale ← mret icu_locale;
     _ ← set_fields date_time_format (JSDateTimeFormat.set_icu_locale icu_locale);
     _ ← set_fields date_time_format
           (JSDateTimeFormat.set_icu_simple_date_format date_format);
     mret date_time_format) iso'
    = (Just date_time_format,
       store_fields date_time_format
         {| JSDateTimeFormat.hour_cycle := kUndefined;
            JSDateTimeFormat.icu_locale := Some icu_locale;
            JSDateTimeFormat.icu_simple_date_format := Some date_format |} iso')).
  { intros icu_locale date_format.
    apply (Initialize_stores env date_time_format iso' _ false (extension_hour_cycle r)
             None kUndefined (ResolvedLocale.extensions r !! "hc") icu_locale date_format
             Hf1). }
  destruct (CreateICUDateFormat env (ResolvedLocale.icu_locale r) "yMd") as [date_format|];
    [rewrite bind_ret; apply Hstores|].
  destruct (CreateICUDateFormat env (no_extension (ResolvedLocale.icu_locale r)) "yMd")
    as [date_format|]; [rewrite bind_ret; apply Hstores | reflexivity].
Qed.

End WithoutOptions.

(** X23.  [Initialize] of a formatter when no options are given.  Its
    outcome depends on the locale list and on ICU only: the exception of the
    locale list; an abort when ICU builds no calendar for its default time
    zone or refuses the date format twice; else the receiver, in which it has
    stored an undefined hour cycle, the resolved locale of the best-fit
    matcher (its base name if ICU refused the format with the extensions), and
    the best pattern for the skeleton yMd (numeric year, month and day) with a
    calendar in the default time zone. *)
Theorem Initialize_without_options
    (env : Env) (date_time_format : loc) (locales : Object) (iso : Isolate)
    (fields0 : JSDateTimeFormat.t) :
  fields_at iso date_time_format = Some fields0 ->
  let iso0 := store_fields date_time_format (JSDateTimeFormat.set_flags_0 fields0) iso in
  Initialize env date_time_format locales undefined_value iso
  = Initialize_without_options_spec env date_time_format locales iso0
      (ToDateTimeOptions undefined_value RequiredOption.kAny DefaultsOption.kDate iso0).2 /\
  forall result iso',
    Initialize env date_time_format locales undefined_value iso = (Just result, iso') ->
    exists requested_locales fields f calendar,
      CanonicalizeLocaleList env locales = Some requested_locales /\
      let r := ResolveLocale env (AvailableLocales env) requested_locales kBestFit
                 ["nu"; "ca"; "hc"] in
      result = date_time_format /\
      fields_at iso' result = Some fields /\
      JSDateTimeFormat.icu_simple_date_format fields = Some f /\
      sdf_pattern f =
        (if generator_ok env (no_extension (ResolvedLocale.icu_locale r))
         then getBestPattern env (no_extension (ResolvedLocale.icu_locale r)) "yMd"
         else "") /\
      sdf_calendar f = Some calendar /\
      calendar_time_zone calendar = createDefault env /\
      JSDateTimeFormat.hour_cycle fields = kUndefined.
Proof.
  intros Hfields0 iso0.
  split; [apply Initialize_without_options_run, Hfields0|].
  intros result iso' Hinit.
  assert (Hview : forall fields1 options iso1,
            fields_at iso date_time_format = Some fields1 ->
            ToDateTimeOptions undefined_value RequiredOption.kAny DefaultsOption.kDate
                (store_fields date_time_format (JSDateTimeFormat.set_flags_0 fields1) iso)
              = (Just options, iso1) ->
            forall name, view iso1 options name
                         = default undefined_value
                             (assoc name (default_properties true DefaultsOption.kDate))).
  { intros fields1 options iso1 _ Hopt name.
    apply ToDateTimeOptions_of_undefined in Hopt as [_ Hobj].
    apply (view_own _ _ _ _ Hobj). reflexivity. }
  destruct (Initialize_of_defaults env DefaultsOption.kDate _ _ _ _ _ _ Hinit Hview)
    as (requested & fields & f & calendar & Hcll & Hfields & Hf & Hpattern & Hcal & Hzone).
  exists requested, fields, f, calendar. split; [exact Hcll|]. cbv zeta.
  apply Initialize_inv in Hinit
    as (fields1 & iso1 & requested2 & options & matcher & hour12 & hourCycle & date_format
        & calendar2 & base & Hf1 & -> & _ & Hopt & _ & _ & _ & _ & _ & Hfields' & _).
  split; [reflexivity|]. split; [exact Hfields|].
  split; [exact Hf|]. split; [exact Hpattern|]. split; [exact Hcal|]. split; [exact Hzone|].
  rewrite Hfields in Hfields'. injection Hfields' as ->.
  cbn [JSDateTimeFormat.hour_cycle]. unfold absent. fold (view iso1 options "hour").
  rewrite (Hview fields1 options iso1 Hf1 Hopt). reflexivity.
Qed.

Lemma Initialize_without_options_witness :
  let iso := isolate_with_formatter (plain_object []) in
  exists iso' fields f,
    Initialize sample_env 2%positive undefined_value undefined_value iso
      = (Just 2%positive, iso') /\
    fields_at iso' 2%positive = Some fields /\
    JSDateTimeFormat.icu_simple_date_format fields = Some f /\
    sdf_pattern f = "yMd".
Proof.
  intros iso.
  destruct (Initialize sample_env 2%positive undefined_value undefined_value iso)
    as [[d| |] iso'] eqn:Hrun; try (vm_compute in Hrun; discriminate Hrun).
  destruct (Initialize_without_options sample_env 2%positive undefined_value iso
              JSDateTimeFormat.New eq_refl) as [_ H].
  destruct (H d iso' Hrun)
    as (requested & fields & f & calendar & Hcll & -> & Hfields & Hf & Hpattern & _).
  exists iso', fields, f. split; [reflexivity|]. split; [exact Hfields|]. split; [exact Hf|].
  rewrite Hpattern. injection Hcll as <-. reflexivity.
Defined.
